(** * INGEST phase: format detection, structural validation and cumulative
      reporting ([INGEST_PHASE/ingest_phase.py])

    A shallow embedding of the decision logic of [ingest_phase.py]: the four
    header validators, [detect_input_type], the four [parse_*] validators,
    the [ingest] orchestrator, the batch loop of [main] and the cumulative
    JSON report of [generate_report].

    Modelling conventions.
    - Python [str] values are Rocq [string]s; a character is a code point
      below 256.
    - A function that can raise returns [result A]: [Ok a] for a normal
      return, [Raise e] for an exception [e] that propagates to the caller.
      Every [try]/[except] of the source is a [match] on such a result.
    - The file system, the clock and the external [samtools] program are
      read-only inputs gathered in a [world].
    - Log lines ([logger.info], [logger.warning]) are not part of any
      returned value; of them only the non-integer advisory of the
      count-matrix body loop is kept. *)

From Stdlib Require Import ZArith List String Ascii Bool Lia SpecFloat.
From stdpp Require Import base decidable countable gmap strings.

Local Open Scope string_scope.
Local Open Scope Z_scope.
Local Open Scope list_scope.

(** ** Python string built-ins *)

Module PyStr.

Definition chr (n : nat) : ascii := ascii_of_nat n.
Definition ord (c : ascii) : Z := Z.of_nat (nat_of_ascii c).

Definition LF : ascii := chr 10.
Definition TAB : ascii := chr 9.

(** [str.isspace] for one character: the code points below 256 that
    Python treats as whitespace. *)
Definition is_space (c : ascii) : bool :=
  let n := ord c in
  ((9 <=? n) && (n <=? 13)) || ((28 <=? n) && (n <=? 32))
  || (n =? 133) || (n =? 160).

(** [str.isalnum] for one character (code points below 256). *)
Definition is_alnum_char (c : ascii) : bool :=
  let n := ord c in
  ((48 <=? n) && (n <=? 57)) || ((65 <=? n) && (n <=? 90))
  || ((97 <=? n) && (n <=? 122))
  || (n =? 170) || (n =? 178) || (n =? 179) || (n =? 181) || (n =? 185)
  || (n =? 186) || ((188 <=? n) && (n <=? 190))
  || ((192 <=? n) && (n <=? 214)) || ((216 <=? n) && (n <=? 246))
  || (248 <=? n).

Definition lower_char (c : ascii) : ascii :=
  let n := ord c in
  if ((65 <=? n) && (n <=? 90))
     || ((192 <=? n) && (n <=? 222) && negb (n =? 215))
  then chr (Z.to_nat (n + 32)) else c.

Fixpoint map_chars (f : ascii -> ascii) (s : string) : string :=
  match s with
  | EmptyString => EmptyString
  | String c s' => String (f c) (map_chars f s')
  end.

(** [s.lower()] *)
Definition lower (s : string) : string := map_chars lower_char s.

(** [s.startswith(p)] *)
Definition startswith (s p : string) : bool := String.prefix p s.

(** [p in s] for strings. *)
Fixpoint contains (s p : string) : bool :=
  String.prefix p s ||
  match s with
  | EmptyString => false
  | String _ s' => contains s' p
  end.

(** [all(P(c) for c in s)] and [any(P(c) for c in s)] *)
Fixpoint all_chars (P : ascii -> bool) (s : string) : bool :=
  match s with
  | EmptyString => true
  | String c s' => P c && all_chars P s'
  end.

Definition any_chars (P : ascii -> bool) (s : string) : bool :=
  negb (all_chars (fun c => negb (P c)) s).

(** [s.isalnum()]: every character is alphanumeric and [s] is not empty. *)
Definition isalnum (s : string) : bool :=
  match s with
  | EmptyString => false
  | _ => all_chars is_alnum_char s
  end.

Fixpoint lstrip_by (P : ascii -> bool) (s : string) : string :=
  match s with
  | EmptyString => EmptyString
  | String c s' => if P c then lstrip_by P s' else s
  end.

Fixpoint rstrip_by (P : ascii -> bool) (s : string) : string :=
  match s with
  | EmptyString => EmptyString
  | String c s' =>
      match rstrip_by P s' with
      | EmptyString => if P c then EmptyString else String c EmptyString
      | r => String c r
      end
  end.

(** [s.strip()] *)
Definition strip (s : string) : string :=
  rstrip_by is_space (lstrip_by is_space s).

(** [s.rstrip('\n')] *)
Definition rstrip_newline (s : string) : string :=
  rstrip_by (Ascii.eqb LF) s.

(** [s.split(sep)] for a one-character separator: never empty. *)
Fixpoint split_on (sep : ascii) (s : string) : list string :=
  match s with
  | EmptyString => [EmptyString]
  | String c s' =>
      if Ascii.eqb c sep then EmptyString :: split_on sep s'
      else
        match split_on sep s' with
        | w :: ws => String c w :: ws
        | [] => [String c EmptyString]
        end
  end.

(** [s.split()]: the maximal runs of non-whitespace characters. *)
Fixpoint split_ws_aux (s : string) (cur : string) : list string :=
  match s with
  | EmptyString =>
      match cur with EmptyString => [] | _ => [cur] end
  | String c s' =>
      if is_space c then
        match cur with
        | EmptyString => split_ws_aux s' EmptyString
        | _ => cur :: split_ws_aux s' EmptyString
        end
      else split_ws_aux s' (cur +:+ String c EmptyString)
  end.

Definition split_ws (s : string) : list string := split_ws_aux s EmptyString.

(** [s.replace(old, new)] for a non-empty [old]: the occurrences are taken
    from left to right and do not overlap.  [skip] counts the characters
    of an occurrence that has just been replaced. *)
Fixpoint replace_from (old new s : string) (skip : nat) : string :=
  match s with
  | EmptyString => EmptyString
  | String c s' =>
      match skip with
      | S k => replace_from old new s' k
      | O =>
          if String.prefix old s
          then new +:+ replace_from old new s' (String.length old - 1)
          else String c (replace_from old new s' O)
      end
  end.

Definition replace (s old new : string) : string := replace_from old new s O.

(** [s[:n]] *)
Definition take (n : nat) (s : string) : string := String.substring 0 n s.

(** The lines of a text as [readline], [readlines] and iteration over a
    file object yield them: each line keeps its final newline, the last
    one may lack it, and an empty text has no line. *)
Fixpoint lines_from (s : string) (cur : string) : list string :=
  match s with
  | EmptyString =>
      match cur with EmptyString => [] | _ => [cur] end
  | String c s' =>
      if Ascii.eqb c LF
      then (cur +:+ String c EmptyString) :: lines_from s' EmptyString
      else lines_from s' (cur +:+ String c EmptyString)
  end.

Definition splitlines_keep (s : string) : list string :=
  lines_from s EmptyString.

End PyStr.

(** ** Exceptions and fallible computations *)

(** The exception classes the modelled code can meet.  All of them derive
    from [Exception], so every [except Exception] handler catches them;
    [except ValueError] catches [ValueError] and its subclasses
    ([UnicodeDecodeError], [JSONDecodeError]) only. *)
Inductive exn : Type :=
  | FileNotFoundError
  | PermissionError
  | IsADirectoryError
  | OSError
  | UnicodeDecodeError
  | BadGzipFile
  | EOFError
  | ValueError
  | OverflowError
  | IndexError
  | AttributeError
  | TypeError
  | JSONDecodeError
  | TimeoutExpired.

Definition is_ValueError (e : exn) : bool :=
  match e with
  | ValueError | UnicodeDecodeError | JSONDecodeError => true
  | _ => false
  end.

Inductive result (A : Type) : Type :=
  | Ok (a : A)
  | Raise (e : exn).
Arguments Ok {A} a.
Arguments Raise {A} e.

Definition bind {A B : Type} (m : result A) (k : A -> result B) : result B :=
  match m with
  | Ok a => k a
  | Raise e => Raise e
  end.

Notation "'let*' p ':=' m 'in' k" := (bind m (fun p => k))
  (at level 10, p pattern, m at level 100, k at level 200).

(** [try: m except Exception as e: h e] *)
Definition try_except {A : Type} (m : result A) (h : exn -> result A)
  : result A :=
  match m with
  | Ok a => Ok a
  | Raise e => h e
  end.

Definition returns {A : Type} (m : result A) : Prop := exists a, m = Ok a.

(** ** Python numbers: [float(str)], [int(float)], [int(str)] *)

Module PyNum.
Import PyStr.

(** Python floats are IEEE binary64 values. *)
Definition prec : Z := 53.
Definition emax : Z := 1024.
Definition float := spec_float.

Definition is_digit (c : ascii) : bool :=
  let n := ord c in (48 <=? n) && (n <=? 57).
Definition digit_val (c : ascii) : Z := ord c - 48.

(** The rest of a [digitpart] after its first digit: digits, each
    optionally preceded by one underscore.  Returns the accumulated value,
    the number of digits and the unread rest. *)
Fixpoint scan_digits (s : string) (acc cnt : Z) : Z * Z * string :=
  match s with
  | EmptyString => (acc, cnt, EmptyString)
  | String c s' =>
      if is_digit c then scan_digits s' (10 * acc + digit_val c) (cnt + 1)
      else if Ascii.eqb c "_" then
        match s' with
        | String d s'' =>
            if is_digit d
            then scan_digits s'' (10 * acc + digit_val d) (cnt + 1)
            else (acc, cnt, s)
        | EmptyString => (acc, cnt, s)
        end
      else (acc, cnt, s)
  end.

(** [digitpart ::= digit (["_"] digit)*], continuing an accumulator. *)
Definition digitpart (s : string) (acc cnt : Z) : option (Z * Z * string) :=
  match s with
  | String c s' =>
      if is_digit c
      then Some (scan_digits s' (10 * acc + digit_val c) (cnt + 1))
      else None
  | EmptyString => None
  end.

(** [sign ::= "+" | "-"], optional: [true] for a minus sign. *)
Definition opt_sign (s : string) : bool * string :=
  match s with
  | String c s' =>
      if Ascii.eqb c "-" then (true, s')
      else if Ascii.eqb c "+" then (false, s')
      else (false, s)
  | EmptyString => (false, s)
  end.

(** [number ::= [digitpart] "." digitpart | digitpart ["."]]: the digits
    read as one integer, the number of digits after the point, the rest. *)
Definition number (s : string) : option (Z * Z * string) :=
  match s with
  | String c s' =>
      if Ascii.eqb c "." then
        match digitpart s' 0 0 with
        | Some (m, n, rest) => Some (m, n, rest)
        | None => None
        end
      else
        match digitpart s 0 0 with
        | Some (m, _, rest) =>
            match rest with
            | String d rest' =>
                if Ascii.eqb d "." then
                  match digitpart rest' m 0 with
                  | Some (m', n, rest'') => Some (m', n, rest'')
                  | None => Some (m, 0, rest')
                  end
                else Some (m, 0, rest)
            | EmptyString => Some (m, 0, rest)
            end
        | None => None
        end
  | EmptyString => None
  end.

(** [exponent ::= ("e" | "E") [sign] digitpart], optional; the whole
    literal must be consumed. *)
Definition exponent (s : string) : option Z :=
  match s with
  | EmptyString => Some 0
  | String c s' =>
      if Ascii.eqb c "e" || Ascii.eqb c "E" then
        let '(neg, s'') := opt_sign s' in
        match digitpart s'' 0 0 with
        | Some (e, _, EmptyString) => Some (if neg then - e else e)
        | _ => None
        end
      else None
  end.

(** The binary64 value nearest to [(-1)^neg * m * 10^e] (ties to even;
    values beyond the range become infinities, as in CPython). *)
Definition round_decimal (neg : bool) (m e : Z) : float :=
  match m with
  | Zpos p =>
      if 0 <=? e
      then
        match p * Z.to_pos (10 ^ e) with
        | q => binary_round prec emax neg q 0
        end%positive
      else SFdiv prec emax (S754_finite neg p 0)
                 (S754_finite false (Z.to_pos (10 ^ (- e))) 0)
  | _ => S754_zero neg
  end.

(** [float(s)] for a string of code points below 256: [None] stands for
    [ValueError]. *)
Definition py_float (s : string) : option float :=
  let '(neg, body) := opt_sign (strip s) in
  let low := lower body in
  if String.eqb low "inf" || String.eqb low "infinity"
  then Some (S754_infinity neg)
  else if String.eqb low "nan" then Some S754_nan
  else
    match number body with
    | Some (m, nfrac, rest) =>
        match exponent rest with
        | Some e => Some (round_decimal neg m (e - nfrac))
        | None => None
        end
    | None => None
    end.

(** [val < 0] *)
Definition lt_zero (f : float) : bool := SFltb f (S754_zero false).

(** [int(val)]: truncation toward zero; raises on infinities and NaN. *)
Definition int_of_float (f : float) : result Z :=
  match f with
  | S754_zero _ => Ok 0
  | S754_infinity _ => Raise OverflowError
  | S754_nan => Raise ValueError
  | S754_finite s m e =>
      let a := if 0 <=? e then Z.shiftl (Zpos m) e
               else Z.shiftr (Zpos m) (- e) in
      Ok (if s then - a else a)
  end.

(** [val != n] for a float [val] and an integer [n]: Python compares the
    exact values. *)
Definition ne_int (f : float) (n : Z) : bool :=
  match f with
  | S754_zero _ => negb (n =? 0)
  | S754_infinity _ | S754_nan => true
  | S754_finite s m e =>
      let sm := if s then Zneg m else Zpos m in
      if 0 <=? e then negb (Z.shiftl sm e =? n)
      else negb (sm =? Z.shiftl n (- e))
  end.

(** [int(s)] for a decimal literal: [None] stands for [ValueError]. *)
Definition py_int (s : string) : option Z :=
  let '(neg, body) := opt_sign (strip s) in
  match digitpart body 0 0 with
  | Some (n, _, EmptyString) => Some (if neg then - n else n)
  | _ => None
  end.

End PyNum.

(** ** The environment: files, paths, the clock and [samtools] *)

(** A [pathlib.Path] object.  [path_str] is [str(path)], [name] its final
    component.  Every function below receives the [Path] object that the
    source builds on entry; [Path(str(p))] is [p] again. *)
Record Path : Type := mkPath { path_str : string; name : string }.

Module PathLib.
(** [name.rfind('.')]: the index of the last dot, scanning from [i]. *)
Fixpoint rfind_dot (s : string) (i : nat) (last : option nat) : option nat :=
  match s with
  | EmptyString => last
  | String c s' =>
      rfind_dot s' (S i) (if Ascii.eqb c "." then Some i else last)
  end.

(** The split point of [suffix] and [stem]: [i] with
    [0 < i < len(name) - 1], where [i = name.rfind('.')]. *)
Definition split_point (nm : string) : option nat :=
  match rfind_dot nm 0%nat None with
  | Some i =>
      if (0 <? i)%nat && (S i <? String.length nm)%nat then Some i else None
  | None => None
  end.

Definition suffix (p : Path) : string :=
  match split_point (name p) with
  | Some i => String.substring i (String.length (name p) - i) (name p)
  | None => EmptyString
  end.

Definition stem (p : Path) : string :=
  match split_point (name p) with
  | Some i => String.substring 0 i (name p)
  | None => name p
  end.
End PathLib.

(** The decoded text of a file opened for reading: the characters a reader
    obtains, followed either by the end of the file ([None]) or by an
    exception raised when the reader asks for more (a decoding error, a
    truncated gzip member). *)
Record stream : Type := mkStream { s_text : string; s_fail : option exn }.

(** An existing file: its size and what the three ways of opening it give. *)
Record file : Type := mkFile {
  st_size : Z;               (* file_path.stat().st_size *)
  open_rb : result string;   (* open(path, 'rb'): the bytes *)
  open_rt : result stream;   (* open(path, 'r') *)
  open_gz : result stream    (* gzip.open(path, 'rt'); data that is not
                                gzip raises at the first read, which every
                                caller issues right after opening *)
}.

Record world : Type := mkWorld {
  fs : string -> option file;              (* [None]: no such file *)
  samtools : string -> result (Z * string);
    (* subprocess.run(['samtools', 'flagstat', path], ...): return code and
       stdout, or the exception raised by [run] *)
  clock : string                           (* datetime.now().isoformat() *)
}.

Module IO.
Import PyStr.

(** [path.exists()] *)
Definition exists_ (w : world) (p : Path) : bool :=
  match fs w (path_str p) with Some _ => true | None => false end.

(** [path.stat().st_size] *)
Definition stat_size (w : world) (p : Path) : result Z :=
  match fs w (path_str p) with
  | Some f => Ok (st_size f)
  | None => Raise FileNotFoundError
  end.

Definition with_file {A : Type} (w : world) (p : Path)
    (k : file -> result A) : result A :=
  match fs w (path_str p) with
  | Some f => k f
  | None => Raise FileNotFoundError
  end.

(** A text file object while it is read: the lines not yet consumed and
    the way the stream ends. *)
Record reader : Type := mkReader { r_lines : list string; r_fail : option exn }.

Definition reader_of (s : stream) : reader :=
  mkReader (splitlines_keep (s_text s)) (s_fail s).

(** [open(path, 'r')] *)
Definition open_text (w : world) (p : Path) : result reader :=
  with_file w p (fun f => let* s := open_rt f in Ok (reader_of s)).

(** [gzip.open(path, 'rt') if path.suffix == '.gz' else open(path, 'r')] *)
Definition open_fastq (w : world) (p : Path) : result reader :=
  with_file w p (fun f =>
    let* s := (if String.eqb (PathLib.suffix p) ".gz" then open_gz f else open_rt f) in
    Ok (reader_of s)).

(** [open(path, 'rb')] followed by [f.read(n)] *)
Definition read_bytes (w : world) (p : Path) (n : nat) : result string :=
  with_file w p (fun f => let* b := open_rb f in Ok (take n b)).

(** [f.readline()]: the next line, or [''] at the end of the file. *)
Definition readline (r : reader) : result (string * reader) :=
  match r_lines r with
  | l :: ls => Ok (l, mkReader ls (r_fail r))
  | [] =>
      match r_fail r with
      | Some e => Raise e
      | None => Ok (EmptyString, r)
      end
  end.

(** [f.readlines()], and the end of a [for line in f] loop that was not
    left by [break]: the whole stream is consumed. *)
Definition at_eof (r : reader) : result unit :=
  match r_fail r with
  | Some e => Raise e
  | None => Ok tt
  end.

Definition readlines (r : reader) : result (list string) :=
  let* _ := at_eof r in Ok (r_lines r).

(** [lst[i]] *)
Definition index {A : Type} (l : list A) (i : nat) : result A :=
  match nth_error l i with
  | Some a => Ok a
  | None => Raise IndexError
  end.
End IO.

(** ** Result records *)

Inductive InputType : Type := FASTQ | BAM | CELL | MATRIX | UNKNOWN.
Inductive Status : Type := PASS | WARN | FAIL.

(** One entry of an error list.  Each constructor is one f-string of the
    source and carries the values the f-string interpolates. *)
Inductive diag : Type :=
  (* validate_count_matrix_structure *)
  | SColumnCount (line_num n_fields col_count : Z)
      (* "Line {line_num}: Column count {len(fields)} != header {col_count}" *)
  | SEmptyGeneId (line_num : Z)          (* "Line {line_num}: Empty gene ID" *)
  | SNegative (line_num : Z) (val : PyNum.float)
      (* "Line {line_num}: Negative count value {val}" *)
  | SNonNumeric (line_num : Z) (field : string)
      (* "Line {line_num}: Non-numeric value '{field}'" *)
  (* parse_fastq *)
  | QHeader (read : Z)         (* "Read {n}: Header must start with @" *)
  | QPlus (read : Z)           (* "Read {n}: Plus line must start with +" *)
  | QLength (read : Z) (seq_len qual_len : nat)
      (* "Read {n}: Seq length ({..}) != Qual length ({..})" *)
  | QNucleotides (read : Z) (invalid_chars : gset ascii)
      (* "Read {n}: Invalid nucleotides: {invalid_chars}" *)
  (* parse_cell *)
  | CMinColumns                (* "CELL data must have at least 3 columns" *)
  | CColumnCount (line_num : Z) (n_fields col_count : Z)
      (* "Line {line_num}: Column count mismatch ({..} vs {..})" *)
  | CProbeId (line_num : Z) (probe_id : string)
      (* "Line {line_num}: Invalid probe ID format: {probe_id}" *)
  | CNegative (line_num : Z) (val : PyNum.float)
      (* "Line {line_num}: Negative intensity value {val}" *)
  | CNonNumeric (line_num col_idx : Z) (field : string)
      (* "Line {line_num}, Col {col_idx}: Non-numeric value '{field}'" *)
  (* parse_count_matrix *)
  | MMinColumns   (* "Matrix must have at least 2 columns (gene_id + samples)" *)
  | MColumnCount (line_num : Z)   (* "Line {line_num}: Column count mismatch" *)
  | MEmptyGeneId (line_num : Z)   (* "Line {line_num}: Empty gene ID" *)
  | MNegative (line_num : Z) (val : PyNum.float)
      (* "Line {line_num}: Negative count {val}" *)
  | MNonNumeric (line_num : Z) (field : string).
      (* "Line {line_num}: Non-numeric value '{field}'" *)

(** A line written by [logger.warning] inside a body check. *)
Inductive advisory : Type :=
  | NonIntegerCount (line_num : Z) (val : PyNum.float).
      (* "Line {line_num}: Non-integer count {val}" *)

(** The second component of a header validator's [(bool, str)] result. *)
Inductive reason : Type :=
  (* validate_fastq_header *)
  | FewerThan4Lines
      (* "File has fewer than 4 lines (incomplete FASTQ record)" *)
  | HeaderNotAt (got : string)
      (* "Header line must start with '@', got: {header[:20]}" *)
  | PlusNotPlus (got : string)
      (* "Plus line must start with '+', got: {plus[:20]}" *)
  | InvalidNucleotides (invalid_chars : gset ascii)
      (* "Sequence contains invalid nucleotides: {invalid_chars}" *)
  | LengthMismatch (seq_len qual_len : nat)
      (* "Sequence length ({..}) != Quality length ({..})" *)
  | InvalidQuality   (* "Quality scores contain invalid ASCII characters" *)
  | ValidFastq       (* "Valid FASTQ format detected" *)
  | ErrorFastq (e : exn)            (* "Error validating FASTQ: {str(e)}" *)
  (* validate_bam_magic *)
  | ValidBamMagic    (* "Valid BAM magic number detected (BAM\\x01)" *)
  | InvalidBamMagic (magic : string)
      (* "Invalid BAM magic number: {hex_magic} (expected: 42 41 4d 01)" *)
  | ErrorBam (e : exn)              (* "Error validating BAM: {str(e)}" *)
  (* validate_cell_header *)
  | NoProbeColumn    (* "CELL data must have 'probe_id' column" *)
  | NoIntensityColumn
      (* "CELL data must have 'intensity' or 'signal' columns" *)
  | CellTooFewColumns
      (* "CELL data must have at least 3 columns (probe_id, ...)" *)
  | ValidCell (n_columns : nat)
      (* "Valid CELL microarray format detected ({len(header)} columns)" *)
  | ErrorCell (e : exn)             (* "Error validating CELL: {str(e)}" *)
  (* validate_count_matrix_structure *)
  | MatrixTooShort
      (* "Count matrix must have at least header + 1 data row" *)
  | MatrixTooFewColumns
      (* "Count matrix must have at least 2 columns (gene_id + sample)" *)
  | MatrixErrors (errors : list diag)
      (* "Matrix validation errors: {'; '.join(errors)}" *)
  | ValidMatrix (genes samples : Z)
      (* "Valid count matrix format ({..} genes x {..} samples)" *)
  | ErrorMatrix (e : exn).  (* "Error validating count matrix: {str(e)}" *)

(** [IngestResult.validation_message] *)
Inductive message : Type :=
  | HeaderFailed (msg : reason)    (* "Header validation failed: {msg}" *)
  | MagicFailed (msg : reason)     (* "Magic bytes validation failed: {msg}" *)
  | StructureFailed (msg : reason) (* "Structure validation failed: {msg}" *)
  | FoundErrors (n : nat)          (* "Found {n} validation errors" *)
  | FastqSuccessful                (* "FASTQ validation successful" *)
  | CellSuccessful                 (* "CELL data validation successful" *)
  | MatrixSuccessful               (* "Count matrix validation successful" *)
  | BamSuccessful (total_reads : Z)
      (* "BAM validation successful ({total_reads} reads)" *)
  | BamMagicOnly
      (* "BAM magic number valid (samtools unavailable for read count)" *)
  | ParsingError (e : exn)         (* "Parsing error: {str(e)}" *)
  | UnknownFileType.               (* "Unknown file type" *)

(** The [IngestResult] dataclass.  [file_size_mb] is the float quotient
    [file_size / (1024 * 1024)]; it is determined by [file_size] and is not
    repeated here. *)
Record IngestResult : Type := mkIngestResult {
  dataset_id : string;
  input_type : InputType;
  file_path : string;
  file_size : Z;
  validation_status : Status;
  validation_message : message;
  file_count : Z;
  sample_name : string;
  is_paired_end : option bool;
  detected_format : option string;
  total_reads : option Z;
  sequence_length : option Z;
  timestamp : string
}.

(** ** The header validators ("expert validation methods") *)

Module Validators.
Import PyStr PyNum IO.

Definition Zlen {A : Type} (l : list A) : Z := Z.of_nat (length l).

(** [set(s)] for a string [s] *)
Definition char_set (s : string) : gset ascii :=
  list_to_set (list_ascii_of_string s).

Definition valid_nucleotides : gset ascii :=
  char_set "ACGTNacgtnRYWSKMBDHVryswkmbdhv".

(** [[f.readline().strip() for _ in range(n)]] *)
Fixpoint readline_strip_n (n : nat) (r : reader) : result (list string) :=
  match n with
  | O => Ok []
  | S k =>
      let* (l, r') := readline r in
      let* ls := readline_strip_n k r' in
      Ok (strip l :: ls)
  end.

(** The checks of [validate_fastq_header] once the four lines are read. *)
Definition fastq_header_checks (lines : list string) : result (bool * reason) :=
  if (length lines <? 4)%nat then Ok (false, FewerThan4Lines)
  else
    let* header := index lines 0 in
    let* seq := index lines 1 in
    let* plus := index lines 2 in
    let* qual := index lines 3 in
    if negb (startswith header "@") then
      Ok (false, HeaderNotAt (take 20 header))
    else if negb (startswith plus "+") then
      Ok (false, PlusNotPlus (take 20 plus))
    else if negb (all_chars (fun c => bool_decide (c ∈ valid_nucleotides)) seq)
    then Ok (false, InvalidNucleotides (char_set seq ∖ valid_nucleotides))
    else if negb (String.length seq =? String.length qual)%nat then
      Ok (false, LengthMismatch (String.length seq) (String.length qual))
    else if any_chars (fun c => (ord c <? 33) || (126 <? ord c)) qual then
      Ok (false, InvalidQuality)
    else Ok (true, ValidFastq).

Definition validate_fastq_header (w : world) (file_path : Path)
  : bool * reason :=
  match (let* r := open_fastq w file_path in
         let* lines := readline_strip_n 4 r in
         fastq_header_checks lines) with
  | Ok res => res
  | Raise e => (false, ErrorFastq e)
  end.

Definition BAM_MAGIC : string := "BAM" +:+ String (chr 1) EmptyString.

Definition validate_bam_magic (w : world) (file_path : Path)
  : bool * reason :=
  match read_bytes w file_path 4 with
  | Ok magic =>
      if String.eqb magic BAM_MAGIC then (true, ValidBamMagic)
      else (false, InvalidBamMagic magic)
  | Raise e => (false, ErrorBam e)
  end.

Definition validate_cell_header (w : world) (file_path : Path)
  : bool * reason :=
  match (let* r := open_text w file_path in
         let* (l, _) := readline r in
         Ok (split_on TAB (strip l))) with
  | Ok header =>
      let header_lower := map lower header in
      let has_probe_id := existsb (fun h => contains h "probe") header_lower in
      let has_intensity :=
        existsb (fun h => contains h "intensity" || contains h "signal")
                header_lower in
      if negb has_probe_id then (false, NoProbeColumn)
      else if negb has_intensity then (false, NoIntensityColumn)
      else if (length header <? 3)%nat then (false, CellTooFewColumns)
      else (true, ValidCell (length header))
  | Raise e => (false, ErrorCell e)
  end.

(** [if len(errors) < 5: errors.append(d)] *)
Definition append_capped (errors : list diag) (d : diag) : list diag :=
  if (length errors <? 5)%nat then errors ++ [d] else errors.

(** One pass of the loop [for col_idx in range(1, len(fields))] of
    [validate_count_matrix_structure], over the fields from index 1 on. *)
Fixpoint structure_fields (line_num : Z) (fields : list string)
    (errors : list diag) : list diag :=
  match fields with
  | [] => errors
  | fld :: rest =>
      let errors' :=
        match py_float fld with
        | Some val =>
            if lt_zero val then append_capped errors (SNegative line_num val)
            else errors
        | None => append_capped errors (SNonNumeric line_num fld)
        end in
      structure_fields line_num rest errors'
  end.

(** The body of the loop [for line_num, line in enumerate(lines[1:], start=2)]
    for one line. *)
Definition structure_row (col_count : Z) (line_num : Z) (line : string)
    (errors : list diag) : result (list diag) :=
  let fields := split_on TAB (strip line) in
  let errors1 :=
    if negb (Zlen fields =? col_count)
    then append_capped errors
           (SColumnCount line_num (Zlen fields) col_count)
    else errors in
  let* f0 := index fields 0 in
  let errors2 :=
    if String.eqb f0 "" || String.eqb (strip f0) ""
    then append_capped errors1 (SEmptyGeneId line_num)
    else errors1 in
  Ok (structure_fields line_num (tail fields) errors2).

Fixpoint structure_rows (col_count : Z) (line_num : Z) (rows : list string)
    (errors : list diag) : result (list diag) :=
  match rows with
  | [] => Ok errors
  | line :: rest =>
      let* errors' := structure_row col_count line_num line errors in
      structure_rows col_count (line_num + 1) rest errors'
  end.

Definition matrix_structure_checks (lines : list string)
  : result (bool * reason) :=
  if (length lines <? 2)%nat then Ok (false, MatrixTooShort)
  else
    let* l0 := index lines 0 in
    let header := split_on TAB (strip l0) in
    if (length header <? 2)%nat then Ok (false, MatrixTooFewColumns)
    else
      let col_count := Zlen header in
      let* errors := structure_rows col_count 2 (tail lines) [] in
      match errors with
      | _ :: _ => Ok (false, MatrixErrors errors)
      | [] => Ok (true, ValidMatrix (Zlen lines - 1) (col_count - 1))
      end.

Definition validate_count_matrix_structure (w : world) (file_path : Path)
  : bool * reason :=
  match (let* r := open_text w file_path in
         let* lines := readlines r in
         matrix_structure_checks lines) with
  | Ok res => res
  | Raise e => (false, ErrorMatrix e)
  end.

End Validators.

(** ** Step 2: [detect_input_type] *)

Module Detect.
Import PyStr IO Validators.

Definition mem (x : string) (l : list string) : bool :=
  existsb (String.eqb x) l.

Definition detect_input_type (w : world) (file_path : Path)
  : InputType * string :=
  let extension := lower (PathLib.suffix file_path) in
  let fastq_hit :=
    if mem extension [".fastq"; ".fq"; ".gz"]
       && existsb (fun x => contains (name file_path) x) ["fastq"; "fq"]
    then fst (validate_fastq_header w file_path) else false in
  if fastq_hit then
    (FASTQ, if negb (String.eqb extension ".gz") then "FASTQ (uncompressed)"
            else "FASTQ (gzip compressed)")
  else
    let bam_hit :=
      if String.eqb extension ".bam"
      then fst (validate_bam_magic w file_path) else false in
    if bam_hit then (BAM, "BAM (Binary Alignment Map)")
    else
      if mem extension [".tsv"; ".csv"; ".txt"] then
        if fst (validate_cell_header w file_path) then
          (CELL, "CELL Microarray Data")
        else if fst (validate_count_matrix_structure w file_path) then
          (MATRIX, "Count Matrix (Processed Expression Data)")
        else (UNKNOWN, "Unknown format")
      else (UNKNOWN, "Unknown format").

End Detect.

(** ** Step 3: the [parse_*] validators *)

Module Parse.
Import PyStr PyNum IO Validators.

(** [IngestResult(...)] with the optional fields left at their defaults. *)
Definition basic_result (w : world) (id : string) (ty : InputType)
    (p : Path) (size : Z) (st : Status) (msg : message) (sample : string)
  : IngestResult :=
  mkIngestResult id ty (path_str p) size st msg 1 sample
                 None None None None (clock w).

(** The status tier, as each validator computes it:
    [if validation_errors: 'FAIL' if len(validation_errors) > 10 else 'WARN']
    [else: 'PASS']. *)
Definition status_of_errors (validation_errors : list diag) : Status :=
  match validation_errors with
  | _ :: _ => if (10 <? length validation_errors)%nat then FAIL else WARN
  | [] => PASS
  end.

Definition message_of_errors (validation_errors : list diag)
    (success : message) : message :=
  match validation_errors with
  | _ :: _ => FoundErrors (length validation_errors)
  | [] => success
  end.

(** *** [parse_fastq] *)

Definition fastq_sample_name (p : Path) : string :=
  replace (replace (replace (PathLib.stem p) ".fastq" "") ".fq" "") ".gz" "".

Record fastq_state : Type := mkFastqState {
  q_lines : list string;
  q_read_count : Z;
  q_errors : list diag;
  q_sequence_lengths : list nat
}.

(** [header, seq, plus, qual = lines] *)
Definition unpack4 (lines : list string)
  : result (string * string * string * string) :=
  match lines with
  | [a; b; c; d] => Ok (a, b, c, d)
  | _ => Raise ValueError
  end.

(** The checks on one complete four-line record. *)
Definition fastq_record_checks (read_count : Z)
    (header seq plus qual : string) (errors : list diag) : list diag :=
  let e1 := if negb (startswith header "@")
            then errors ++ [QHeader read_count] else errors in
  let e2 := if negb (startswith plus "+")
            then e1 ++ [QPlus read_count] else e1 in
  let e3 := if negb (String.length seq =? String.length qual)%nat
            then e2 ++ [QLength read_count (String.length seq)
                                (String.length qual)]
            else e2 in
  let invalid_chars := char_set seq ∖ valid_nucleotides in
  if bool_decide (invalid_chars ≠ ∅) then
    if read_count <=? 5 then e3 ++ [QNucleotides read_count invalid_chars]
    else e3
  else e3.

(** The loop [for line_num, line in enumerate(f)].  The boolean tells
    whether the loop was left by [break]. *)
Fixpoint fastq_loop (ls : list string) (st : fastq_state)
  : result (fastq_state * bool) :=
  match ls with
  | [] => Ok (st, false)
  | line :: rest =>
      let lines := q_lines st ++ [rstrip_newline line] in
      if (length lines =? 4)%nat then
        let read_count := q_read_count st + 1 in
        let* (header, seq, plus, qual) := unpack4 lines in
        let errors :=
          fastq_record_checks read_count header seq plus qual (q_errors st) in
        let lengths := q_sequence_lengths st ++ [String.length seq] in
        if 1000 <? read_count
        then Ok (mkFastqState lines read_count errors lengths, true)
        else fastq_loop rest (mkFastqState [] read_count errors lengths)
      else
        fastq_loop rest
          (mkFastqState lines (q_read_count st) (q_errors st)
                        (q_sequence_lengths st))
  end.

Definition fastq_body (r : reader) : result fastq_state :=
  let* res := fastq_loop (r_lines r) (mkFastqState [] 0 [] []) in
  let '(st, broke) := res in
  let* _ := (if broke then Ok tt else at_eof r) in
  Ok st.

(** [int(sum(lengths) / len(lengths)) if lengths else 0]; the float
    quotient truncates to the integer quotient for every sum a sample of
    at most 1001 reads can reach. *)
Definition average_length (lengths : list nat) : Z :=
  match lengths with
  | [] => 0
  | _ => Z.of_nat (list_sum lengths) / Zlen lengths
  end.

Definition parse_fastq (w : world) (file_path : Path) : result IngestResult :=
  let sample_name := fastq_sample_name file_path in
  try_except
    (let '(is_valid, header_msg) := validate_fastq_header w file_path in
     if negb is_valid then
       let* size := stat_size w file_path in
       Ok (basic_result w sample_name FASTQ file_path size FAIL
                        (HeaderFailed header_msg) sample_name)
     else
       let* r := open_fastq w file_path in
       let* st := fastq_body r in
       let validation_errors := q_errors st in
       let is_paired :=
         existsb (fun pat => contains (name file_path) pat)
                 ["_R1"; "_R2"; "_1"; "_2"; ".1"; ".2"] in
       let avg_seq_length := average_length (q_sequence_lengths st) in
       let* size := stat_size w file_path in
       Ok (mkIngestResult sample_name FASTQ (path_str file_path) size
             (status_of_errors validation_errors)
             (message_of_errors validation_errors FastqSuccessful)
             1 sample_name (Some is_paired)
             (Some (if is_paired then "FASTQ (Paired-end)"
                    else "FASTQ (Single-end)"))
             (Some (q_read_count st)) (Some avg_seq_length) (clock w)))
    (fun e =>
       let* size := stat_size w file_path in
       Ok (basic_result w sample_name FASTQ file_path size FAIL
                        (ParsingError e) sample_name)).

(** *** [parse_bam] *)

(** The outcome of the inner [try] around [samtools flagstat]:
    status, message, [total_reads], [is_paired]. *)
Definition flagstat (w : world) (file_path : Path)
  : Status * message * option Z * option bool :=
  match (
    let* (returncode, stdout) := samtools w (path_str file_path) in
    if returncode =? 0 then
      let lines := split_on LF (strip stdout) in
      let* total_reads :=
        match lines with
        | [] => Ok 0
        | _ =>
            let* l0 := index lines 0 in
            let* tok := index (split_ws l0) 0 in
            match py_int tok with
            | Some n => Ok n
            | None => Raise ValueError
            end
        end in
      Ok (PASS, BamSuccessful total_reads, Some total_reads,
          Some (0 <? total_reads))
    else Ok (PASS, BamMagicOnly, None, None)
  ) with
  | Ok res => res
  | Raise _ => (PASS, BamMagicOnly, None, None)
  end.

Definition bam_sample_name (p : Path) : string :=
  replace (PathLib.stem p) ".bam" "".

Definition parse_bam (w : world) (file_path : Path) : result IngestResult :=
  let sample_name := bam_sample_name file_path in
  try_except
    (let '(is_valid, magic_msg) := validate_bam_magic w file_path in
     if negb is_valid then
       let* size := stat_size w file_path in
       Ok (basic_result w sample_name BAM file_path size FAIL
                        (MagicFailed magic_msg) sample_name)
     else
       let '(status, msg, total, is_paired) := flagstat w file_path in
       let* size := stat_size w file_path in
       Ok (mkIngestResult sample_name BAM (path_str file_path) size
             status msg 1 sample_name is_paired
             (Some "BAM (Binary Alignment Map)") total None (clock w)))
    (fun e =>
       let* size := stat_size w file_path in
       Ok (basic_result w sample_name BAM file_path size FAIL
                        (ParsingError e) sample_name)).

(** *** [parse_cell] and [parse_count_matrix] *)

(** The mutable locals of the two tabular body loops. *)
Record table_state : Type := mkTableState {
  t_errors : list diag;
  t_advisories : list advisory;
  t_row_count : Z;
  t_col_count : Z
}.

Definition add_error (st : table_state) (d : diag) : table_state :=
  mkTableState (t_errors st ++ [d]) (t_advisories st)
               (t_row_count st) (t_col_count st).

Definition add_advisory (st : table_state) (a : advisory) : table_state :=
  mkTableState (t_errors st) (t_advisories st ++ [a])
               (t_row_count st) (t_col_count st).

(** [if row_count <= 5: validation_errors.append(d)] *)
Definition report (st : table_state) (d : diag) : table_state :=
  if t_row_count st <=? 5 then add_error st d else st.

(** [l[a:b]] *)
Definition slice {A : Type} (a b : Z) (l : list A) : list A :=
  firstn (Z.to_nat (b - a)) (skipn (Z.to_nat a) l).

(** The loop [for col_idx in range(2, min(len(fields), col_count))] of
    [parse_cell], over the fields it visits. *)
Fixpoint cell_fields (line_num col_idx : Z) (fields : list string)
    (st : table_state) : table_state :=
  match fields with
  | [] => st
  | fld :: rest =>
      let st' :=
        match py_float fld with
        | Some val =>
            if lt_zero val then report st (CNegative line_num val) else st
        | None => report st (CNonNumeric line_num col_idx fld)
        end in
      cell_fields line_num (col_idx + 1) rest st'
  end.

Definition cell_line (line_num : Z) (line : string) (st : table_state)
  : result table_state :=
  let fields := split_on TAB (strip line) in
  if line_num =? 0 then
    let st1 := mkTableState (t_errors st) (t_advisories st)
                            (t_row_count st) (Zlen fields) in
    Ok (if t_col_count st1 <? 3 then add_error st1 CMinColumns else st1)
  else
    let st1 := mkTableState (t_errors st) (t_advisories st)
                            (t_row_count st + 1) (t_col_count st) in
    let st2 := if negb (Zlen fields =? t_col_count st1)
               then report st1 (CColumnCount line_num (Zlen fields)
                                             (t_col_count st1))
               else st1 in
    let* probe_id := index fields 0 in
    let st3 := if negb (isalnum (replace (replace probe_id "_" "") "-" ""))
               then report st2 (CProbeId line_num probe_id)
               else st2 in
    Ok (cell_fields line_num 2
          (slice 2 (Z.min (Zlen fields) (t_col_count st3)) fields) st3).

(** [for line_num, line in enumerate(f): body line_num line] *)
Fixpoint enumerate_lines
    (body : Z -> string -> table_state -> result table_state)
    (line_num : Z) (ls : list string) (st : table_state)
  : result table_state :=
  match ls with
  | [] => Ok st
  | line :: rest =>
      let* st' := body line_num line st in
      enumerate_lines body (line_num + 1) rest st'
  end.

Definition table_body
    (body : Z -> string -> table_state -> result table_state) (r : reader)
  : result table_state :=
  let* st := enumerate_lines body 0 (r_lines r) (mkTableState [] [] 0 0) in
  let* _ := at_eof r in
  Ok st.

Definition parse_cell (w : world) (file_path : Path) : result IngestResult :=
  let sample_name := PathLib.stem file_path in
  try_except
    (let '(is_valid, header_msg) := validate_cell_header w file_path in
     if negb is_valid then
       let* size := stat_size w file_path in
       Ok (basic_result w sample_name CELL file_path size FAIL
                        (HeaderFailed header_msg) sample_name)
     else
       let* r := open_text w file_path in
       let* st := table_body cell_line r in
       let validation_errors := t_errors st in
       let* size := stat_size w file_path in
       Ok (mkIngestResult sample_name CELL (path_str file_path) size
             (status_of_errors validation_errors)
             (message_of_errors validation_errors CellSuccessful)
             1 sample_name None (Some "CELL Microarray Data")
             (Some (t_row_count st)) (Some (t_col_count st)) (clock w)))
    (fun e =>
       let* size := stat_size w file_path in
       Ok (basic_result w sample_name CELL file_path size FAIL
                        (ParsingError e) sample_name)).

(** The body of the loop [for col_idx in range(1, len(fields))] of
    [parse_count_matrix] for one field:
    [try: val = float(field); if val < 0: ...; if val != int(val) and ...]
    [except ValueError: ...]. *)
Definition count_field (line_num : Z) (field : string) (st : table_state)
  : result table_state :=
  match py_float field with
  | None => Ok (report st (MNonNumeric line_num field))
  | Some val =>
      let st1 := if lt_zero val then report st (MNegative line_num val)
                 else st in
      match int_of_float val with
      | Ok n =>
          Ok (if ne_int val n && (t_row_count st1 <=? 5)
              then add_advisory st1 (NonIntegerCount line_num val)
              else st1)
      | Raise e =>
          if is_ValueError e
          then Ok (report st1 (MNonNumeric line_num field))
          else Raise e
      end
  end.

Fixpoint count_fields (line_num : Z) (fields : list string)
    (st : table_state) : result table_state :=
  match fields with
  | [] => Ok st
  | fld :: rest =>
      let* st' := count_field line_num fld st in
      count_fields line_num rest st'
  end.

Definition matrix_line (line_num : Z) (line : string) (st : table_state)
  : result table_state :=
  let fields := if startswith line ","
                then split_on "," (strip line)
                else split_on TAB (strip line) in
  if line_num =? 0 then
    let st1 := mkTableState (t_errors st) (t_advisories st)
                            (t_row_count st) (Zlen fields) in
    Ok (if t_col_count st1 <? 2 then add_error st1 MMinColumns else st1)
  else
    let st1 := mkTableState (t_errors st) (t_advisories st)
                            (t_row_count st + 1) (t_col_count st) in
    let st2 := if negb (Zlen fields =? t_col_count st1)
               then report st1 (MColumnCount line_num) else st1 in
    let* gene_id := index fields 0 in
    let st3 := if String.eqb gene_id ""
               then report st2 (MEmptyGeneId line_num) else st2 in
    count_fields line_num (tail fields) st3.

Definition parse_count_matrix (w : world) (file_path : Path)
  : result IngestResult :=
  let sample_name := PathLib.stem file_path in
  try_except
    (let '(is_valid, structure_msg) :=
       validate_count_matrix_structure w file_path in
     if negb is_valid then
       let* size := stat_size w file_path in
       Ok (basic_result w sample_name MATRIX file_path size FAIL
                        (StructureFailed structure_msg) sample_name)
     else
       let* r := open_text w file_path in
       let* st := table_body matrix_line r in
       let validation_errors := t_errors st in
       let* size := stat_size w file_path in
       Ok (mkIngestResult sample_name MATRIX (path_str file_path) size
             (status_of_errors validation_errors)
             (message_of_errors validation_errors MatrixSuccessful)
             1 sample_name None
             (Some "Count Matrix (Processed Expression Data)")
             (Some (t_row_count st)) (Some (t_col_count st - 1)) (clock w)))
    (fun e =>
       let* size := stat_size w file_path in
       Ok (basic_result w sample_name MATRIX file_path size FAIL
                        (ParsingError e) sample_name)).

End Parse.

(** ** The orchestrator [ingest] and the batch loop of [main] *)

Module Ingest.
Import IO Detect Parse.

Definition ingest (w : world) (file_path : Path) (dataset_id : option string)
  : result IngestResult :=
  let dataset_id :=
    match dataset_id with
    | Some d => d
    | None => PathLib.stem file_path
    end in
  let sample_name := PathLib.stem file_path in
  let '(input_type, detected_format) := detect_input_type w file_path in
  match input_type with
  | FASTQ => parse_fastq w file_path
  | BAM => parse_bam w file_path
  | CELL => parse_cell w file_path
  | MATRIX => parse_count_matrix w file_path
  | UNKNOWN =>
      let* size := stat_size w file_path in
      Ok (basic_result w dataset_id UNKNOWN file_path size FAIL
                       UnknownFileType sample_name)
  end.

(** The loop [for idx, sample_file in enumerate(args.samples, 1)] of
    [main]: a path that does not exist is reported on the console and
    skipped; the others go through [ingest].  The value is
    [ingest.results]. *)
Fixpoint process_samples (w : world) (samples : list Path)
    (dataset_id : option string) : result (list IngestResult) :=
  match samples with
  | [] => Ok []
  | sample_path :: rest =>
      if negb (exists_ w sample_path)
      then process_samples w rest dataset_id
      else
        let* r := ingest w sample_path dataset_id in
        let* rs := process_samples w rest dataset_id in
        Ok (r :: rs)
  end.

End Ingest.

(** ** Cumulative reporting: [generate_report] *)

Module Report.
Import PyStr PyNum Validators.

(** The Python value [json.load] returns, and [json.dump] writes. *)
#[local] Unset Elimination Schemes.
Inductive json : Type :=
  | JNull
  | JBool (b : bool)
  | JInt (n : Z)
  | JFloat (f : float)
  | JStr (s : string)
  | JArr (items : list json)
  | JObj (fields : list (string * json)).
#[local] Set Elimination Schemes.

Definition input_type_str (t : InputType) : string :=
  match t with
  | FASTQ => "FASTQ" | BAM => "BAM" | CELL => "CELL"
  | MATRIX => "MATRIX" | UNKNOWN => "UNKNOWN"
  end.

Definition status_str (s : Status) : string :=
  match s with PASS => "PASS" | WARN => "WARN" | FAIL => "FAIL" end.

Definition opt_json {A : Type} (f : A -> json) (o : option A) : json :=
  match o with Some a => f a | None => JNull end.

(** [file_size / (1024 * 1024)] *)
Definition file_size_mb (size : Z) : float :=
  SFdiv prec emax (binary_normalize prec emax size 0 false)
        (binary_normalize prec emax (1024 * 1024) 0 false).

Section Rendering.

(** The text of a [validation_message]: the f-string behind each
    constructor of [message], rendered by Python. *)
Variable render_message : message -> string.

(** [IngestResult.to_dict]: [asdict(self)], the fields in declaration
    order. *)
Definition to_dict (r : IngestResult) : json :=
  JObj [ ("dataset_id", JStr (dataset_id r));
         ("input_type", JStr (input_type_str (input_type r)));
         ("file_path", JStr (file_path r));
         ("file_size", JInt (file_size r));
         ("file_size_mb", JFloat (file_size_mb (file_size r)));
         ("validation_status", JStr (status_str (validation_status r)));
         ("validation_message", JStr (render_message (validation_message r)));
         ("file_count", JInt (file_count r));
         ("sample_name", JStr (sample_name r));
         ("is_paired_end", opt_json JBool (is_paired_end r));
         ("detected_format", opt_json JStr (detected_format r));
         ("total_reads", opt_json JInt (total_reads r));
         ("sequence_length", opt_json JInt (sequence_length r));
         ("timestamp", JStr (timestamp r)) ].

(** [d.get(key)] on a [dict] *)
Fixpoint dict_get (fields : list (string * json)) (key : string)
  : option json :=
  match fields with
  | [] => None
  | (k, v) :: rest => if String.eqb k key then Some v else dict_get rest key
  end.

(** What [for result_dict in json_data.get('results', [])] iterates over:
    only a [dict] has [get]; a list yields its items, a string its
    characters, a dict its keys; other values are not iterable. *)
Definition results_items (json_data : json) : result (list json) :=
  match json_data with
  | JObj fields =>
      match dict_get fields "results" with
      | None => Ok []
      | Some (JArr items) => Ok items
      | Some (JStr s) =>
          Ok (map (fun c => JStr (String c EmptyString))
                  (list_ascii_of_string s))
      | Some (JObj kv) => Ok (map (fun kv => JStr (fst kv)) kv)
      | Some _ => Raise TypeError
      end
  | _ => Raise AttributeError
  end.

(** The loop that loads the existing results:
    [all_results.append(result_dict)] and then
    [existing_samples.add(result_dict.get('sample_name'))].  An item
    without [get], or whose sample name is unhashable, raises after it has
    been appended; the enclosing [except] keeps what was loaded so far.
    [existing_samples] is looked up with strings only, so of its members
    only the strings are tracked. *)
Fixpoint load_existing (items : list json) (all_results : list json)
    (existing_samples : gset string) : list json * gset string :=
  match items with
  | [] => (all_results, existing_samples)
  | result_dict :: rest =>
      let all_results' := all_results ++ [result_dict] in
      match result_dict with
      | JObj fields =>
          match dict_get fields "sample_name" with
          | Some (JStr s) =>
              load_existing rest all_results' ({[ s ]} ∪ existing_samples)
          | Some (JArr _) | Some (JObj _) =>
              (all_results', existing_samples)
          | _ => load_existing rest all_results' existing_samples
          end
      | _ => (all_results', existing_samples)
      end
  end.

(** The persisted report file: absent, unreadable ([open] or [json.load]
    raises), or holding a JSON value. *)
Definition disk : Type := option (result json).

Definition load_report (d : disk) : list json * gset string :=
  match d with
  | Some (Ok json_data) =>
      match results_items json_data with
      | Ok items => load_existing items [] ∅
      | Raise _ => ([], ∅)
      end
  | Some (Raise _) => ([], ∅)
  | None => ([], ∅)
  end.

(** The loop [for result in self.results]: a result whose sample name is
    not among the loaded ones is appended. *)
Fixpoint add_new (results : list IngestResult) (existing_samples : gset string)
    (all_results : list json) : list json :=
  match results with
  | [] => all_results
  | r :: rest =>
      if bool_decide (sample_name r ∉ existing_samples)
      then add_new rest existing_samples (all_results ++ [to_dict r])
      else add_new rest existing_samples all_results
  end.

Definition report_data (now : string) (all_results : list json) : json :=
  JObj [ ("timestamp", JStr now);
         ("total_files", JInt (Zlen all_results));
         ("results", JArr all_results) ].

(** [generate_report]: the value written to the report file when the call
    is made at time [now] with [self.results = results]. *)
Definition generate_report (now : string) (results : list IngestResult)
    (d : disk) : json :=
  let '(all_results, existing_samples) := load_report d in
  report_data now (add_new results existing_samples all_results).

(** The report file after the call: [json.load] gives back the value that
    [json.dump] wrote. *)
Definition after_report (now : string) (results : list IngestResult)
    (d : disk) : disk :=
  Some (Ok (generate_report now results d)).

End Rendering.

Definition persisted_results (d : disk) : option json :=
  match d with
  | Some (Ok (JObj fields)) => dict_get fields "results"
  | _ => None
  end.

Definition persisted_total (d : disk) : option json :=
  match d with
  | Some (Ok (JObj fields)) => dict_get fields "total_files"
  | _ => None
  end.

End Report.

(** ** The properties, in the terms of the specification *)

Module Spec.
Import PyStr PyNum IO Validators Detect Parse Ingest Report.


(** The validators that accumulate a diagnostics list. *)
Inductive validator : Type := VFastq | VCell | VMatrix.


Definition header_ok (v : validator) (w : world) (p : Path) : bool :=
  match v with
  | VFastq => fst (validate_fastq_header w p)
  | VCell => fst (validate_cell_header w p)
  | VMatrix => fst (validate_count_matrix_structure w p)
  end.

(** The body loop of a validator: the final value of
    [validation_errors], or the exception that leaves the loop. *)
Definition body_errors (v : validator) (w : world) (p : Path)
  : result (list diag) :=
  match v with
  | VFastq =>
      let* r := open_fastq w p in
      let* st := fastq_body r in Ok (q_errors st)
  | VCell =>
      let* r := open_text w p in
      let* st := table_body cell_line r in Ok (t_errors st)
  | VMatrix =>
      let* r := open_text w p in
      let* st := table_body matrix_line r in Ok (t_errors st)
  end.

(** [validation_errors] at the point where the status is computed:
    defined when the header check passed and the body loop finished. *)
Definition diagnostics (v : validator) (w : world) (p : Path)
  : option (list diag) :=
  if header_ok v w p then
    match body_errors v w p with
    | Ok errs => Some errs
    | Raise _ => None
    end
  else None.

(** What a reader can learn from the first [n] lines of a stream: the
    lines, and how the stream ends when it has fewer than [n] lines. *)
Definition stream_prefix (n : nat) (s : stream)
  : list string * option exn :=
  let ls := splitlines_keep (s_text s) in
  (firstn n ls, if (length ls <? n)%nat then s_fail s else None).

Definition map_result {A B : Type} (f : A -> B) (m : result A) : result B :=
  match m with
  | Ok a => Ok (f a)
  | Raise e => Raise e
  end.

(** The first [n] bytes and the first [n] lines of a file. *)
Definition file_prefix (n : nat) (f : file)
  : result string * result (list string * option exn)
    * result (list string * option exn) :=
  (map_result (take n) (open_rb f),
   map_result (stream_prefix n) (open_rt f),
   map_result (stream_prefix n) (open_gz f)).

(** Two worlds hold, under the path [p], files that agree on their first
    [n] bytes and first [n] lines. *)
Definition same_prefix (n : nat) (w1 w2 : world) (p : Path) : Prop :=
  match fs w1 (path_str p), fs w2 (path_str p) with
  | Some f1, Some f2 => file_prefix n f1 = file_prefix n f2
  | None, None => True
  | _, _ => False
  end.

(** The sniffer decides on a prefix of [n] bytes and lines. *)
Definition sniffs_prefix_only (n : nat) : Prop :=
  forall (w1 w2 : world) (p : Path),
    same_prefix n w1 w2 p ->
    fst (detect_input_type w1 p) = fst (detect_input_type w2 p).

(** A line holds no newline; a line with its final newline. *)
Definition no_newline (l : string) : bool :=
  all_chars (fun c => negb (Ascii.eqb c LF)) l.

Definition with_newline (l : string) : string := l +:+ String LF "".

(** An empty file: no byte, whichever way it is opened. *)
Definition empty_file : file :=
  mkFile 0 (Ok "") (Ok (mkStream "" None)) (Ok (mkStream "" None)).

(** A file that exists and cannot be opened for reading. *)
Definition unreadable (f : file) : Prop :=
  exists e1 e2 e3,
    open_rb f = Raise e1 /\ open_rt f = Raise e2 /\ open_gz f = Raise e3.

Definition tabular (p : Path) : bool :=
  mem (lower (PathLib.suffix p)) [".tsv"; ".csv"; ".txt"].

(** [samtools] is missing, fails to run, or exits with a non-zero code. *)
Definition tool_unavailable (w : world) (p : Path) : Prop :=
  match samtools w (path_str p) with
  | Raise _ => True
  | Ok (returncode, _) => returncode <> 0
  end.

(** The status of the record a call returns; [None] when the call
    raises. *)
Definition status_of (m : result IngestResult) : option Status :=
  match m with
  | Ok r => Some (validation_status r)
  | Raise _ => None
  end.

(** The loading loop, without its accumulators: whether an item makes the
    loop raise, the sample name it contributes, the items kept and the
    names seen. *)
Definition item_raises (item : json) : bool :=
  match item with
  | JObj fields =>
      match dict_get fields "sample_name" with
      | Some (JArr _) | Some (JObj _) => true
      | _ => false
      end
  | _ => true
  end.

Definition item_name (item : json) : gset string :=
  match item with
  | JObj fields =>
      match dict_get fields "sample_name" with
      | Some (JStr s) => {[ s ]}
      | _ => ∅
      end
  | _ => ∅
  end.

Fixpoint kept (items : list json) : list json :=
  match items with
  | [] => []
  | x :: rest => if item_raises x then [x] else x :: kept rest
  end.

Fixpoint seen (items : list json) : gset string :=
  match items with
  | [] => ∅
  | x :: rest => if item_raises x then ∅ else item_name x ∪ seen rest
  end.

Definition clean (items : list json) : bool :=
  forallb (fun x => negb (item_raises x)) items.

Definition fresh (existing : gset string) (results : list IngestResult)
  : list IngestResult :=
  List.filter (fun r => bool_decide (sample_name r ∉ existing)) results.

End Spec.

(** ** Concrete files used in the examples *)

Module Fixtures.
Import PyStr IO.

(** The lines, each followed by a newline. *)
Definition unlines (ls : list string) : string :=
  fold_right (fun l acc => l +:+ String LF acc) "" ls.

(** The cells, separated by tabs. *)
Definition tsv (cells : list string) : string :=
  match cells with
  | [] => ""
  | c :: cs => fold_left (fun acc x => acc +:+ String TAB x) cs c
  end.

(** A readable file with the given content (not gzip data). *)
Definition text_file (t : string) : file :=
  mkFile (Z.of_nat (String.length t)) (Ok t) (Ok (mkStream t None))
         (Raise BadGzipFile).

Definition no_samtools : string -> result (Z * string) :=
  fun _ => Raise FileNotFoundError.

(** A world with one file, and no [samtools]. *)
Definition one_file (p : Path) (f : file) : world :=
  mkWorld (fun q => if String.eqb q (path_str p) then Some f else None)
          no_samtools "2024-05-01T10:00:00".

Definition in_data (nm : string) : Path := mkPath ("/data/" +:+ nm) nm.

Definition good_read : list string := ["@r"; "ACGT"; "+"; "IIII"].
(** A record with two violations: header and plus line. *)
Definition bad_read2 : list string := ["r"; "ACGT"; "-"; "IIII"].
(** A record with one violation: the plus line. *)
Definition bad_read1 : list string := ["@r"; "ACGT"; "-"; "IIII"].

Definition fastq_of (reads : list (list string)) : file :=
  text_file (unlines (concat reads)).

Definition fastq_10_errors : file :=
  fastq_of (good_read :: repeat bad_read2 5).
Definition fastq_11_errors : file :=
  fastq_of (good_read :: repeat bad_read2 5 ++ [bad_read1]).
Definition fastq_1500_reads : file := fastq_of (repeat good_read 1500).
(** One complete record, then a record cut after its second line. *)
Definition fastq_truncated : file :=
  text_file (unlines good_read +:+ unlines ["@r2"; "AC"]).

(** The diagnostics of [fastq_10_errors] and of [fastq_11_errors]. *)
Definition ten_diagnostics : list diag :=
  flat_map (fun n => [QHeader n; QPlus n]) [2; 3; 4; 5; 6].
Definition eleven_diagnostics : list diag := ten_diagnostics ++ [QPlus 7].

Definition sample_fastq : Path := in_data "sample.fastq".
Definition sample_bam : Path := in_data "sample.bam".
Definition sample_tsv : Path := in_data "sample.tsv".

Definition world_with_empty_fastq : world :=
  one_file sample_fastq Spec.empty_file.

(** A corrupted magic number in front of an otherwise intact body. *)
Definition bam_bad_magic : file :=
  text_file ("BAX" +:+ String (chr 1) "body-of-the-alignment-file").
Definition bam_good_magic : file :=
  text_file ("BAM" +:+ String (chr 1) "body-of-the-alignment-file").

(** A table that passes both the array-intensity header rule and the
    count-matrix rule. *)
Definition table_both : file :=
  text_file (unlines [tsv ["probe_id"; "signal_a"; "intensity_b"];
                      tsv ["p1"; "1"; "2"]]).

Definition matrix_header : string := tsv ["gene_id"; "s1"].
Definition matrix_row : string := tsv ["g"; "1"].
Definition matrix_negative_row : string := tsv ["g"; "-1"].

(** A count matrix with [k] valid rows, and the same matrix followed by
    one row holding a negative count. *)
Definition matrix_valid (k : nat) : string :=
  unlines (matrix_header :: repeat matrix_row k).
Definition matrix_spoiled (k : nat) : string :=
  unlines (matrix_header :: repeat matrix_row k ++ [matrix_negative_row]).

(** A row that is tab-separated for the structure check and, because it
    starts with a comma, comma-separated for the body loop, which then
    meets the field "-3". *)
Definition comma_row : string := ",-3," +:+ tsv [""; "5"].
Definition matrix_hidden_negative : file :=
  text_file (unlines (matrix_header :: repeat matrix_row 5 ++ [comma_row])).

(** A stand-in for the rendering of messages in concrete reports. *)
Definition render_plain : message -> string := fun _ => "message".

Definition one_result : IngestResult :=
  mkIngestResult "s1" FASTQ "/data/s1.fastq" 16 PASS FastqSuccessful 1 "s1"
                 (Some false) (Some "FASTQ (Single-end)") (Some 1) (Some 4)
                 "2024-05-01T09:59:58".

Definition minus_three : PyNum.float := S754_finite true 6755399441055744 (-51).
Definition three_and_a_half : PyNum.float :=
  S754_finite false 7881299347898368 (-51).

End Fixtures.

(** ** The HTML report: the rows and totals of [generate_html_report] *)

Module HtmlReport.
Import PyStr Validators Report.

Section Rendering.

Variable render_message : message -> string.

(** The loop [for result in self.results] that fills [new_results]. *)
Fixpoint filter_new (results : list IngestResult)
    (existing_samples : gset string) (new_results : list IngestResult)
  : list IngestResult :=
  match results with
  | [] => new_results
  | r :: rest =>
      if bool_decide (sample_name r ∉ existing_samples)
      then filter_new rest existing_samples (new_results ++ [r])
      else filter_new rest existing_samples new_results
  end.

(** [display_results]: the records loaded from [ingest_report.json], by the
    same loop as in [generate_report], followed by the new ones. *)
Definition display_results (results : list IngestResult) (d : disk)
  : list json :=
  let '(all_accumulated_results, existing_samples) := load_report d in
  all_accumulated_results
    ++ map (to_dict render_message) (filter_new results existing_samples []).

(** [r.get('validation_status') == status or (isinstance(r, dict) and ...)]:
    an item that is not a [dict] has no [get]. *)
Definition has_status (status : string) (r : json) : result bool :=
  match r with
  | JObj fields =>
      Ok (match dict_get fields "validation_status" with
          | Some (JStr v) => String.eqb v status
          | _ => false
          end)
  | _ => Raise AttributeError
  end.

(** [sum(1 for r in display_results if has_status(status, r))] *)
Fixpoint count_status (status : string) (display : list json) : result Z :=
  match display with
  | [] => Ok 0
  | r :: rest =>
      let* hit := has_status status r in
      let* n := count_status status rest in
      Ok (if hit then 1 + n else n)
  end.

(** The numbers of the summary boxes: total, PASS, WARN, FAIL. *)
Definition html_totals (results : list IngestResult) (d : disk)
  : result (Z * Z * Z * Z) :=
  let display := display_results results d in
  let* pass_count := count_status "PASS" display in
  let* warn_count := count_status "WARN" display in
  let* fail_count := count_status "FAIL" display in
  Ok (Zlen display, pass_count, warn_count, fail_count).

End Rendering.

End HtmlReport.

(** ** The end of [main]: the batch summary and the exit status *)

Module Main.
Import Validators Ingest.

Definition status_eqb (a b : Status) : bool :=
  match a, b with
  | PASS, PASS | WARN, WARN | FAIL, FAIL => true
  | _, _ => false
  end.

(** [sum(1 for r in results if r.validation_status == status)] *)
Definition count_results (status : Status) (results : list IngestResult) : Z :=
  Zlen (List.filter (fun r => status_eqb (validation_status r) status) results).

(** [main] when it is run with [--no-report]: the argument of [sys.exit]. *)
Definition main_no_report (w : world) (samples : list Path)
    (dataset_id : option string) : result Z :=
  let* results := process_samples w samples dataset_id in
  match results with
  | [] => Ok 1
  | _ =>
      let failed := count_results FAIL results in
      if 0 <? failed then Ok 1 else Ok 0
  end.

End Main.

(** ** [HTMLTableParser] *)

Module HtmlTable.
Import PyStr.

(** The calls [HTMLParser.feed] makes on the handlers. *)
Inductive event : Type :=
  | StartTag (tag : string)
  | EndTag (tag : string)
  | Data (data : string).

Record parser : Type := mkParser {
  samples : gset string;
  in_tbody : bool;
  in_td : bool;
  cell_count : Z;
  current_row : list string
}.

(** [__init__] *)
Definition init : parser := mkParser ∅ false false 0 [].

Definition handle_starttag (self : parser) (tag : string) : parser :=
  if String.eqb tag "tbody" then
    mkParser (samples self) true (in_td self) (cell_count self)
             (current_row self)
  else if String.eqb tag "td" && in_tbody self then
    mkParser (samples self) (in_tbody self) true (cell_count self)
             (current_row self)
  else self.

Definition handle_endtag (self : parser) (tag : string) : parser :=
  if String.eqb tag "tbody" then
    mkParser (samples self) false (in_td self) (cell_count self)
             (current_row self)
  else if String.eqb tag "td" && in_tbody self then
    let cell_count' := cell_count self + 1 in
    if cell_count' mod 6 =? 1 then
      let samples' :=
        match current_row self with
        | first :: _ => {[ first ]} ∪ samples self
        | [] => samples self
        end in
      mkParser samples' (in_tbody self) false cell_count' []
    else
      mkParser (samples self) (in_tbody self) false cell_count'
               (current_row self)
  else if String.eqb tag "tr" && in_tbody self then
    mkParser (samples self) (in_tbody self) (in_td self) 0 (current_row self)
  else self.

Definition handle_data (self : parser) (data : string) : parser :=
  if in_td self then
    mkParser (samples self) (in_tbody self) (in_td self) (cell_count self)
             (current_row self ++ [strip data])
  else self.

Definition handle (self : parser) (e : event) : parser :=
  match e with
  | StartTag tag => handle_starttag self tag
  | EndTag tag => handle_endtag self tag
  | Data data => handle_data self data
  end.

(** The parser after the handler calls of a document. *)
Definition feed (self : parser) (events : list event) : parser :=
  fold_left handle events self.

(** The handler calls for one table cell of plain text, one row of cells,
    and a table body of rows.  [HTMLParser] makes no [handle_data] call for
    a cell without text. *)
Definition has_text (text : string) : bool := negb (String.eqb text "").

Definition cell_events (text : string) : list event :=
  StartTag "td"
    :: (if has_text text then [Data text] else []) ++ [EndTag "td"].

Definition row_events (cells : list string) : list event :=
  StartTag "tr" :: flat_map cell_events cells ++ [EndTag "tr"].

Definition tbody_events (rows : list (list string)) : list event :=
  StartTag "tbody" :: flat_map row_events rows ++ [EndTag "tbody"].

(** A report row: sample, input type, file size, reads, status, message. *)
Record report_row : Type := mkRow {
  c_sample : string; c_type : string; c_size : string;
  c_reads : string; c_status : string; c_message : string
}.

Definition row_cells (r : report_row) : list string :=
  [c_sample r; c_type r; c_size r; c_reads r; c_status r; c_message r].

End HtmlTable.

(** ** Further notions used in the statements *)

Module Spec2.
Import PyStr PyNum IO Validators Detect Parse Ingest Report.

(** The extensions [detect_input_type] associates with raw reads. *)
Definition fastq_candidate (p : Path) : bool :=
  mem (lower (PathLib.suffix p)) [".fastq"; ".fq"; ".gz"]
  && existsb (fun x => contains (name p) x) ["fastq"; "fq"].

Definition bam_candidate (p : Path) : bool :=
  String.eqb (lower (PathLib.suffix p)) ".bam".

(** The messages of a validator that returned before its body loop. *)
Definition is_header_failure (m : message) : bool :=
  match m with
  | HeaderFailed _ | MagicFailed _ | StructureFailed _ => true
  | _ => false
  end.

Definition is_min_columns (d : diag) : bool :=
  match d with
  | CMinColumns | MMinColumns => true
  | _ => false
  end.

(** The read a FASTQ diagnostic is about. *)
Definition nucleotide_read (d : diag) : option Z :=
  match d with
  | QNucleotides n _ => Some n
  | _ => None
  end.

(** No diagnostic about the minimum number of columns so far. *)
Definition no_min_columns (st : table_state) : Prop :=
  existsb is_min_columns (t_errors st) = false.

(** A step of a body loop that leaves the counters alone, adds no
    diagnostic after the fifth data row and none about the minimum number
    of columns. *)
Definition quiet_step (st st' : table_state) : Prop :=
  t_row_count st' = t_row_count st
  /\ t_col_count st' = t_col_count st
  /\ (5 < t_row_count st -> t_errors st' = t_errors st)
  /\ (no_min_columns st -> no_min_columns st').

(** What the line numbered [line_num] may do to the state of a body loop:
    every line but the first counts as one row; it keeps the column count,
    adds no diagnostic once five rows have been seen, and none about the
    minimum number of columns. *)
Definition line_effect (line_num : Z) (st st' : table_state) : Prop :=
  t_row_count st' = t_row_count st + (if line_num =? 0 then 0 else 1)
  /\ (line_num <> 0 ->
      t_col_count st' = t_col_count st
      /\ (5 <= t_row_count st -> t_errors st' = t_errors st)
      /\ (no_min_columns st -> no_min_columns st')).

(** A report file from which nothing is loaded: it is missing, it cannot be
    read or parsed, or its top-level value is not an object. *)
Definition not_a_report (d : disk) : Prop :=
  match d with
  | Some (Ok (JObj _)) => False
  | _ => True
  end.

Definition is_dict (item : json) : bool :=
  match item with
  | JObj _ => true
  | _ => false
  end.

(** The names carried by the records of a batch. *)
Definition names_of (results : list IngestResult) : gset string :=
  list_to_set (map sample_name results).

End Spec2.

(** ** More concrete inputs *)

Module Fixtures2.
Import PyStr IO Fixtures HtmlTable Report.

Definition sample_sam : Path := in_data "sample.sam".

Definition fail_result : IngestResult :=
  mkIngestResult "s2" UNKNOWN "/data/s2.xyz" 3 FAIL UnknownFileType 1 "s2"
                 None None None None "2024-05-01T09:59:59".

(** A record with the name of [one_result] and another content. *)
Definition renamed_result : IngestResult :=
  mkIngestResult "s1" BAM "/data/s1.bam" 8 PASS BamMagicOnly 1 "s1"
                 None (Some "BAM (Binary Alignment Map)") None None
                 "2024-05-02T08:00:00".

(** The record of a file [sample.fastq] that holds [good_read]. *)
Definition good_fastq_world : world := one_file sample_fastq (fastq_of [good_read]).
Definition good_fastq_record : IngestResult :=
  mkIngestResult "sample" FASTQ "/data/sample.fastq" 15 PASS FastqSuccessful 1
                 "sample" (Some false) (Some "FASTQ (Single-end)") (Some 1)
                 (Some 4) "2024-05-01T10:00:00".

Definition report_on_disk : disk :=
  after_report render_plain "2024-05-01T10:00:00" [one_result] None.

(** An array table whose eight rows all carry a bad probe id and a
    negative intensity. *)
Definition bad_cell_lines : list string :=
  map Spec.with_newline
      (tsv ["probe_id"; "gene"; "intensity"]
         :: repeat (tsv ["p!"; "g"; "-1"]) 8).

(** A count matrix with an infinite value in its seventh data row. *)
Definition matrix_with_inf : file :=
  text_file (unlines (matrix_header :: repeat matrix_row 6
                        ++ [tsv ["g"; "inf"]])).

Definition cell_table : file :=
  text_file (unlines [tsv ["probe_id"; "gene"; "intensity"];
                      tsv ["p1"; "g1"; "1.5"];
                      tsv ["p2"; "g2"; "2"]]).

End Fixtures2.

(** * Theorems *)

Import PyStr PyNum IO Validators Detect Parse Ingest Report Spec Fixtures.

(** ** Basic facts about the environment and the exception handlers *)

Lemma stat_size_present (w : world) (p : Path) (f : file) :
  fs w (path_str p) = Some f -> stat_size w p = Ok (st_size f).
Proof. intros H. unfold stat_size. now rewrite H. Qed.

Lemma try_except_returns {A : Type} (m : result A) (h : exn -> result A) :
  (forall e, returns (h e)) -> returns (try_except m h).
Proof.
  intros Hh. destruct m as [a | e]; simpl.
  - now exists a.
  - apply Hh.
Qed.

(** A handler of the shape used by every [parse_*]: it asks for the file
    size again and builds a FAIL record. *)
Lemma handler_returns (w : world) (p : Path) (f : file)
    (mk : Z -> IngestResult) :
  fs w (path_str p) = Some f ->
  returns (let* size := stat_size w p in Ok (mk size)).
Proof.
  intros H. rewrite (stat_size_present w p f H). simpl. now eexists.
Qed.

(** The whole body of a [parse_*] sits in a [try] whose handler returns. *)
Ltac guarded_by_handler f :=
  cbv zeta; apply try_except_returns; intros ?;
  now apply (handler_returns _ _ f).

Lemma parse_fastq_returns (w : world) (p : Path) (f : file) :
  fs w (path_str p) = Some f -> returns (parse_fastq w p).
Proof. intros H. unfold parse_fastq. guarded_by_handler f. Qed.

Lemma parse_bam_returns (w : world) (p : Path) (f : file) :
  fs w (path_str p) = Some f -> returns (parse_bam w p).
Proof. intros H. unfold parse_bam. guarded_by_handler f. Qed.

Lemma parse_cell_returns (w : world) (p : Path) (f : file) :
  fs w (path_str p) = Some f -> returns (parse_cell w p).
Proof. intros H. unfold parse_cell. guarded_by_handler f. Qed.

Lemma parse_count_matrix_returns (w : world) (p : Path) (f : file) :
  fs w (path_str p) = Some f -> returns (parse_count_matrix w p).
Proof. intros H. unfold parse_count_matrix. guarded_by_handler f. Qed.

Lemma ingest_returns (w : world) (p : Path) (did : option string) (f : file) :
  fs w (path_str p) = Some f -> returns (ingest w p did).
Proof.
  intros H. unfold ingest.
  destruct (detect_input_type w p) as [ty fmt].
  destruct ty.
  - now apply (parse_fastq_returns w p f).
  - now apply (parse_bam_returns w p f).
  - now apply (parse_cell_returns w p f).
  - now apply (parse_count_matrix_returns w p f).
  - now apply (handler_returns w p f).
Qed.

(** The batch loop of [main] never meets the exception: it asks
    [exists()] before it calls [ingest]. *)
Lemma process_samples_returns (w : world) (samples : list Path)
    (did : option string) :
  returns (process_samples w samples did).
Proof.
  induction samples as [| p rest IH]; simpl.
  - now eexists.
  - unfold exists_. destruct (fs w (path_str p)) as [f |] eqn:Hf; simpl.
    + destruct (ingest_returns w p did f Hf) as [r Hr]. rewrite Hr. simpl.
      destruct IH as [rs Hrs]. rewrite Hrs. simpl. now eexists.
    + exact IH.
Qed.

(** ** C1: failures become FAIL records *)

(** Each validator answers FAIL as soon as its header check fails. *)
Lemma header_false_fails (w : world) (p : Path) (f : file) :
  fs w (path_str p) = Some f ->
  (fst (validate_fastq_header w p) = false ->
   status_of (parse_fastq w p) = Some FAIL)
  /\ (fst (validate_bam_magic w p) = false ->
      status_of (parse_bam w p) = Some FAIL)
  /\ (fst (validate_cell_header w p) = false ->
      status_of (parse_cell w p) = Some FAIL)
  /\ (fst (validate_count_matrix_structure w p) = false ->
      status_of (parse_count_matrix w p) = Some FAIL).
Proof.
  intros H. repeat split; intros Hv.
  - unfold parse_fastq. cbv zeta.
    destruct (validate_fastq_header w p) as [ok msg]. simpl in Hv. subst ok.
    now rewrite (stat_size_present w p f H).
  - unfold parse_bam. cbv zeta.
    destruct (validate_bam_magic w p) as [ok msg]. simpl in Hv. subst ok.
    now rewrite (stat_size_present w p f H).
  - unfold parse_cell. cbv zeta.
    destruct (validate_cell_header w p) as [ok msg]. simpl in Hv. subst ok.
    now rewrite (stat_size_present w p f H).
  - unfold parse_count_matrix. cbv zeta.
    destruct (validate_count_matrix_structure w p) as [ok msg].
    simpl in Hv. subst ok.
    now rewrite (stat_size_present w p f H).
Qed.

Lemma if_same {A : Type} (c : bool) (x : A) : (if c then x else x) = x.
Proof. now destruct c. Qed.

(** When no header check passes, the file is of UNKNOWN type and [ingest]
    answers FAIL. *)
Lemma no_check_passes_fails (w : world) (p : Path) (did : option string)
    (f : file) :
  fs w (path_str p) = Some f ->
  fst (validate_fastq_header w p) = false ->
  fst (validate_bam_magic w p) = false ->
  fst (validate_cell_header w p) = false ->
  fst (validate_count_matrix_structure w p) = false ->
  fst (detect_input_type w p) = UNKNOWN
  /\ status_of (ingest w p did) = Some FAIL.
Proof.
  intros H Hq Hb Hc Hm.
  assert (Hd : detect_input_type w p = (UNKNOWN, "Unknown format")).
  { unfold detect_input_type. cbv zeta. rewrite Hq, Hb, Hc, Hm.
    now rewrite !if_same. }
  split; [now rewrite Hd |].
  unfold ingest. rewrite Hd. now rewrite (stat_size_present w p f H).
Qed.

Lemma empty_file_checks (w : world) (p : Path) :
  fs w (path_str p) = Some empty_file ->
  validate_fastq_header w p = (false, HeaderNotAt "")
  /\ validate_bam_magic w p = (false, InvalidBamMagic "")
  /\ validate_cell_header w p = (false, NoProbeColumn)
  /\ validate_count_matrix_structure w p = (false, MatrixTooShort).
Proof.
  intros H.
  unfold validate_fastq_header, validate_bam_magic, validate_cell_header,
         validate_count_matrix_structure, open_fastq, open_text, read_bytes,
         with_file.
  rewrite H. repeat split.
  now destruct (String.eqb (PathLib.suffix p) ".gz").
Qed.

Lemma unreadable_file_checks (w : world) (p : Path) (f : file) :
  fs w (path_str p) = Some f -> unreadable f ->
  fst (validate_fastq_header w p) = false
  /\ fst (validate_bam_magic w p) = false
  /\ fst (validate_cell_header w p) = false
  /\ fst (validate_count_matrix_structure w p) = false.
Proof.
  intros H (e1 & e2 & e3 & Hrb & Hrt & Hgz).
  unfold validate_fastq_header, validate_bam_magic, validate_cell_header,
         validate_count_matrix_structure, open_fastq, open_text, read_bytes,
         with_file.
  rewrite H, Hrb, Hrt, Hgz. repeat split.
  now destruct (String.eqb (PathLib.suffix p) ".gz").
Qed.

(** C1 (amended).  For every path that exists, [ingest] and each [parse_*]
    validator return a record and raise nothing, whatever the file holds and
    whatever reading it raises; for an empty file, and for a file that
    cannot be opened, the record of each of them has status FAIL.  The
    batch loop of [main] skips a path that does not exist, without a
    record, and never raises. *)
Theorem existing_path_yields_record
    (w : world) (p : Path) (did : option string) (f : file) :
  fs w (path_str p) = Some f ->
  (returns (ingest w p did) /\ returns (parse_fastq w p)
   /\ returns (parse_bam w p) /\ returns (parse_cell w p)
   /\ returns (parse_count_matrix w p))
  /\ (f = empty_file \/ unreadable f ->
      status_of (ingest w p did) = Some FAIL
      /\ status_of (parse_fastq w p) = Some FAIL
      /\ status_of (parse_bam w p) = Some FAIL
      /\ status_of (parse_cell w p) = Some FAIL
      /\ status_of (parse_count_matrix w p) = Some FAIL)
  /\ (forall samples, returns (process_samples w samples did))
  /\ (forall missing samples,
        fs w (path_str missing) = None ->
        process_samples w (missing :: samples) did
        = process_samples w samples did).
Proof.
  intros H. split; [| split; [| split]].
  3:{ intros samples. apply process_samples_returns. }
  3:{ intros missing samples Hm. cbn [process_samples]. unfold exists_.
      now rewrite Hm. }
  - repeat split.
    + now apply (ingest_returns w p did f).
    + now apply (parse_fastq_returns w p f).
    + now apply (parse_bam_returns w p f).
    + now apply (parse_cell_returns w p f).
    + now apply (parse_count_matrix_returns w p f).
  - intros Hf.
    assert (Hchecks : fst (validate_fastq_header w p) = false
                      /\ fst (validate_bam_magic w p) = false
                      /\ fst (validate_cell_header w p) = false
                      /\ fst (validate_count_matrix_structure w p) = false).
    { destruct Hf as [-> | Hu].
      - destruct (empty_file_checks w p H) as (-> & -> & -> & ->).
        now repeat split.
      - now apply (unreadable_file_checks w p f). }
    destruct Hchecks as (Hq & Hb & Hc & Hm).
    destruct (header_false_fails w p f H) as (Fq & Fb & Fc & Fm).
    destruct (no_check_passes_fails w p did f H Hq Hb Hc Hm) as [_ Fi].
    repeat split; auto.
Qed.

Lemma existing_path_yields_record_witness :
  fs world_with_empty_fastq (path_str sample_fastq) = Some empty_file
  /\ status_of (ingest world_with_empty_fastq sample_fastq None) = Some FAIL.
Proof.
  split.
  - reflexivity.
  - destruct (existing_path_yields_record
                world_with_empty_fastq sample_fastq None empty_file eq_refl)
      as (_ & Hfail & _).
    apply Hfail. left. reflexivity.
Defined.

(** C1 as stated fails on a path that does not exist: every header check
    catches the [FileNotFoundError] of [open], but the record is then built
    with [file_path.stat()], which raises again, also inside the [except]
    handler of each [parse_*], and the exception reaches the caller. *)
Lemma missing_path_raises :
  let w := one_file sample_fastq (fastq_of [good_read]) in
  let missing := in_data "missing.fastq" in
  fs w (path_str missing) = None
  /\ ingest w missing None = Raise FileNotFoundError
  /\ parse_fastq w missing = Raise FileNotFoundError
  /\ parse_bam w missing = Raise FileNotFoundError
  /\ parse_cell w missing = Raise FileNotFoundError
  /\ parse_count_matrix w missing = Raise FileNotFoundError.
Proof. vm_compute. repeat split; reflexivity. Qed.

(** A file cut in the middle of a record is not a failure for
    [parse_fastq]: the lines after the last complete record are never
    looked at. *)
Example truncated_fastq_passes :
  status_of (parse_fastq (one_file sample_fastq fastq_truncated) sample_fastq)
  = Some PASS.
Proof. vm_compute. reflexivity. Qed.

(** ** C7: a failed header or magic check short-circuits to FAIL *)

(** C7.  For a file that exists, when the magic check of [parse_bam] or the
    header check of [parse_fastq] fails, the validator returns at once the
    FAIL record built from the path, the file size and the reason of the
    check: neither [samtools] nor any line or byte past the header takes
    part in it.  In particular a file whose first four bytes are not the
    BAM magic number gets FAIL whatever follows them. *)
Theorem header_failure_short_circuits (w : world) (p : Path) (f : file) :
  fs w (path_str p) = Some f ->
  (forall msg,
     validate_bam_magic w p = (false, msg) ->
     parse_bam w p =
       Ok (basic_result w (bam_sample_name p) BAM p (st_size f) FAIL
                        (MagicFailed msg) (bam_sample_name p)))
  /\ (forall msg,
        validate_fastq_header w p = (false, msg) ->
        parse_fastq w p =
          Ok (basic_result w (fastq_sample_name p) FASTQ p (st_size f) FAIL
                           (HeaderFailed msg) (fastq_sample_name p)))
  /\ (forall bytes,
        open_rb f = Ok bytes -> take 4 bytes <> BAM_MAGIC ->
        status_of (parse_bam w p) = Some FAIL).
Proof.
  intros H.
  assert (Hbam : forall msg,
             validate_bam_magic w p = (false, msg) ->
             parse_bam w p =
               Ok (basic_result w (bam_sample_name p) BAM p (st_size f) FAIL
                                (MagicFailed msg) (bam_sample_name p))).
  { intros msg Hv. unfold parse_bam. cbv zeta.
    rewrite Hv, (stat_size_present w p f H). reflexivity. }
  split; [exact Hbam | split].
  - intros msg Hv. unfold parse_fastq. cbv zeta.
    rewrite Hv, (stat_size_present w p f H). reflexivity.
  - intros bytes Hb Hne.
    rewrite (Hbam (InvalidBamMagic (take 4 bytes))); [reflexivity |].
    unfold validate_bam_magic, read_bytes, with_file. rewrite H, Hb. simpl.
    destruct (String.eqb (take 4 bytes) BAM_MAGIC) eqn:E; [| reflexivity].
    apply String.eqb_eq in E. contradiction.
Qed.

Lemma header_failure_short_circuits_witness :
  let w := one_file sample_bam bam_bad_magic in
  fs w (path_str sample_bam) = Some bam_bad_magic
  /\ open_rb bam_bad_magic
     = Ok ("BAX" +:+ String (chr 1) "body-of-the-alignment-file")
  /\ status_of (parse_bam w sample_bam) = Some FAIL.
Proof.
  split; [reflexivity | split; [reflexivity |]].
  destruct (header_failure_short_circuits
              (one_file sample_bam bam_bad_magic) sample_bam bam_bad_magic
              eq_refl) as (_ & _ & Hbytes).
  apply (Hbytes _ eq_refl). vm_compute. discriminate.
Defined.

(** ** C8: [samtools] is optional *)

Lemma valid_magic_file_exists (w : world) (p : Path) :
  fst (validate_bam_magic w p) = true -> exists f, fs w (path_str p) = Some f.
Proof.
  unfold validate_bam_magic, read_bytes, with_file.
  destruct (fs w (path_str p)) as [f |]; simpl.
  - intros _. now exists f.
  - discriminate.
Qed.

Lemma flagstat_unavailable (w : world) (p : Path) :
  tool_unavailable w p -> flagstat w p = (PASS, BamMagicOnly, None, None).
Proof.
  unfold tool_unavailable, flagstat.
  destruct (samtools w (path_str p)) as [[rc out] | e]; simpl.
  - intros Hrc. destruct (rc =? 0) eqn:E; [| reflexivity].
    apply Z.eqb_eq in E. contradiction.
  - reflexivity.
Qed.

(** C8.  For a BAM file whose magic number is valid, when [samtools] is
    missing, raises, or exits with a non-zero code, [parse_bam] returns a
    PASS record whose [total_reads] and [is_paired_end] are [None]. *)
Theorem bam_passes_without_samtools (w : world) (p : Path) :
  fst (validate_bam_magic w p) = true ->
  tool_unavailable w p ->
  exists r, parse_bam w p = Ok r
            /\ validation_status r = PASS
            /\ total_reads r = None
            /\ is_paired_end r = None.
Proof.
  intros Hv Ht.
  destruct (valid_magic_file_exists w p Hv) as [f Hf].
  unfold parse_bam. cbv zeta.
  destruct (validate_bam_magic w p) as [ok msg]. simpl in Hv. subst ok.
  cbn [negb]. rewrite (flagstat_unavailable w p Ht).
  rewrite (stat_size_present w p f Hf). simpl.
  eexists. repeat split.
Qed.

Lemma bam_passes_without_samtools_witness :
  let w := one_file sample_bam bam_good_magic in
  fst (validate_bam_magic w sample_bam) = true
  /\ tool_unavailable w sample_bam
  /\ exists r, parse_bam w sample_bam = Ok r
               /\ validation_status r = PASS
               /\ total_reads r = None
               /\ is_paired_end r = None.
Proof.
  split; [reflexivity | split; [exact I |]].
  apply (bam_passes_without_samtools
           (one_file sample_bam bam_good_magic) sample_bam);
    [reflexivity | exact I].
Defined.

(** A tool that runs but prints nothing usable does not change the status
    either: the [IndexError] or [ValueError] of the parsing is caught. *)
Example bam_passes_on_unreadable_flagstat :
  let w := mkWorld (fs (one_file sample_bam bam_good_magic))
                   (fun _ => Ok (0, "")) "2024-05-01T10:00:00" in
  status_of (parse_bam w sample_bam) = Some PASS.
Proof. vm_compute. reflexivity. Qed.

(** ** C5: array intensity is tried before count matrix *)

Lemma tabular_extension (p : Path) :
  tabular p = true ->
  let ext := lower (PathLib.suffix p) in
  mem ext [".fastq"; ".fq"; ".gz"] = false /\ String.eqb ext ".bam" = false.
Proof.
  unfold tabular, mem. cbv zeta. simpl existsb.
  intros H.
  repeat (apply orb_true_iff in H; destruct H as [H | H]);
    try discriminate;
    apply String.eqb_eq in H; rewrite H; split; reflexivity.
Qed.

(** C5.  For a path with a tabular extension ([.tsv], [.csv], [.txt], in
    any letter case) whose file passes the array-intensity header rule,
    [detect_input_type] answers CELL, whatever the count-matrix rule would
    say about the same file. *)
Theorem tabular_cell_before_matrix (w : world) (p : Path) :
  tabular p = true ->
  fst (validate_cell_header w p) = true ->
  detect_input_type w p = (CELL, "CELL Microarray Data").
Proof.
  intros Ht Hc. destruct (tabular_extension p Ht) as [Hq Hb].
  unfold detect_input_type. cbv zeta.
  unfold tabular in Ht. rewrite Hq, Hb, Ht, Hc. reflexivity.
Qed.

Lemma tabular_cell_before_matrix_witness :
  let w := one_file sample_tsv table_both in
  tabular sample_tsv = true
  /\ fst (validate_cell_header w sample_tsv) = true
  /\ fst (validate_count_matrix_structure w sample_tsv) = true
  /\ detect_input_type w sample_tsv = (CELL, "CELL Microarray Data").
Proof.
  split; [reflexivity | split; [reflexivity | split; [reflexivity |]]].
  apply (tabular_cell_before_matrix (one_file sample_tsv table_both) sample_tsv);
    reflexivity.
Defined.

(** ** C2: the status tier is a function of the number of diagnostics *)





Lemma bind_Ok_inv {A B : Type} (m : result A) (k : A -> result B) (b : B) :
  bind m k = Ok b -> exists a, m = Ok a /\ k a = Ok b.
Proof.
  destruct m as [a | e]; simpl; [| discriminate].
  intros H. now exists a.
Qed.



(** The boundary of the threshold on concrete files: ten diagnostics give
    WARN, eleven give FAIL. *)
Example ten_diagnostics_warn :
  let w := one_file sample_fastq fastq_10_errors in
  diagnostics VFastq w sample_fastq = Some ten_diagnostics
  /\ length ten_diagnostics = 10%nat
  /\ status_of (parse_fastq w sample_fastq) = Some WARN.
Proof. vm_compute. repeat split; reflexivity. Qed.

Example eleven_diagnostics_fail :
  let w := one_file sample_fastq fastq_11_errors in
  diagnostics VFastq w sample_fastq = Some eleven_diagnostics
  /\ length eleven_diagnostics = 11%nat
  /\ status_of (parse_fastq w sample_fastq) = Some FAIL.
Proof. vm_compute. repeat split; reflexivity. Qed.

(** ** C6: the sampling cap of [parse_fastq] *)

Lemma fastq_loop_count (ls : list string) (st st' : fastq_state) (b : bool) :
  0 <= q_read_count st <= 1000 ->
  fastq_loop ls st = Ok (st', b) ->
  (if b then q_read_count st' = 1001 else 0 <= q_read_count st' <= 1000).
Proof.
  revert st. induction ls as [| line rest IH]; intros st Hc H; simpl in H.
  - injection H as <- <-. exact Hc.
  - destruct (length (q_lines st ++ [rstrip_newline line]) =? 4)%nat.
    + destruct (unpack4 (q_lines st ++ [rstrip_newline line]))
        as [[[[hd sq] pl] ql] | e]; simpl in H; [| discriminate].
      destruct (Z.ltb_spec 1000 (q_read_count st + 1)).
      * injection H as <- <-. simpl. lia.
      * apply IH in H; [exact H | simpl; lia].
    + apply IH in H; [exact H | exact Hc].
Qed.

(** What the code guarantees about the sample: [parse_fastq] never reports
    more than 1001 reads. *)
Lemma parse_fastq_reads_at_most_1001 (w : world) (p : Path) (r : IngestResult)
    (n : Z) :
  parse_fastq w p = Ok r -> total_reads r = Some n -> 0 <= n <= 1001.
Proof.
  unfold parse_fastq. cbv zeta.
  destruct (validate_fastq_header w p) as [ok msg].
  destruct (stat_size w p) as [size | e0] eqn:Hs.
  2:{ destruct ok; simpl.
      - destruct (open_fastq w p) as [r0 |]; simpl; [| discriminate].
        destruct (fastq_body r0); simpl; discriminate.
      - discriminate. }
  destruct ok; simpl.
  - destruct (open_fastq w p) as [r0 | e]; simpl.
    + destruct (fastq_body r0) as [st | e] eqn:Hb; simpl.
      * intros H Ht. injection H as <-. simpl in Ht. injection Ht as <-.
        unfold fastq_body in Hb.
        apply bind_Ok_inv in Hb. destruct Hb as ([st' b] & Hl & Hb).
        apply bind_Ok_inv in Hb. destruct Hb as (u & _ & Hb).
        injection Hb as <-.
        apply fastq_loop_count in Hl; [| simpl; lia].
        destruct b; lia.
      * intros H Ht. injection H as <-. discriminate.
    + intros H Ht. injection H as <-. discriminate.
  - intros H Ht. injection H as <-. discriminate.
Qed.

(** C6, the code at a file of 1500 well-formed records: the loop leaves
    only when [read_count > 1000], that is after the 1001st record has been
    examined, and [total_reads] is 1001. *)
Theorem fastq_sample_has_1001_reads :
  let w := one_file sample_fastq fastq_1500_reads in
  exists r, parse_fastq w sample_fastq = Ok r
            /\ validation_status r = PASS
            /\ total_reads r = Some 1001.
Proof. eexists. vm_compute. repeat split; reflexivity. Qed.

(** ** C9: negative and non-integer counts in [parse_count_matrix] *)

(** C9 (amended).  In the body loop of [parse_count_matrix], a field that
    [float] parses to a value [val] with an integer part [n = int(val)]
    never raises; it appends "Negative count" to the validation errors
    exactly when [val < 0] and the row is one of the first five data rows,
    and it logs the non-integer advisory exactly when [val != n] and the row
    is one of the first five.  So a non-negative non-integer value such as
    "3.5" is never an error, and a negative value such as "-3" is an error
    in the first five data rows only. *)
Theorem count_field_policy
    (line_num : Z) (field : string) (val : float) (n : Z) (st : table_state) :
  py_float field = Some val ->
  int_of_float val = Ok n ->
  exists st',
    count_field line_num field st = Ok st'
    /\ t_errors st' =
         (if lt_zero val && (t_row_count st <=? 5)
          then t_errors st ++ [MNegative line_num val] else t_errors st)
    /\ t_advisories st' =
         (if ne_int val n && (t_row_count st <=? 5)
          then t_advisories st ++ [NonIntegerCount line_num val]
          else t_advisories st)
    /\ t_row_count st' = t_row_count st
    /\ t_col_count st' = t_col_count st.
Proof.
  intros Hf Hi. unfold count_field. rewrite Hf, Hi.
  unfold report.
  destruct (lt_zero val), (t_row_count st <=? 5) eqn:Hrow; simpl;
    try rewrite Hrow;
    destruct (ne_int val n); simpl;
    eexists; repeat split; reflexivity.
Qed.

Lemma count_field_policy_witness :
  let first_row := mkTableState [] [] 1 2 in
  py_float "-3" = Some minus_three
  /\ int_of_float minus_three = Ok (-3)
  /\ py_float "3.5" = Some three_and_a_half
  /\ int_of_float three_and_a_half = Ok 3
  /\ (exists st', count_field 1 "-3" first_row = Ok st'
                  /\ t_errors st' = [MNegative 1 minus_three]
                  /\ t_advisories st' = [])
  /\ (exists st', count_field 1 "3.5" first_row = Ok st'
                  /\ t_errors st' = []
                  /\ t_advisories st' = [NonIntegerCount 1 three_and_a_half]).
Proof.
  repeat (split; [reflexivity |]).
  split.
  - destruct (count_field_policy 1 "-3" minus_three (-3)
                (mkTableState [] [] 1 2) eq_refl eq_refl)
      as (st' & H & He & Ha & _).
    exists st'. repeat split; assumption.
  - destruct (count_field_policy 1 "3.5" three_and_a_half 3
                (mkTableState [] [] 1 2) eq_refl eq_refl)
      as (st' & H & He & Ha & _).
    exists st'. repeat split; assumption.
Defined.

(** C9 as stated fails from the sixth data row on: the negative value is
    met by the body loop and recorded nowhere.  The second part shows it on
    a whole file, whose sixth row hides "-3" from the structure check. *)
Lemma negative_count_after_fifth_row_unreported :
  count_field 6 "-3" (mkTableState [] [] 6 2) = Ok (mkTableState [] [] 6 2)
  /\ (let w := one_file sample_tsv matrix_hidden_negative in
      exists r, parse_count_matrix w sample_tsv = Ok r
                /\ validation_status r = PASS
                /\ validation_message r = MatrixSuccessful
                /\ total_reads r = Some 6).
Proof.
  split; [reflexivity |].
  eexists. vm_compute. repeat split; reflexivity.
Qed.

(** A negative count in an ordinary tab-separated row never reaches the
    body loop: the structure check rejects the file and [parse_count_matrix]
    returns FAIL at once. *)
Example negative_count_fails_structure_check :
  let f := text_file (unlines [matrix_header; tsv ["g"; "-3"]]) in
  let w := one_file sample_tsv f in
  validate_count_matrix_structure w sample_tsv
  = (false, MatrixErrors [SNegative 2 minus_three])
  /\ status_of (parse_count_matrix w sample_tsv) = Some FAIL
  /\ diagnostics VMatrix w sample_tsv = None.
Proof. vm_compute. repeat split; reflexivity. Qed.

(** ** C10: the four [readline] calls of [validate_fastq_header] *)







(** With fewer than three lines it is the check on '+' that rejects. *)
Example two_line_fastq_rejected_by_plus :
  let w := one_file sample_fastq (text_file (unlines ["@r"; "ACGT"])) in
  validate_fastq_header w sample_fastq = (false, PlusNotPlus "").
Proof. vm_compute. reflexivity. Qed.

(** ** C4: what the sniffer reads *)

(** *** Strings and lines *)

Lemma append_assoc (a b c : string) : (a +:+ b) +:+ c = a +:+ (b +:+ c).
Proof.
  induction a as [| x a IH]; [reflexivity |].
  change (String x ((a +:+ b) +:+ c) = String x (a +:+ (b +:+ c))).
  now f_equal.
Qed.

Lemma length_append (a b : string) :
  String.length (a +:+ b) = (String.length a + String.length b)%nat.
Proof.
  induction a as [| x a IH]; [reflexivity |].
  change (S (String.length (a +:+ b))
          = S (String.length a + String.length b)).
  now f_equal.
Qed.

Lemma take_append (n : nat) (a b : string) :
  (n <= String.length a)%nat -> take n (a +:+ b) = take n a.
Proof.
  unfold take. revert n. induction a as [| x a IH]; intros n Hn; simpl in *.
  - assert (n = 0%nat) as -> by lia. now destruct b.
  - destruct n as [| n]; [reflexivity |]. simpl. f_equal. apply IH. lia.
Qed.

Lemma lines_from_line (l rest cur : string) :
  no_newline l = true ->
  lines_from (l +:+ String LF rest) cur
  = (cur +:+ with_newline l) :: lines_from rest "".
Proof.
  unfold with_newline. revert cur.
  induction l as [| c l IH]; intros cur Hl.
  - reflexivity.
  - simpl in Hl. apply andb_true_iff in Hl. destruct Hl as [Hc Hl].
    simpl. destruct (Ascii.eqb c LF); [discriminate |].
    rewrite (IH _ Hl), append_assoc. reflexivity.
Qed.

Lemma splitlines_unlines (ls : list string) :
  forallb no_newline ls = true ->
  splitlines_keep (unlines ls) = map with_newline ls.
Proof.
  unfold splitlines_keep.
  induction ls as [| l ls IH]; intros H; [reflexivity |].
  simpl in H. apply andb_true_iff in H. destruct H as [Hl Hls].
  change (unlines (l :: ls)) with (l +:+ String LF (unlines ls)).
  rewrite (lines_from_line l _ "" Hl). simpl. now rewrite (IH Hls).
Qed.

Lemma unlines_app (a b : list string) :
  unlines (a ++ b) = unlines a +:+ unlines b.
Proof.
  induction a as [| l a IH]; [reflexivity |].
  change (unlines ((l :: a) ++ b)) with (l +:+ String LF (unlines (a ++ b))).
  change (unlines (l :: a)) with (l +:+ String LF (unlines a)).
  rewrite IH, append_assoc. reflexivity.
Qed.

Lemma unlines_length (ls : list string) :
  (length ls <= String.length (unlines ls))%nat.
Proof.
  induction ls as [| l ls IH]; [simpl; lia |].
  change (unlines (l :: ls)) with (l +:+ String LF (unlines ls)).
  rewrite length_append. simpl. lia.
Qed.

(** *** The two count matrices *)

Lemma matrix_lines_no_newline (k : nat) (extra : list string) :
  forallb no_newline extra = true ->
  forallb no_newline (matrix_header :: repeat matrix_row k ++ extra) = true.
Proof.
  intros He. change (forallb no_newline (repeat matrix_row k ++ extra) = true).
  induction k as [| k IH]; simpl; [exact He | exact IH].
Qed.

Lemma structure_row_valid (line_num : Z) (errors : list diag) :
  structure_row 2 line_num (with_newline matrix_row) errors = Ok errors.
Proof. reflexivity. Qed.

Lemma structure_row_negative (line_num : Z) :
  structure_row 2 line_num (with_newline matrix_negative_row) []
  = Ok [SNegative line_num (S754_finite true 4503599627370496 (-52))].
Proof. reflexivity. Qed.

Lemma structure_rows_valid (k : nat) (line_num : Z) (rest : list string)
    (errors : list diag) :
  structure_rows 2 line_num
    (map with_newline (repeat matrix_row k) ++ rest) errors
  = structure_rows 2 (line_num + Z.of_nat k) rest errors.
Proof.
  revert line_num. induction k as [| k IH]; intros line_num.
  - simpl. now rewrite Z.add_0_r.
  - cbn [repeat map app structure_rows].
    rewrite structure_row_valid. cbn [bind]. rewrite IH.
    f_equal. lia.
Qed.

Lemma open_text_one_file (p : Path) (t : string) :
  open_text (one_file p (text_file t)) p
  = Ok (mkReader (splitlines_keep t) None).
Proof.
  unfold open_text, with_file, one_file. cbn [fs].
  now rewrite String.eqb_refl.
Qed.

Lemma matrix_valid_structure (k : nat) (p : Path) :
  fst (validate_count_matrix_structure
         (one_file p (text_file (matrix_valid (S k)))) p) = true.
Proof.
  unfold validate_count_matrix_structure. rewrite open_text_one_file.
  unfold matrix_valid.
  rewrite <- (app_nil_r (repeat matrix_row (S k))).
  rewrite splitlines_unlines by now apply matrix_lines_no_newline.
  rewrite app_nil_r.
  cbn [bind readlines at_eof r_fail r_lines].
  unfold matrix_structure_checks.
  cbn [repeat map length Nat.ltb Nat.leb index nth_error bind tail].
  change (length (split_on TAB (strip (with_newline matrix_header))) <? 2)%nat
    with false.
  cbn iota.
  change (Zlen (split_on TAB (strip (with_newline matrix_header)))) with 2.
  cbn [structure_rows]. rewrite structure_row_valid. cbn [bind].
  rewrite <- (app_nil_r (map with_newline (repeat matrix_row k))).
  rewrite structure_rows_valid. reflexivity.
Qed.

Lemma matrix_spoiled_structure (k : nat) (p : Path) :
  fst (validate_count_matrix_structure
         (one_file p (text_file (matrix_spoiled (S k)))) p) = false.
Proof.
  unfold validate_count_matrix_structure. rewrite open_text_one_file.
  unfold matrix_spoiled.
  rewrite splitlines_unlines by now apply matrix_lines_no_newline.
  cbn [bind readlines at_eof r_fail r_lines].
  unfold matrix_structure_checks.
  rewrite map_cons, map_app.
  cbn [repeat map app length Nat.ltb Nat.leb index nth_error bind tail].
  change (length (split_on TAB (strip (with_newline matrix_header))) <? 2)%nat
    with false.
  cbn iota.
  change (Zlen (split_on TAB (strip (with_newline matrix_header)))) with 2.
  cbn [structure_rows]. rewrite structure_row_valid. cbn [bind].
  rewrite structure_rows_valid.
  cbn [structure_rows]. rewrite structure_row_negative. reflexivity.
Qed.

Lemma matrix_cell_header (k : nat) (extra : list string) (p : Path) :
  forallb no_newline extra = true ->
  validate_cell_header
    (one_file p (text_file
       (unlines (matrix_header :: repeat matrix_row k ++ extra)))) p
  = (false, NoProbeColumn).
Proof.
  intros He. unfold validate_cell_header. rewrite open_text_one_file.
  rewrite splitlines_unlines by now apply matrix_lines_no_newline.
  reflexivity.
Qed.

Lemma matrix_valid_cell_header (k : nat) (p : Path) :
  validate_cell_header (one_file p (text_file (matrix_valid k))) p
  = (false, NoProbeColumn).
Proof.
  unfold matrix_valid. rewrite <- (app_nil_r (repeat matrix_row k)).
  now apply matrix_cell_header.
Qed.

Lemma matrix_spoiled_cell_header (k : nat) (p : Path) :
  validate_cell_header (one_file p (text_file (matrix_spoiled k))) p
  = (false, NoProbeColumn).
Proof. unfold matrix_spoiled. now apply matrix_cell_header. Qed.

(** For a tabular extension only the last two checks are consulted. *)
Lemma detect_tabular (w : world) (p : Path) :
  tabular p = true ->
  fst (detect_input_type w p)
  = if fst (validate_cell_header w p) then CELL
    else if fst (validate_count_matrix_structure w p) then MATRIX
    else UNKNOWN.
Proof.
  intros Ht. destruct (tabular_extension p Ht) as [Hq Hb].
  unfold detect_input_type. cbv zeta.
  unfold tabular in Ht. rewrite Hq, Hb, Ht. cbn [andb].
  destruct (fst (validate_cell_header w p)); [reflexivity |].
  now destruct (fst (validate_count_matrix_structure w p)).
Qed.

Lemma matrix_prefix_agrees (n : nat) :
  same_prefix n
    (one_file sample_tsv (text_file (matrix_valid (S n))))
    (one_file sample_tsv (text_file (matrix_spoiled (S n)))) sample_tsv.
Proof.
  unfold same_prefix, one_file. cbn [fs]. rewrite String.eqb_refl.
  unfold file_prefix, text_file.
  cbn [open_rb open_rt open_gz map_result].
  assert (Hs : matrix_spoiled (S n)
               = matrix_valid (S n) +:+ unlines [matrix_negative_row]).
  { unfold matrix_spoiled, matrix_valid.
    change (matrix_header :: repeat matrix_row (S n) ++ [matrix_negative_row])
      with ((matrix_header :: repeat matrix_row (S n))
              ++ [matrix_negative_row]).
    apply unlines_app. }
  assert (Hlen : (n <= String.length (matrix_valid (S n)))%nat).
  { unfold matrix_valid.
    pose proof (unlines_length (matrix_header :: repeat matrix_row (S n))) as H.
    cbn [length] in H. rewrite repeat_length in H.
    cbn [length] in H. lia. }
  f_equal. f_equal.
  - f_equal. rewrite Hs. symmetry. now apply take_append.
  - f_equal. unfold stream_prefix. cbn [s_text s_fail].
    unfold matrix_valid, matrix_spoiled.
    rewrite <- (app_nil_r (repeat matrix_row (S n))) at 1 2.
    rewrite !splitlines_unlines by now apply matrix_lines_no_newline.
    rewrite app_nil_r.
    rewrite !map_cons, map_app, !length_cons, length_app, !length_map,
            repeat_length.
    f_equal.
    + change (with_newline matrix_header
                :: map with_newline (repeat matrix_row (S n))
                ++ map with_newline [matrix_negative_row])
        with ((with_newline matrix_header
                 :: map with_newline (repeat matrix_row (S n)))
                ++ map with_newline [matrix_negative_row]).
      rewrite firstn_app.
      rewrite length_cons, length_map, repeat_length.
      replace (n - S (S n))%nat with 0%nat by lia.
      cbn [firstn]. now rewrite app_nil_r.
    + destruct (Nat.ltb_spec (S (S n)) n); [lia |].
      destruct (Nat.ltb_spec (S (S n + length [matrix_negative_row])) n);
        [lia | reflexivity].
Qed.

(** C4 as stated fails: whatever the size [n] of the prefix, in bytes and
    in lines, there are two [.tsv] files that agree on it and are classified
    differently, because the count-matrix check reads every row.  The files
    are a count matrix of [n + 1] valid rows, and the same matrix followed by
    a row with a negative count. *)
Lemma sniffer_reads_whole_count_matrix :
  ~ exists n : nat, sniffs_prefix_only n.
Proof.
  intros [n H].
  specialize (H _ _ sample_tsv (matrix_prefix_agrees n)).
  rewrite !detect_tabular in H by reflexivity.
  rewrite matrix_valid_cell_header, matrix_spoiled_cell_header,
          matrix_valid_structure, matrix_spoiled_structure in H.
  discriminate.
Qed.

(** The same on two explicit files that share their first four lines. *)
Example four_line_prefix_not_enough :
  let w1 := one_file sample_tsv (text_file (matrix_valid 4)) in
  let w2 := one_file sample_tsv (text_file (matrix_spoiled 4)) in
  firstn 4 (splitlines_keep (matrix_valid 4))
  = firstn 4 (splitlines_keep (matrix_spoiled 4))
  /\ fst (detect_input_type w1 sample_tsv) = MATRIX
  /\ fst (detect_input_type w2 sample_tsv) = UNKNOWN.
Proof. vm_compute. repeat split; reflexivity. Qed.

(** *** The checks that do decide on a prefix *)

Lemma readline_strip_n_prefix (n : nat) (r1 r2 : reader) :
  firstn n (r_lines r1) = firstn n (r_lines r2) ->
  (if (length (r_lines r1) <? n)%nat then r_fail r1 else None)
  = (if (length (r_lines r2) <? n)%nat then r_fail r2 else None) ->
  readline_strip_n n r1 = readline_strip_n n r2.
Proof.
  revert r1 r2. induction n as [| n IH]; intros [ls1 f1] [ls2 f2];
    [reflexivity |].
  cbn [r_lines r_fail]. intros Hl Hf.
  destruct ls1 as [| a ls1], ls2 as [| b ls2]; try discriminate.
  - simpl in Hf. subst f2.
    cbn [readline_strip_n]. unfold readline. cbn [r_lines r_fail].
    destruct f1 as [e |]; [reflexivity |]. reflexivity.
  - cbn [firstn] in Hl. injection Hl as -> Hl.
    cbn [readline_strip_n]. unfold readline. cbn [r_lines r_fail bind].
    rewrite (IH (mkReader ls1 f1) (mkReader ls2 f2)); [reflexivity | exact Hl |].
    exact Hf.
Qed.

Lemma readline_prefix (n : nat) (r1 r2 : reader) :
  firstn (S n) (r_lines r1) = firstn (S n) (r_lines r2) ->
  (if (length (r_lines r1) <? S n)%nat then r_fail r1 else None)
  = (if (length (r_lines r2) <? S n)%nat then r_fail r2 else None) ->
  map_result fst (readline r1) = map_result fst (readline r2).
Proof.
  destruct r1 as [ls1 f1], r2 as [ls2 f2]. cbn [r_lines r_fail].
  intros Hl Hf. unfold readline. cbn [r_lines r_fail].
  destruct ls1 as [| a ls1], ls2 as [| b ls2]; try discriminate.
  - simpl in Hf. subst f2.
    now destruct f1.
  - cbn [firstn] in Hl. now injection Hl as -> _.
Qed.

Lemma stream_prefix_reader (n : nat) (s1 s2 : stream) :
  stream_prefix n s1 = stream_prefix n s2 ->
  firstn n (r_lines (reader_of s1)) = firstn n (r_lines (reader_of s2))
  /\ (if (length (r_lines (reader_of s1)) <? n)%nat
      then r_fail (reader_of s1) else None)
     = (if (length (r_lines (reader_of s2)) <? n)%nat
        then r_fail (reader_of s2) else None).
Proof. unfold stream_prefix, reader_of. cbn [r_lines r_fail]. now intros [= -> ->]. Qed.

(** The result of a header check on an opened stream depends on the
    prefix of the stream only. *)
Lemma fastq_lines_prefix (o1 o2 : result stream) :
  map_result (stream_prefix 4) o1 = map_result (stream_prefix 4) o2 ->
  (let* s := o1 in readline_strip_n 4 (reader_of s))
  = (let* s := o2 in readline_strip_n 4 (reader_of s)).
Proof.
  destruct o1 as [s1 | e1], o2 as [s2 | e2]; cbn [map_result bind];
    try discriminate.
  - intros H0.
    assert (H : stream_prefix 4 s1 = stream_prefix 4 s2) by congruence.
    destruct (stream_prefix_reader 4 s1 s2 H) as [Hl Hf].
    now apply readline_strip_n_prefix.
  - now intros [= ->].
Qed.

Lemma first_line_prefix (o1 o2 : result stream) :
  map_result (stream_prefix 4) o1 = map_result (stream_prefix 4) o2 ->
  (let* s := o1 in map_result fst (readline (reader_of s)))
  = (let* s := o2 in map_result fst (readline (reader_of s))).
Proof.
  destruct o1 as [s1 | e1], o2 as [s2 | e2]; cbn [map_result bind];
    try discriminate.
  - intros H0.
    assert (H : stream_prefix 4 s1 = stream_prefix 4 s2) by congruence.
    destruct (stream_prefix_reader 4 s1 s2 H) as [Hl Hf].
    now apply (readline_prefix 3).
  - now intros [= ->].
Qed.

Lemma validate_fastq_header_alt (w : world) (p : Path) :
  validate_fastq_header w p =
  match (let* lines :=
           with_file w p (fun f =>
             let* s := (if String.eqb (PathLib.suffix p) ".gz"
                        then open_gz f else open_rt f) in
             readline_strip_n 4 (reader_of s)) in
         fastq_header_checks lines) with
  | Ok res => res
  | Raise e => (false, ErrorFastq e)
  end.
Proof.
  unfold validate_fastq_header, open_fastq, with_file.
  destruct (fs w (path_str p)) as [f |]; [| reflexivity].
  now destruct (if String.eqb (PathLib.suffix p) ".gz"
                then open_gz f else open_rt f).
Qed.

Lemma validate_cell_header_alt (w : world) (p : Path) :
  validate_cell_header w p =
  match (with_file w p (fun f =>
           let* s := open_rt f in map_result fst (readline (reader_of s))))
  with
  | Ok l =>
      let header := split_on TAB (strip l) in
      let header_lower := map lower header in
      let has_probe_id := existsb (fun h => contains h "probe") header_lower in
      let has_intensity :=
        existsb (fun h => contains h "intensity" || contains h "signal")
                header_lower in
      if negb has_probe_id then (false, NoProbeColumn)
      else if negb has_intensity then (false, NoIntensityColumn)
      else if (length header <? 3)%nat then (false, CellTooFewColumns)
      else (true, ValidCell (length header))
  | Raise e => (false, ErrorCell e)
  end.
Proof.
  unfold validate_cell_header, open_text, with_file.
  destruct (fs w (path_str p)) as [f |]; [| reflexivity].
  destruct (open_rt f) as [s | e]; [| reflexivity].
  cbn [bind]. now destruct (readline (reader_of s)) as [[l r] | e].
Qed.

Lemma header_checks_prefix (w1 w2 : world) (p : Path) :
  same_prefix 4 w1 w2 p ->
  validate_fastq_header w1 p = validate_fastq_header w2 p
  /\ validate_bam_magic w1 p = validate_bam_magic w2 p
  /\ validate_cell_header w1 p = validate_cell_header w2 p.
Proof.
  unfold same_prefix. intros H.
  rewrite !validate_fastq_header_alt, !validate_cell_header_alt.
  unfold validate_bam_magic, read_bytes, with_file.
  destruct (fs w1 (path_str p)) as [f1 |], (fs w2 (path_str p)) as [f2 |];
    try contradiction; [| repeat split].
  unfold file_prefix in H. injection H as Hrb Hrt Hgz.
  split; [| split].
  - destruct (String.eqb (PathLib.suffix p) ".gz").
    + now rewrite (fastq_lines_prefix _ _ Hgz).
    + now rewrite (fastq_lines_prefix _ _ Hrt).
  - destruct (open_rb f1) as [b1 | e1], (open_rb f2) as [b2 | e2];
      cbn [map_result] in Hrb; try discriminate.
    + injection Hrb as Hrb. cbn [bind]. now rewrite Hrb.
    + now injection Hrb as ->.
  - now rewrite (first_line_prefix _ _ Hrt).
Qed.

(** C4 (amended).  When two files of the same name agree on their first
    four bytes and first four lines, the FASTQ header check, the BAM magic
    check and the array-intensity header check give the same answers on
    both, and [detect_input_type] classifies them alike unless the name has
    a tabular extension, the array-intensity check fails, and the
    count-matrix check, which reads every line of the file, tells them
    apart. *)
Theorem sniffer_prefix_except_count_matrix (w1 w2 : world) (p : Path) :
  same_prefix 4 w1 w2 p ->
  (validate_fastq_header w1 p = validate_fastq_header w2 p
   /\ validate_bam_magic w1 p = validate_bam_magic w2 p
   /\ validate_cell_header w1 p = validate_cell_header w2 p)
  /\ (detect_input_type w1 p = detect_input_type w2 p
      \/ (tabular p = true
          /\ fst (validate_cell_header w1 p) = false
          /\ fst (validate_count_matrix_structure w1 p)
             <> fst (validate_count_matrix_structure w2 p))).
Proof.
  intros H. pose proof (header_checks_prefix w1 w2 p H) as (Hq & Hb & Hc).
  split; [now repeat split |].
  unfold detect_input_type, tabular. cbv zeta.
  rewrite <- Hq, <- Hb, <- Hc.
  destruct (mem (lower (PathLib.suffix p)) [".fastq"; ".fq"; ".gz"]
            && existsb (fun x => contains (name p) x) ["fastq"; "fq"]);
    destruct (fst (validate_fastq_header w1 p));
    destruct (String.eqb (lower (PathLib.suffix p)) ".bam");
    destruct (fst (validate_bam_magic w1 p));
    destruct (mem (lower (PathLib.suffix p)) [".tsv"; ".csv"; ".txt"]);
    destruct (fst (validate_cell_header w1 p));
    destruct (fst (validate_count_matrix_structure w1 p));
    destruct (fst (validate_count_matrix_structure w2 p));
    cbn [negb];
    first [ left; reflexivity
          | right; repeat split; discriminate ].
Qed.

Lemma sniffer_prefix_except_count_matrix_witness :
  let w1 := one_file sample_fastq (fastq_of [good_read]) in
  let w2 := one_file sample_fastq fastq_truncated in
  same_prefix 4 w1 w2 sample_fastq
  /\ detect_input_type w1 sample_fastq = detect_input_type w2 sample_fastq.
Proof.
  assert (H : same_prefix 4 (one_file sample_fastq (fastq_of [good_read]))
                (one_file sample_fastq fastq_truncated) sample_fastq)
    by reflexivity.
  split; [exact H |].
  destruct (sniffer_prefix_except_count_matrix _ _ _ H)
    as (_ & [Hd | (Ht & _)]).
  - exact Hd.
  - discriminate Ht.
Defined.

(** ** C3: merging the same batch twice *)

Section Merge.

Variable render_message : message -> string.

Lemma load_existing_kept (items all : list json) (ex : gset string) :
  load_existing items all ex = (all ++ kept items, ex ∪ seen items).
Proof.
  revert all ex. induction items as [| x rest IH]; intros all ex.
  - simpl. now rewrite app_nil_r, (right_id_L ∅ (∪)).
  - assert (Hstop : (all ++ [x], ex) = (all ++ [x], ex ∪ ∅))
      by now rewrite (right_id_L ∅ (∪)).
    assert (Hnext : forall name : gset string,
               load_existing rest (all ++ [x]) (name ∪ ex)
               = (all ++ x :: kept rest, ex ∪ (name ∪ seen rest))).
    { intros name. rewrite IH, <- app_assoc. f_equal.
      now rewrite (comm_L (∪) name ex), (assoc_L (∪)). }
    assert (Hskip : load_existing rest (all ++ [x]) ex
                    = (all ++ x :: kept rest, ex ∪ (∅ ∪ seen rest))).
    { rewrite IH, <- app_assoc. f_equal. now rewrite (left_id_L ∅ (∪)). }
    cbn [load_existing kept seen]. unfold item_raises, item_name.
    destruct x as [| b | n | f | s | l | fields]; try exact Hstop.
    destruct (dict_get fields "sample_name") as [[| b | n | f | s | l | kv] |];
      first [exact Hstop | exact Hskip | exact (Hnext {[ s ]})].
Qed.

Lemma add_new_fresh (results : list IngestResult) (ex : gset string)
    (all : list json) :
  add_new render_message results ex all
  = all ++ map (to_dict render_message) (fresh ex results).
Proof.
  revert all. induction results as [| r rest IH]; intros all.
  - simpl. now rewrite app_nil_r.
  - cbn [add_new fresh List.filter].
    destruct (bool_decide (sample_name r ∉ ex)).
    + rewrite IH, <- app_assoc. reflexivity.
    + apply IH.
Qed.

Lemma kept_clean (items : list json) : clean items = true -> kept items = items.
Proof.
  induction items as [| x rest IH]; [reflexivity |].
  unfold clean. cbn [forallb kept]. intros H.
  apply andb_true_iff in H. destruct H as [Hx Hr].
  destruct (item_raises x); [discriminate |]. f_equal. now apply IH.
Qed.

Lemma kept_app_clean (xs ys : list json) :
  clean xs = true ->
  kept (xs ++ ys) = xs ++ kept ys /\ seen (xs ++ ys) = seen xs ∪ seen ys.
Proof.
  induction xs as [| x xs IH]; intros H.
  - split; [reflexivity | simpl; now rewrite (left_id_L ∅ (∪))].
  - unfold clean in H. cbn [forallb] in H.
    apply andb_true_iff in H. destruct H as [Hx Hr].
    destruct (IH Hr) as [Hk Hs].
    cbn [app kept seen]. destruct (item_raises x); [discriminate |].
    rewrite Hk, Hs. split; [reflexivity | now rewrite (assoc_L (∪))].
Qed.

Lemma kept_app_stopped (xs ys : list json) :
  clean xs = false ->
  kept (kept xs ++ ys) = kept xs /\ seen (kept xs ++ ys) = seen xs.
Proof.
  induction xs as [| x xs IH]; intros H; [discriminate |].
  unfold clean in H. cbn [forallb] in H.
  cbn [kept seen]. destruct (item_raises x) eqn:Hx.
  - cbn [app kept seen]. now rewrite Hx.
  - cbn [negb andb] in H. destruct (IH H) as [Hk Hs].
    cbn [app kept seen]. rewrite Hx, Hk, Hs. now split.
Qed.

Lemma to_dict_item (r : IngestResult) :
  item_raises (to_dict render_message r) = false /\ item_name (to_dict render_message r) = {[ sample_name r ]}.
Proof. split; reflexivity. Qed.

Lemma to_dict_clean (rs : list IngestResult) : clean (map (to_dict render_message) rs) = true.
Proof. induction rs as [| r rs IH]; [reflexivity | exact IH]. Qed.

Lemma to_dict_seen (rs : list IngestResult) (r : IngestResult) :
  In r rs -> sample_name r ∈ seen (map (to_dict render_message) rs).
Proof.
  induction rs as [| x rs IH]; intros H; [contradiction |].
  cbn [map seen]. destruct (to_dict_item x) as [Hx Hn]. rewrite Hx, Hn.
  destruct H as [-> | H].
  - apply elem_of_union_l. now apply elem_of_singleton.
  - apply elem_of_union_r. now apply IH.
Qed.

Lemma fresh_twice (ex : gset string) (results : list IngestResult) :
  fresh (ex ∪ seen (map (to_dict render_message) (fresh ex results))) results = [].
Proof.
  unfold fresh at 1.
  assert (H : forall r, In r results ->
                        sample_name r ∈ ex ∪ seen (map (to_dict render_message) (fresh ex results))).
  { intros r Hr. destruct (decide (sample_name r ∈ ex)) as [Hin | Hout].
    - now apply elem_of_union_l.
    - apply elem_of_union_r. apply to_dict_seen. unfold fresh.
      apply filter_In. split; [exact Hr |]. now apply bool_decide_eq_true. }
  revert H. generalize (ex ∪ seen (map (to_dict render_message) (fresh ex results))) as S.
  intros S. induction results as [| r rs IH]; intros H; [reflexivity |].
  cbn [List.filter].
  rewrite bool_decide_eq_false_2 by (intros Hn; apply Hn, H; now left).
  apply IH. intros r' Hr'. apply H. now right.
Qed.

Lemma load_report_kept (d : disk) :
  exists items, load_report d = (kept items, seen items).
Proof.
  assert (Hnil : ([] : list json, ∅ : gset string) = (kept [], seen []))
    by reflexivity.
  unfold load_report.
  destruct d as [[json_data | e] |]; try (now exists []).
  destruct (results_items json_data) as [items | e]; [| now exists []].
  exists items. rewrite load_existing_kept.
  now rewrite (left_id_L ∅ (∪)).
Qed.

Lemma results_items_report_data (now : string) (all : list json) :
  results_items (report_data now all) = Ok all.
Proof. reflexivity. Qed.

Lemma load_report_after (now : string) (all : list json) :
  load_report (Some (Ok (report_data now all))) = (kept all, seen all).
Proof.
  unfold load_report. rewrite results_items_report_data, load_existing_kept.
  now rewrite (left_id_L ∅ (∪)).
Qed.

(** The merged list is a fixed point of the merge. *)
Lemma merge_fixed_point (items : list json) (results : list IngestResult) :
  let merged := kept items ++ map (to_dict render_message) (fresh (seen items) results) in
  add_new render_message results (seen merged) (kept merged) = merged.
Proof.
  cbv zeta. destruct (clean items) eqn:Hc.
  - rewrite (kept_clean items Hc).
    destruct (kept_app_clean items
                (map (to_dict render_message) (fresh (seen items) results)) Hc) as [Hk Hs].
    rewrite Hk, Hs, (kept_clean _ (to_dict_clean _)).
    rewrite add_new_fresh, fresh_twice. simpl. now rewrite app_nil_r.
  - destruct (kept_app_stopped items
                (map (to_dict render_message) (fresh (seen items) results)) Hc) as [Hk Hs].
    rewrite Hk, Hs. apply add_new_fresh.
Qed.

(** C3 (amended).  Two consecutive [generate_report] calls with the same
    in-memory results write reports with the same [results] list and the
    same [total_files]: the second merge adds and removes nothing, whatever
    the report file held before the first call.  The two reports differ in
    their top-level [timestamp] only, which is the time of each call. *)
Theorem report_merge_idempotent
    (now1 now2 : string) (results : list IngestResult) (d : disk) :
  let d1 := after_report render_message now1 results d in
  let d2 := after_report render_message now2 results d1 in
  (exists all_results,
     d1 = Some (Ok (report_data now1 all_results))
     /\ d2 = Some (Ok (report_data now2 all_results)))
  /\ persisted_results d2 = persisted_results d1
  /\ persisted_total d2 = persisted_total d1.
Proof.
  cbv zeta. unfold after_report.
  destruct (load_report_kept d) as [items Hl].
  assert (H1 : generate_report render_message now1 results d
               = report_data now1
                   (kept items ++ map (to_dict render_message) (fresh (seen items) results))).
  { unfold generate_report. rewrite Hl. now rewrite add_new_fresh. }
  assert (H2 : generate_report render_message now2 results
                 (Some (Ok (generate_report render_message now1 results d)))
               = report_data now2
                   (kept items ++ map (to_dict render_message) (fresh (seen items) results))).
  { rewrite H1. unfold generate_report at 1. rewrite load_report_after.
    now rewrite merge_fixed_point. }
  rewrite H2, H1. split; [| split; reflexivity].
  eexists. split; reflexivity.
Qed.

End Merge.

(** C3 as stated fails: the report file holds the time of the call, so the
    second report is not the first one again unless both calls read the
    same time from the clock. *)
Lemma second_report_differs_in_timestamp :
  let d1 := after_report render_plain "2024-05-01T10:00:00" [one_result] None in
  let d2 := after_report render_plain "2024-05-01T10:00:01" [one_result] d1 in
  d2 <> d1
  /\ persisted_results d2 = persisted_results d1.
Proof.
  split.
  - vm_compute. discriminate.
  - vm_compute. reflexivity.
Qed.

(** The merge looks up the names loaded from the file only: two results of
    one batch that share a sample name are both appended. *)
Example duplicates_within_a_batch_are_kept :
  persisted_total
    (after_report render_plain "2024-05-01T10:00:00" [one_result; one_result]
                  None)
  = Some (JInt 2).
Proof. vm_compute. reflexivity. Qed.

(** * Further properties of the code *)

Import Spec2 Fixtures2.

(** ** [detect_input_type] *)

(** The branch [detect_input_type] takes, read backwards from its
    answer. *)
Lemma detect_input_type_cases (w : world) (p : Path) (ty : InputType) :
  fst (detect_input_type w p) = ty ->
  match ty with
  | FASTQ => fastq_candidate p = true
             /\ fst (validate_fastq_header w p) = true
  | BAM => bam_candidate p = true /\ fst (validate_bam_magic w p) = true
  | CELL => tabular p = true /\ fst (validate_cell_header w p) = true
  | MATRIX => tabular p = true
              /\ fst (validate_cell_header w p) = false
              /\ fst (validate_count_matrix_structure w p) = true
  | UNKNOWN => True
  end.
Proof.
  unfold detect_input_type, fastq_candidate, bam_candidate, tabular.
  cbv zeta. intros <-.
  destruct (mem (lower (PathLib.suffix p)) [".fastq"; ".fq"; ".gz"]
            && existsb (fun x => contains (name p) x) ["fastq"; "fq"]);
    destruct (fst (validate_fastq_header w p));
    destruct (String.eqb (lower (PathLib.suffix p)) ".bam");
    destruct (fst (validate_bam_magic w p));
    destruct (mem (lower (PathLib.suffix p)) [".tsv"; ".csv"; ".txt"]);
    destruct (fst (validate_cell_header w p));
    destruct (fst (validate_count_matrix_structure w p));
    cbn; auto.
Qed.

(** X1.  [detect_input_type] answers a known type only for a name that is a
    candidate of that type and a file that passes the header check of that
    type: FASTQ needs a raw-read extension, a name containing "fastq" or
    "fq" and a valid FASTQ header; BAM needs the extension [.bam] and the
    magic number; CELL needs a tabular extension and a valid array header;
    MATRIX needs a tabular extension, a failed array header check and a
    valid count-matrix structure. *)
Theorem detect_known_type_sound (w : world) (p : Path) (ty : InputType) :
  fst (detect_input_type w p) = ty ->
  match ty with
  | FASTQ => fastq_candidate p = true
             /\ fst (validate_fastq_header w p) = true
  | BAM => bam_candidate p = true /\ fst (validate_bam_magic w p) = true
  | CELL => tabular p = true /\ fst (validate_cell_header w p) = true
  | MATRIX => tabular p = true
              /\ fst (validate_cell_header w p) = false
              /\ fst (validate_count_matrix_structure w p) = true
  | UNKNOWN => True
  end.
Proof. exact (detect_input_type_cases w p ty). Qed.

Lemma detect_known_type_sound_witness :
  let w := one_file sample_tsv table_both in
  fst (detect_input_type w sample_tsv) = CELL
  /\ tabular sample_tsv = true
  /\ fst (validate_cell_header w sample_tsv) = true.
Proof.
  split; [reflexivity |].
  exact (detect_known_type_sound (one_file sample_tsv table_both)
           sample_tsv CELL eq_refl).
Defined.

(** A name that is no candidate of any type is classified UNKNOWN
    whatever the file holds: no content makes up for the extension. *)
Theorem detect_needs_known_extension (w : world) (p : Path) :
  fastq_candidate p = false -> bam_candidate p = false -> tabular p = false ->
  detect_input_type w p = (UNKNOWN, "Unknown format").
Proof.
  unfold detect_input_type, fastq_candidate, bam_candidate, tabular.
  cbv zeta. now intros -> -> ->.
Qed.

Lemma detect_needs_known_extension_witness :
  let w := one_file sample_sam bam_good_magic in
  fastq_candidate sample_sam = false /\ bam_candidate sample_sam = false
  /\ tabular sample_sam = false
  /\ detect_input_type w sample_sam = (UNKNOWN, "Unknown format").
Proof.
  repeat (split; [reflexivity |]).
  apply (detect_needs_known_extension (one_file sample_sam bam_good_magic)
           sample_sam); reflexivity.
Defined.

(** ** The records of [ingest] *)

Lemma parse_fastq_record (w : world) (p : Path) (r : IngestResult) :
  parse_fastq w p = Ok r ->
  input_type r = FASTQ /\ file_path r = path_str p /\ file_count r = 1
  /\ timestamp r = clock w /\ stat_size w p = Ok (file_size r)
  /\ dataset_id r = sample_name r /\ sample_name r = fastq_sample_name p
  /\ (is_header_failure (validation_message r) = true ->
      fst (validate_fastq_header w p) = false).
Proof.
  unfold parse_fastq. cbv zeta.
  destruct (validate_fastq_header w p) as [ok msg].
  destruct (stat_size w p) as [size | e0].
  - destruct ok; cbn [negb fst].
    + destruct (open_fastq w p) as [r0 | e]; cbn [bind try_except].
      * destruct (fastq_body r0) as [st | e]; cbn [bind try_except];
          intros [= <-]; cbn; repeat split; try discriminate.
        now destruct (q_errors st).
      * intros [= <-]; cbn; repeat split; discriminate.
    + cbn [bind try_except]. intros [= <-]; cbn; repeat split.
  - destruct ok; cbn [negb fst].
    + destruct (open_fastq w p) as [r0 | e]; cbn [bind try_except];
        [destruct (fastq_body r0); cbn [bind try_except] |]; discriminate.
    + cbn [bind try_except]. discriminate.
Qed.

Lemma parse_bam_record (w : world) (p : Path) (r : IngestResult) :
  parse_bam w p = Ok r ->
  input_type r = BAM /\ file_path r = path_str p /\ file_count r = 1
  /\ timestamp r = clock w /\ stat_size w p = Ok (file_size r)
  /\ dataset_id r = sample_name r /\ sample_name r = bam_sample_name p
  /\ (is_header_failure (validation_message r) = true ->
      fst (validate_bam_magic w p) = false).
Proof.
  unfold parse_bam. cbv zeta.
  destruct (validate_bam_magic w p) as [ok msg].
  destruct (stat_size w p) as [size | e0].
  - destruct ok; cbn [negb fst].
    + unfold flagstat.
      destruct (samtools w (path_str p)) as [[rc out] | e]; cbn [bind].
      * destruct (rc =? 0).
        -- destruct (split_on LF (strip out)) as [| l0 ls]; cbn [bind].
           ++ intros [= <-]; cbn; repeat split; discriminate.
           ++ destruct (index (l0 :: ls) 0) as [x |]; cbn [bind];
                [| intros [= <-]; cbn; repeat split; discriminate].
              destruct (index (split_ws x) 0) as [tok |]; cbn [bind];
                [| intros [= <-]; cbn; repeat split; discriminate].
              destruct (py_int tok); cbn [bind];
                intros [= <-]; cbn; repeat split; discriminate.
        -- intros [= <-]; cbn; repeat split; discriminate.
      * intros [= <-]; cbn; repeat split; discriminate.
    + cbn [bind try_except]. intros [= <-]; cbn; repeat split.
  - destruct ok; cbn [negb fst].
    + destruct (flagstat w p) as [[[s m] t] i]. cbn [bind try_except].
      discriminate.
    + cbn [bind try_except]. discriminate.
Qed.

Lemma parse_cell_record (w : world) (p : Path) (r : IngestResult) :
  parse_cell w p = Ok r ->
  input_type r = CELL /\ file_path r = path_str p /\ file_count r = 1
  /\ timestamp r = clock w /\ stat_size w p = Ok (file_size r)
  /\ dataset_id r = sample_name r /\ sample_name r = PathLib.stem p
  /\ (is_header_failure (validation_message r) = true ->
      fst (validate_cell_header w p) = false).
Proof.
  unfold parse_cell. cbv zeta.
  destruct (validate_cell_header w p) as [ok msg].
  destruct (stat_size w p) as [size | e0].
  - destruct ok; cbn [negb fst].
    + destruct (open_text w p) as [r0 | e]; cbn [bind try_except].
      * destruct (table_body cell_line r0) as [st | e]; cbn [bind try_except];
          intros [= <-]; cbn; repeat split; try discriminate.
        now destruct (t_errors st).
      * intros [= <-]; cbn; repeat split; discriminate.
    + cbn [bind try_except]. intros [= <-]; cbn; repeat split.
  - destruct ok; cbn [negb fst].
    + destruct (open_text w p) as [r0 | e]; cbn [bind try_except];
        [destruct (table_body cell_line r0); cbn [bind try_except] |];
        discriminate.
    + cbn [bind try_except]. discriminate.
Qed.

Lemma parse_count_matrix_record (w : world) (p : Path) (r : IngestResult) :
  parse_count_matrix w p = Ok r ->
  input_type r = MATRIX /\ file_path r = path_str p /\ file_count r = 1
  /\ timestamp r = clock w /\ stat_size w p = Ok (file_size r)
  /\ dataset_id r = sample_name r /\ sample_name r = PathLib.stem p
  /\ (is_header_failure (validation_message r) = true ->
      fst (validate_count_matrix_structure w p) = false).
Proof.
  unfold parse_count_matrix. cbv zeta.
  destruct (validate_count_matrix_structure w p) as [ok msg].
  destruct (stat_size w p) as [size | e0].
  - destruct ok; cbn [negb fst].
    + destruct (open_text w p) as [r0 | e]; cbn [bind try_except].
      * destruct (table_body matrix_line r0) as [st | e];
          cbn [bind try_except];
          intros [= <-]; cbn; repeat split; try discriminate.
        now destruct (t_errors st).
      * intros [= <-]; cbn; repeat split; discriminate.
    + cbn [bind try_except]. intros [= <-]; cbn; repeat split.
  - destruct ok; cbn [negb fst].
    + destruct (open_text w p) as [r0 | e]; cbn [bind try_except];
        [destruct (table_body matrix_line r0); cbn [bind try_except] |];
        discriminate.
    + cbn [bind try_except]. discriminate.
Qed.

(** X2.  Every record [ingest] returns carries the type that
    [detect_input_type] found, the path and the size of the file, a file
    count of one and the time of the call; and since the validator repeats
    the header check the sniffer has just made, its message is never one of
    "Header validation failed", "Magic bytes validation failed" or
    "Structure validation failed". *)
Theorem ingest_record_provenance
    (w : world) (p : Path) (did : option string) (r : IngestResult) :
  ingest w p did = Ok r ->
  input_type r = fst (detect_input_type w p)
  /\ file_path r = path_str p
  /\ stat_size w p = Ok (file_size r)
  /\ file_count r = 1
  /\ timestamp r = clock w
  /\ is_header_failure (validation_message r) = false.
Proof.
  unfold ingest.
  pose proof (detect_input_type_cases w p (fst (detect_input_type w p)) eq_refl)
    as Hd.
  destruct (detect_input_type w p) as [ty fmt]. cbn [fst] in Hd |- *.
  destruct ty; intros H.
  - destruct (parse_fastq_record w p r H) as (? & ? & ? & ? & ? & _ & _ & Hh).
    repeat split; try assumption.
    destruct (is_header_failure (validation_message r)); [| reflexivity].
    destruct Hd as [_ Hd]. rewrite (Hh eq_refl) in Hd. discriminate.
  - destruct (parse_bam_record w p r H) as (? & ? & ? & ? & ? & _ & _ & Hh).
    repeat split; try assumption.
    destruct (is_header_failure (validation_message r)); [| reflexivity].
    destruct Hd as [_ Hd]. rewrite (Hh eq_refl) in Hd. discriminate.
  - destruct (parse_cell_record w p r H) as (? & ? & ? & ? & ? & _ & _ & Hh).
    repeat split; try assumption.
    destruct (is_header_failure (validation_message r)); [| reflexivity].
    destruct Hd as [_ Hd]. rewrite (Hh eq_refl) in Hd. discriminate.
  - destruct (parse_count_matrix_record w p r H)
      as (? & ? & ? & ? & ? & _ & _ & Hh).
    repeat split; try assumption.
    destruct (is_header_failure (validation_message r)); [| reflexivity].
    destruct Hd as (_ & _ & Hd). rewrite (Hh eq_refl) in Hd. discriminate.
  - destruct (stat_size w p) as [size | e]; cbn [bind] in H; [| discriminate].
    injection H as <-. cbn. repeat split.
Qed.

Lemma ingest_record_provenance_witness :
  ingest good_fastq_world sample_fastq None = Ok good_fastq_record
  /\ input_type good_fastq_record
     = fst (detect_input_type good_fastq_world sample_fastq)
  /\ is_header_failure (validation_message good_fastq_record) = false.
Proof.
  assert (H : ingest good_fastq_world sample_fastq None = Ok good_fastq_record)
    by (vm_compute; reflexivity).
  split; [exact H |].
  destruct (ingest_record_provenance good_fastq_world sample_fastq None
              good_fastq_record H) as (Ht & _ & _ & _ & _ & Hm).
  split; [exact Ht | exact Hm].
Defined.

(** X3.  The dataset id a caller passes to [ingest] reaches the record only
    when the type is UNKNOWN.  For a recognised file the call gives the same
    record with or without it, and the record's [dataset_id] is its sample
    name. *)
Theorem ingest_dataset_id_only_for_unknown
    (w : world) (p : Path) (did : string) (r : IngestResult) :
  ingest w p (Some did) = Ok r ->
  (input_type r = UNKNOWN -> dataset_id r = did)
  /\ (input_type r <> UNKNOWN ->
      ingest w p None = Ok r /\ dataset_id r = sample_name r).
Proof.
  unfold ingest.
  destruct (detect_input_type w p) as [ty fmt].
  destruct ty; intros H.
  - destruct (parse_fastq_record w p r H) as (Ht & _ & _ & _ & _ & Hid & _).
    split; [rewrite Ht; discriminate | now intros _].
  - destruct (parse_bam_record w p r H) as (Ht & _ & _ & _ & _ & Hid & _).
    split; [rewrite Ht; discriminate | now intros _].
  - destruct (parse_cell_record w p r H) as (Ht & _ & _ & _ & _ & Hid & _).
    split; [rewrite Ht; discriminate | now intros _].
  - destruct (parse_count_matrix_record w p r H)
      as (Ht & _ & _ & _ & _ & Hid & _).
    split; [rewrite Ht; discriminate | now intros _].
  - destruct (stat_size w p) as [size | e]; cbn [bind] in H; [| discriminate].
    injection H as <-. cbn. split; [reflexivity | intros Hn; contradiction].
Qed.

Lemma ingest_dataset_id_only_for_unknown_witness :
  ingest good_fastq_world sample_fastq (Some "run-7") = Ok good_fastq_record
  /\ ingest good_fastq_world sample_fastq None = Ok good_fastq_record
  /\ dataset_id good_fastq_record = sample_name good_fastq_record.
Proof.
  assert (H : ingest good_fastq_world sample_fastq (Some "run-7")
              = Ok good_fastq_record) by (vm_compute; reflexivity).
  split; [exact H |].
  destruct (ingest_dataset_id_only_for_unknown good_fastq_world sample_fastq
              "run-7" good_fastq_record H) as [_ Hk].
  apply Hk. discriminate.
Defined.

(** ** [parse_bam] *)

(** X4.  For a file that exists, [parse_bam] answers PASS exactly when the
    first four bytes are the BAM magic number, and FAIL otherwise: no
    output of [samtools] can turn a BAM file into a WARN or a FAIL.  In the
    record, [is_paired_end] is set exactly when [total_reads] is, and it is
    [total_reads > 0]. *)
Theorem parse_bam_status_is_magic (w : world) (p : Path) (f : file) :
  fs w (path_str p) = Some f ->
  exists r, parse_bam w p = Ok r
            /\ validation_status r
               = (if fst (validate_bam_magic w p) then PASS else FAIL)
            /\ is_paired_end r
               = match total_reads r with
                 | Some n => Some (0 <? n)
                 | None => None
                 end.
Proof.
  intros H. unfold parse_bam. cbv zeta.
  rewrite (stat_size_present w p f H).
  destruct (validate_bam_magic w p) as [ok msg]. destruct ok; cbn [negb fst].
  - unfold flagstat.
    destruct (samtools w (path_str p)) as [[rc out] | e]; cbn [bind].
    + destruct (rc =? 0).
      * destruct (split_on LF (strip out)) as [| l0 ls]; cbn [bind].
        -- eexists. cbn. repeat split.
        -- destruct (index (l0 :: ls) 0) as [x |]; cbn [bind];
             [| eexists; cbn; repeat split].
           destruct (index (split_ws x) 0) as [tok |]; cbn [bind];
             [| eexists; cbn; repeat split].
           destruct (py_int tok); cbn [bind]; eexists; cbn; repeat split.
      * eexists. cbn. repeat split.
    + eexists. cbn. repeat split.
  - eexists. cbn. repeat split.
Qed.

Lemma parse_bam_status_is_magic_witness :
  let w := one_file sample_bam bam_bad_magic in
  fs w (path_str sample_bam) = Some bam_bad_magic
  /\ exists r, parse_bam w sample_bam = Ok r /\ validation_status r = FAIL.
Proof.
  split; [reflexivity |].
  destruct (parse_bam_status_is_magic (one_file sample_bam bam_bad_magic)
              sample_bam bam_bad_magic eq_refl) as (r & Hr & Hs & _).
  exists r. split; [exact Hr | exact Hs].
Defined.

(** With a [samtools] that answers, the count is the first token of its
    output. *)
Example parse_bam_reads_flagstat :
  let w := mkWorld (fs (one_file sample_bam bam_good_magic))
                   (fun _ => Ok (0, "1200 + 0 in total (QC-passed reads)"))
                   "2024-05-01T10:00:00" in
  exists r, parse_bam w sample_bam = Ok r
            /\ validation_status r = PASS
            /\ total_reads r = Some 1200
            /\ is_paired_end r = Some true.
Proof. eexists. vm_compute. repeat split; reflexivity. Qed.

(** ** Bounds on the diagnostics *)

Lemma append_capped_length (errors : list diag) (d : diag) :
  (length errors <= 5)%nat -> (length (append_capped errors d) <= 5)%nat.
Proof.
  intros H. unfold append_capped.
  destruct (Nat.ltb_spec (length errors) 5); [| exact H].
  rewrite length_app. simpl. lia.
Qed.

Lemma structure_fields_length (line_num : Z) (fields : list string)
    (errors : list diag) :
  (length errors <= 5)%nat ->
  (length (structure_fields line_num fields errors) <= 5)%nat.
Proof.
  revert errors. induction fields as [| fld rest IH]; intros errors H;
    [exact H |].
  cbn [structure_fields]. apply IH.
  destruct (py_float fld) as [val |];
    [destruct (lt_zero val) |]; auto using append_capped_length.
Qed.

Lemma structure_row_length (col_count line_num : Z) (line : string)
    (errors errors' : list diag) :
  (length errors <= 5)%nat ->
  structure_row col_count line_num line errors = Ok errors' ->
  (length errors' <= 5)%nat.
Proof.
  intros H. unfold structure_row.
  destruct (index (split_on TAB (strip line)) 0) as [f0 | e];
    cbn [bind]; [| discriminate].
  intros [= <-]. apply structure_fields_length.
  destruct (String.eqb f0 "" || String.eqb (strip f0) "");
    destruct (negb (Zlen (split_on TAB (strip line)) =? col_count));
    auto using append_capped_length.
Qed.

Lemma structure_rows_length (col_count line_num : Z) (rows : list string)
    (errors errors' : list diag) :
  (length errors <= 5)%nat ->
  structure_rows col_count line_num rows errors = Ok errors' ->
  (length errors' <= 5)%nat.
Proof.
  revert line_num errors. induction rows as [| line rest IH];
    intros line_num errors H; cbn [structure_rows].
  - now intros [= <-].
  - destruct (structure_row col_count line_num line errors) as [e1 |] eqn:E;
      cbn [bind]; [| discriminate].
    apply IH. exact (structure_row_length _ _ _ _ _ H E).
Qed.

(** X5.  When [validate_count_matrix_structure] rejects a file for its
    rows, the message lists at least one and at most five errors, however
    many rows are wrong. *)
Theorem structure_errors_at_most_five
    (w : world) (p : Path) (ok : bool) (errors : list diag) :
  validate_count_matrix_structure w p = (ok, MatrixErrors errors) ->
  ok = false /\ (1 <= length errors <= 5)%nat.
Proof.
  unfold validate_count_matrix_structure.
  destruct (let* r := open_text w p in
            let* lines := readlines r in matrix_structure_checks lines)
    as [res | e] eqn:E; [| discriminate].
  intros ->.
  apply bind_Ok_inv in E. destruct E as (r & _ & E).
  apply bind_Ok_inv in E. destruct E as (lines & _ & E).
  unfold matrix_structure_checks in E.
  destruct (length lines <? 2)%nat; [discriminate |].
  destruct (index lines 0) as [l0 |]; cbn [bind] in E; [| discriminate].
  destruct (length (split_on TAB (strip l0)) <? 2)%nat; [discriminate |].
  destruct (structure_rows (Zlen (split_on TAB (strip l0))) 2 (tail lines) [])
    as [errs |] eqn:Er; cbn [bind] in E; [| discriminate].
  apply structure_rows_length in Er; [| simpl; lia].
  destruct errs as [| d errs]; [discriminate |].
  injection E as <- <-. split; [reflexivity |]. simpl in *. lia.
Qed.

Lemma structure_errors_at_most_five_witness :
  let f := text_file (unlines (matrix_header :: repeat matrix_negative_row 8)) in
  let w := one_file sample_tsv f in
  exists errors,
    validate_count_matrix_structure w sample_tsv = (false, MatrixErrors errors)
    /\ (1 <= length errors <= 5)%nat.
Proof.
  eexists. split; [vm_compute; reflexivity |].
  eapply (structure_errors_at_most_five
            (one_file sample_tsv
               (text_file (unlines (matrix_header
                                      :: repeat matrix_negative_row 8))))
            sample_tsv false).
  vm_compute. reflexivity.
Defined.

(** *** [parse_fastq]: the number of reads and of diagnostics *)

Lemma unpack4_length (lines : list string) :
  length lines = 4%nat ->
  exists a b c d, unpack4 lines = Ok (a, b, c, d).
Proof.
  destruct lines as [| a [| b [| c [| d [| x rest]]]]]; try discriminate.
  intros _. now exists a, b, c, d.
Qed.

Lemma fastq_record_checks_length (read_count : Z) (header seq plus qual : string)
    (errors : list diag) :
  Z.of_nat (length (fastq_record_checks read_count header seq plus qual errors))
  <= Z.of_nat (length errors) + 3 + (if read_count <=? 5 then 1 else 0).
Proof.
  unfold fastq_record_checks.
  destruct (negb (startswith header "@")), (negb (startswith plus "+")),
    (negb (String.length seq =? String.length qual)%nat),
    (bool_decide (char_set seq ∖ valid_nucleotides ≠ ∅)),
    (read_count <=? 5);
    rewrite ?length_app; simpl; lia.
Qed.

(** The invariant of the loop of [parse_fastq]: the number of reads is the
    number of complete records met so far, up to 1001, and each read brings
    at most three diagnostics, one more among the first five reads. *)
Lemma fastq_loop_invariant (ls : list string) (st st' : fastq_state) (b : bool) :
  (length (q_lines st) < 4)%nat ->
  0 <= q_read_count st <= 1000 ->
  Z.of_nat (length (q_errors st))
    <= 3 * q_read_count st + Z.min (q_read_count st) 5 ->
  fastq_loop ls st = Ok (st', b) ->
  q_read_count st'
    = Z.min 1001 (q_read_count st
                  + Z.of_nat (length (q_lines st) + length ls) / 4)
  /\ Z.of_nat (length (q_errors st'))
       <= 3 * q_read_count st' + Z.min (q_read_count st') 5.
Proof.
  revert st. induction ls as [| line rest IH]; intros st Hk Hc He H;
    cbn [fastq_loop] in H.
  - injection H as <- <-. split; [| exact He].
    rewrite Nat.add_0_r, Z.div_small by lia. lia.
  - assert (Hlen : length (q_lines st ++ [rstrip_newline line])
                   = S (length (q_lines st)))
      by (rewrite length_app; simpl; lia).
    destruct (Nat.eqb_spec (length (q_lines st ++ [rstrip_newline line])) 4)
      as [H4 | H4].
    + destruct (unpack4_length _ H4) as (hd & sq & pl & ql & Hu).
      rewrite Hu in H. cbn [bind] in H.
      pose proof (fastq_record_checks_length (q_read_count st + 1)
                    hd sq pl ql (q_errors st)) as Hchk.
      assert (Hdiv : Z.of_nat (length (q_lines st) + length (line :: rest)) / 4
                     = 1 + Z.of_nat (length rest) / 4).
      { cbn [length].
        replace (Z.of_nat (length (q_lines st) + S (length rest)))
          with (1 * 4 + Z.of_nat (length rest)) by lia.
        rewrite Z.div_add_l by lia. reflexivity. }
      assert (Hrest : 0 <= Z.of_nat (length rest) / 4)
        by (apply Z.div_pos; lia).
      assert (Herr : Z.of_nat (length (fastq_record_checks
                                         (q_read_count st + 1) hd sq pl ql
                                         (q_errors st)))
                     <= 3 * (q_read_count st + 1)
                        + Z.min (q_read_count st + 1) 5).
      { destruct (Z.leb_spec (q_read_count st + 1) 5); lia. }
      destruct (Z.ltb_spec 1000 (q_read_count st + 1)).
      * injection H as <- <-. cbn [q_read_count q_errors].
        split; [rewrite Hdiv; lia | exact Herr].
      * apply IH in H; cbn [q_lines q_read_count q_errors length] in *;
          try lia; try exact Herr.
        destruct H as [Hr Hb]. split; [| exact Hb].
        rewrite Hr, Hdiv. cbn [Nat.add]. lia.
    + apply IH in H; cbn [q_lines q_read_count q_errors] in *;
        try lia; try exact He.
      destruct H as [Hr Hb]. split; [| exact Hb].
      rewrite Hr, Hlen. cbn [length]. do 3 f_equal. lia.
Qed.

(** X6.  When [parse_fastq] reports a number of reads, it is the number of
    complete four-line records of the file, up to 1001: the lines after the
    last complete record are not counted, and nothing past the 1001st
    record is. *)
Theorem parse_fastq_counts_complete_records
    (w : world) (p : Path) (r : IngestResult) (n : Z) :
  parse_fastq w p = Ok r ->
  total_reads r = Some n ->
  exists rd, open_fastq w p = Ok rd
             /\ n = Z.min 1001 (Zlen (r_lines rd) / 4).
Proof.
  unfold parse_fastq. cbv zeta.
  destruct (validate_fastq_header w p) as [ok msg].
  destruct (stat_size w p) as [size | e0].
  2:{ destruct ok; cbn [negb];
        [destruct (open_fastq w p) as [r0 |]; cbn [bind try_except];
         [destruct (fastq_body r0); cbn [bind try_except] |] |
         cbn [bind try_except]]; discriminate. }
  destruct ok; cbn [negb].
  - destruct (open_fastq w p) as [r0 | e]; cbn [bind try_except].
    + destruct (fastq_body r0) as [st | e] eqn:Hb; cbn [bind try_except].
      * intros [= <-] [= <-]. exists r0. split; [reflexivity |].
        unfold fastq_body in Hb.
        apply bind_Ok_inv in Hb. destruct Hb as ([st' b] & Hl & Hb).
        apply bind_Ok_inv in Hb. destruct Hb as (u & _ & Hb).
        injection Hb as <-.
        apply fastq_loop_invariant in Hl; [| cbn; lia ..].
        destruct Hl as [Hl _]. cbn in Hl. exact Hl.
      * intros [= <-]. discriminate.
    + intros [= <-]. discriminate.
  - cbn [bind try_except]. intros [= <-]. discriminate.
Qed.

Lemma parse_fastq_counts_complete_records_witness :
  let w := one_file sample_fastq fastq_truncated in
  exists r rd,
    parse_fastq w sample_fastq = Ok r
    /\ total_reads r = Some 1
    /\ open_fastq w sample_fastq = Ok rd
    /\ Zlen (r_lines rd) = 6
    /\ 1 = Z.min 1001 (Zlen (r_lines rd) / 4).
Proof.
  assert (H : exists r, parse_fastq (one_file sample_fastq fastq_truncated)
                          sample_fastq = Ok r /\ total_reads r = Some 1)
    by (eexists; vm_compute; split; reflexivity).
  destruct H as (r & Hr & Ht).
  destruct (parse_fastq_counts_complete_records _ _ r 1 Hr Ht)
    as (rd & Hopen & Hn).
  exists r, rd. repeat split; try assumption.
  vm_compute in Hopen. injection Hopen as <-. reflexivity.
Defined.

(** X7.  [parse_fastq] never lists more than 3008 diagnostics: at most
    three for each of the at most 1001 reads it examines, and the
    invalid-nucleotide diagnostic for the first five reads only. *)
Theorem parse_fastq_diagnostics_bounded
    (w : world) (p : Path) (errs : list diag) :
  diagnostics VFastq w p = Some errs -> (length errs <= 3008)%nat.
Proof.
  unfold diagnostics. destruct (header_ok VFastq w p); [| discriminate].
  cbn [body_errors].
  destruct (open_fastq w p) as [r0 | e]; cbn [bind]; [| discriminate].
  destruct (fastq_body r0) as [st | e] eqn:Hb; cbn [bind]; [| discriminate].
  intros [= <-].
  unfold fastq_body in Hb.
  apply bind_Ok_inv in Hb. destruct Hb as ([st' b] & Hl & Hb).
  apply bind_Ok_inv in Hb. destruct Hb as (u & _ & Hb).
  injection Hb as <-.
  apply fastq_loop_invariant in Hl; [| cbn; lia ..].
  destruct Hl as [Hr He]. cbn in Hr. lia.
Qed.

Lemma parse_fastq_diagnostics_bounded_witness :
  let w := one_file sample_fastq fastq_11_errors in
  diagnostics VFastq w sample_fastq = Some eleven_diagnostics
  /\ (length eleven_diagnostics <= 3008)%nat.
Proof.
  assert (H : diagnostics VFastq (one_file sample_fastq fastq_11_errors)
                sample_fastq = Some eleven_diagnostics)
    by (vm_compute; reflexivity).
  split; [exact H |].
  exact (parse_fastq_diagnostics_bounded _ _ _ H).
Defined.

(** ** The body loops of [parse_cell] and [parse_count_matrix] *)

Lemma split_on_cons (sep : ascii) (s : string) :
  exists f fs, split_on sep s = f :: fs.
Proof.
  induction s as [| c s IH]; cbn [split_on]; [now eexists _, _ |].
  destruct (Ascii.eqb c sep); [now eexists _, _ |].
  destruct IH as (f & fs & ->). now eexists _, _.
Qed.

Lemma quiet_refl (st : table_state) : quiet_step st st.
Proof. unfold quiet_step. auto. Qed.

Lemma quiet_trans (a b c : table_state) :
  quiet_step a b -> quiet_step b c -> quiet_step a c.
Proof.
  unfold quiet_step. intros (R1 & C1 & E1 & M1) (R2 & C2 & E2 & M2).
  repeat split; [congruence | congruence | | auto].
  intros H. rewrite E2, E1; [reflexivity | exact H | rewrite R1; exact H].
Qed.

Lemma report_quiet (st : table_state) (d : diag) :
  is_min_columns d = false -> quiet_step st (report st d).
Proof.
  intros Hd. unfold quiet_step, report, no_min_columns.
  destruct (Z.leb_spec (t_row_count st) 5); cbn.
  - repeat split; [lia |]. intros He.
    rewrite existsb_app, He. cbn. now rewrite Hd.
  - repeat split; auto.
Qed.

Lemma add_advisory_quiet (st : table_state) (a : advisory) :
  quiet_step st (add_advisory st a).
Proof. unfold quiet_step, add_advisory, no_min_columns. cbn. auto. Qed.

Lemma cell_fields_quiet (line_num col_idx : Z) (fields : list string)
    (st : table_state) :
  quiet_step st (cell_fields line_num col_idx fields st).
Proof.
  revert col_idx st. induction fields as [| fld rest IH]; intros col_idx st;
    cbn [cell_fields]; [apply quiet_refl |].
  eapply quiet_trans; [| apply IH].
  destruct (py_float fld) as [val |];
    [destruct (lt_zero val) |];
    auto using quiet_refl, report_quiet.
Qed.

Lemma count_field_quiet (line_num : Z) (field : string) (st st' : table_state) :
  count_field line_num field st = Ok st' -> quiet_step st st'.
Proof.
  unfold count_field.
  destruct (py_float field) as [val |].
  - assert (H1 : quiet_step st
                   (if lt_zero val then report st (MNegative line_num val)
                    else st))
      by (destruct (lt_zero val); auto using quiet_refl, report_quiet).
    destruct (int_of_float val) as [n | e].
    + intros [= <-]. eapply quiet_trans; [exact H1 |].
      destruct (ne_int val n && _); auto using quiet_refl, add_advisory_quiet.
    + destruct (is_ValueError e); [| discriminate].
      intros [= <-]. eapply quiet_trans; [exact H1 |].
      now apply report_quiet.
  - intros [= <-]. now apply report_quiet.
Qed.

Lemma count_fields_quiet (line_num : Z) (fields : list string)
    (st st' : table_state) :
  count_fields line_num fields st = Ok st' -> quiet_step st st'.
Proof.
  revert st. induction fields as [| fld rest IH]; intros st;
    cbn [count_fields].
  - intros [= <-]. apply quiet_refl.
  - destruct (count_field line_num fld st) as [st1 |] eqn:E; cbn [bind];
      [| discriminate].
    intros H. eapply quiet_trans; [exact (count_field_quiet _ _ _ _ E) |].
    now apply IH.
Qed.

(** A new row followed by quiet steps is a line effect. *)
Lemma row_then_quiet (line_num : Z) (st st' : table_state) :
  line_num <> 0 ->
  quiet_step (mkTableState (t_errors st) (t_advisories st)
                           (t_row_count st + 1) (t_col_count st)) st' ->
  line_effect line_num st st'.
Proof.
  intros Hn (R & C & E & M). cbn in R, C, E. unfold line_effect.
  destruct (Z.eqb_spec line_num 0); [contradiction |].
  split; [exact R |]. intros _. split; [exact C |]. split.
  - intros H. apply E. lia.
  - exact M.
Qed.

Lemma cell_line_effect (line_num : Z) (line : string) (st : table_state) :
  exists st', cell_line line_num line st = Ok st'
              /\ line_effect line_num st st'.
Proof.
  unfold cell_line.
  destruct (split_on_cons TAB (strip line)) as (f0 & fs & ->).
  destruct (Z.eqb_spec line_num 0) as [-> | Hn].
  - eexists. split; [reflexivity |]. unfold line_effect. cbn [Z.eqb].
    split; [| intros H; contradiction].
    destruct (_ <? 3); cbn; lia.
  - cbn [index nth_error bind]. eexists. split; [reflexivity |].
    apply row_then_quiet; [exact Hn |].
    eapply quiet_trans; [| apply cell_fields_quiet].
    eapply quiet_trans;
      [| destruct (negb (isalnum _));
         [apply report_quiet; reflexivity | apply quiet_refl]].
    destruct (negb (_ =? _));
      [apply report_quiet; reflexivity | apply quiet_refl].
Qed.

Lemma matrix_line_effect (line_num : Z) (line : string) (st st' : table_state) :
  matrix_line line_num line st = Ok st' -> line_effect line_num st st'.
Proof.
  unfold matrix_line.
  set (fields := if startswith line "," then split_on "," (strip line)
                 else split_on TAB (strip line)).
  assert (Hf : exists f0 fs, fields = f0 :: fs).
  { unfold fields. destruct (startswith line ","); apply split_on_cons. }
  destruct Hf as (f0 & fs & ->).
  destruct (Z.eqb_spec line_num 0) as [-> | Hn].
  - intros [= <-]. unfold line_effect. cbn [Z.eqb].
    split; [| intros H; contradiction].
    destruct (_ <? 2); cbn; lia.
  - cbn [index nth_error bind tail]. intros H.
    apply row_then_quiet; [exact Hn |].
    eapply quiet_trans; [| exact (count_fields_quiet _ _ _ _ H)].
    eapply quiet_trans;
      [| destruct (String.eqb f0 "");
         [apply report_quiet; reflexivity | apply quiet_refl]].
    destruct (negb (_ =? _));
      [apply report_quiet; reflexivity | apply quiet_refl].
Qed.

Section BodyLoop.

Variable body : Z -> string -> table_state -> result table_state.

Hypothesis body_effect :
  forall line_num line st st',
    body line_num line st = Ok st' -> line_effect line_num st st'.

Lemma enumerate_lines_app (line_num : Z) (l1 l2 : list string)
    (st : table_state) :
  enumerate_lines body line_num (l1 ++ l2) st
  = (let* st1 := enumerate_lines body line_num l1 st in
     enumerate_lines body (line_num + Zlen l1) l2 st1).
Proof.
  revert line_num st. induction l1 as [| l l1 IH]; intros line_num st.
  - cbn. now rewrite Z.add_0_r.
  - cbn [app enumerate_lines].
    destruct (body line_num l st) as [st1 | e]; cbn [bind]; [| reflexivity].
    rewrite IH. do 2 f_equal. unfold Zlen. cbn [length]. lia.
Qed.

(** From the second line on, every line is one more row. *)
Lemma enumerate_rows (line_num : Z) (ls : list string) (st st' : table_state) :
  0 < line_num ->
  enumerate_lines body line_num ls st = Ok st' ->
  t_row_count st' = t_row_count st + Zlen ls
  /\ t_col_count st' = t_col_count st
  /\ (5 <= t_row_count st -> t_errors st' = t_errors st)
  /\ (no_min_columns st -> no_min_columns st').
Proof.
  revert line_num st. induction ls as [| l ls IH]; intros line_num st Hn;
    cbn [enumerate_lines].
  - intros [= <-]. unfold Zlen. cbn. repeat split; auto; lia.
  - destruct (body line_num l st) as [st1 | e] eqn:E; cbn [bind];
      [| discriminate].
    intros H. apply IH in H; [| lia].
    destruct (body_effect _ _ _ _ E) as (R1 & H1).
    destruct (Z.eqb_spec line_num 0); [lia |].
    destruct H1 as (C1 & E1 & M1); [lia |].
    destruct H as (R & C & Er & M).
    unfold Zlen in *. cbn [length].
    repeat split; [lia | congruence | | auto].
    intros H5. rewrite Er, E1; [reflexivity | exact H5 | lia].
Qed.

Lemma table_body_rows (r : reader) (st : table_state) :
  table_body body r = Ok st ->
  t_row_count st = Z.max 0 (Zlen (r_lines r) - 1).
Proof.
  unfold table_body. intros H.
  apply bind_Ok_inv in H. destruct H as (st1 & H & H').
  apply bind_Ok_inv in H'. destruct H' as (u & _ & [= <-]).
  destruct (r_lines r) as [| l0 rest]; cbn [enumerate_lines] in H.
  - injection H as <-. reflexivity.
  - apply bind_Ok_inv in H. destruct H as (st0 & H0 & H).
    apply enumerate_rows in H; [| lia].
    destruct (body_effect _ _ _ _ H0) as (R0 & _). cbn in R0.
    destruct H as (R & _). unfold Zlen in *. cbn [length]. lia.
Qed.

(** The diagnostics are those of the first line and the five rows after
    it. *)
Lemma table_body_first_six (ls : list string) (fail : option exn)
    (st : table_state) :
  table_body body (mkReader ls fail) = Ok st ->
  exists st6, table_body body (mkReader (firstn 6 ls) None) = Ok st6
              /\ t_errors st6 = t_errors st.
Proof.
  unfold table_body. cbn [r_lines r_fail at_eof]. intros H.
  apply bind_Ok_inv in H. destruct H as (st1 & H & H').
  apply bind_Ok_inv in H'. destruct H' as (u & _ & [= <-]).
  rewrite <- (firstn_skipn 6 ls) in H.
  rewrite enumerate_lines_app in H.
  apply bind_Ok_inv in H. destruct H as (st6 & H6 & H).
  exists st6. rewrite H6. split; [reflexivity |].
  destruct (Nat.le_gt_cases (length ls) 6) as [Hle | Hgt].
  - rewrite skipn_all2 in H by exact Hle. now injection H as <-.
  - assert (Hlen : length (firstn 6 ls) = 6%nat)
      by (rewrite length_firstn; lia).
    destruct ls as [| l0 rest]; [cbn in Hgt; lia |].
    cbn [firstn enumerate_lines] in H6, Hlen.
    apply bind_Ok_inv in H6. destruct H6 as (st0 & H0 & H6).
    destruct (body_effect _ _ _ _ H0) as (R0 & _). cbn in R0.
    apply enumerate_rows in H6; [| lia]. destruct H6 as (R6 & _).
    apply enumerate_rows in H;
      [| unfold Zlen; rewrite length_firstn; cbn [length]; lia].
    destruct H as (_ & _ & E & _). symmetry. apply E.
    unfold Zlen in R6. cbn [length] in Hlen. lia.
Qed.

End BodyLoop.

Lemma cell_line_body_effect (line_num : Z) (line : string)
    (st st' : table_state) :
  cell_line line_num line st = Ok st' -> line_effect line_num st st'.
Proof.
  intros H. destruct (cell_line_effect line_num line st) as (st1 & H1 & He).
  congruence.
Qed.

(** X8.  When [parse_cell] or [parse_count_matrix] reports a number of
    rows, it is the number of lines of the file after the first one, blank
    lines included. *)
Theorem table_rows_are_lines_after_header
    (w : world) (p : Path) (r : IngestResult) (n : Z) :
  parse_cell w p = Ok r \/ parse_count_matrix w p = Ok r ->
  total_reads r = Some n ->
  exists rd, open_text w p = Ok rd
             /\ n = Z.max 0 (Zlen (r_lines rd) - 1).
Proof.
  intros [H | H]; revert H.
  - unfold parse_cell. cbv zeta.
    destruct (validate_cell_header w p) as [ok msg].
    destruct (stat_size w p) as [size | e0].
    2:{ destruct ok; cbn [negb];
          [destruct (open_text w p) as [r0 |]; cbn [bind try_except];
           [destruct (table_body cell_line r0); cbn [bind try_except] |] |
           cbn [bind try_except]]; discriminate. }
    destruct ok; cbn [negb].
    + destruct (open_text w p) as [r0 | e]; cbn [bind try_except].
      * destruct (table_body cell_line r0) as [st | e] eqn:Hb;
          cbn [bind try_except].
        -- intros [= <-] [= <-]. exists r0. split; [reflexivity |].
           exact (table_body_rows cell_line cell_line_body_effect r0 st Hb).
        -- intros [= <-]. discriminate.
      * intros [= <-]. discriminate.
    + cbn [bind try_except]. intros [= <-]. discriminate.
  - unfold parse_count_matrix. cbv zeta.
    destruct (validate_count_matrix_structure w p) as [ok msg].
    destruct (stat_size w p) as [size | e0].
    2:{ destruct ok; cbn [negb];
          [destruct (open_text w p) as [r0 |]; cbn [bind try_except];
           [destruct (table_body matrix_line r0); cbn [bind try_except] |] |
           cbn [bind try_except]]; discriminate. }
    destruct ok; cbn [negb].
    + destruct (open_text w p) as [r0 | e]; cbn [bind try_except].
      * destruct (table_body matrix_line r0) as [st | e] eqn:Hb;
          cbn [bind try_except].
        -- intros [= <-] [= <-]. exists r0. split; [reflexivity |].
           exact (table_body_rows matrix_line matrix_line_effect r0 st Hb).
        -- intros [= <-]. discriminate.
      * intros [= <-]. discriminate.
    + cbn [bind try_except]. intros [= <-]. discriminate.
Qed.

Lemma table_rows_are_lines_after_header_witness :
  let w := one_file sample_tsv cell_table in
  exists r rd,
    parse_cell w sample_tsv = Ok r
    /\ total_reads r = Some 2
    /\ open_text w sample_tsv = Ok rd
    /\ 2 = Z.max 0 (Zlen (r_lines rd) - 1).
Proof.
  assert (H : exists r, parse_cell (one_file sample_tsv cell_table) sample_tsv
                        = Ok r /\ total_reads r = Some 2)
    by (eexists; vm_compute; split; reflexivity).
  destruct H as (r & Hr & Ht).
  destruct (table_rows_are_lines_after_header _ _ r 2 (or_introl Hr) Ht)
    as (rd & Hopen & Hn).
  exists r, rd. repeat split; assumption.
Defined.

(** X9.  The diagnostics of the body loops of [parse_cell] and
    [parse_count_matrix] come from the first line and the five rows after
    it: a loop that finishes on a whole file ends with the same list of
    validation errors as the same loop on the first six lines of the
    file. *)
Theorem table_diagnostics_from_first_six_lines
    (ls : list string) (fail : option exn) :
  (forall st,
     table_body cell_line (mkReader ls fail) = Ok st ->
     exists st6, table_body cell_line (mkReader (firstn 6 ls) None) = Ok st6
                 /\ t_errors st6 = t_errors st)
  /\ (forall st,
        table_body matrix_line (mkReader ls fail) = Ok st ->
        exists st6,
          table_body matrix_line (mkReader (firstn 6 ls) None) = Ok st6
          /\ t_errors st6 = t_errors st).
Proof.
  split; intros st H.
  - exact (table_body_first_six cell_line cell_line_body_effect ls fail st H).
  - exact (table_body_first_six matrix_line matrix_line_effect ls fail st H).
Qed.

Lemma table_diagnostics_from_first_six_lines_witness :
  exists st st6,
    table_body cell_line (mkReader bad_cell_lines None) = Ok st
    /\ table_body cell_line (mkReader (firstn 6 bad_cell_lines) None) = Ok st6
    /\ t_errors st6 = t_errors st
    /\ length (t_errors st) = 10%nat
    /\ t_row_count st = 8.
Proof.
  assert (H : exists st, table_body cell_line (mkReader bad_cell_lines None)
                         = Ok st
                         /\ length (t_errors st) = 10%nat
                         /\ t_row_count st = 8)
    by (eexists; vm_compute; repeat split; reflexivity).
  destruct H as (st & H & Hl & Hr).
  destruct (table_diagnostics_from_first_six_lines bad_cell_lines None)
    as [Hc _].
  destruct (Hc st H) as (st6 & H6 & He).
  exists st, st6. repeat split; assumption.
Defined.

(** *** The minimum-column diagnostics of the body loops *)

Lemma strip_keeps_comma (l : string) :
  startswith l "," = true -> exists s, strip l = String "," s.
Proof.
  unfold startswith. destruct l as [| c l']; [discriminate |].
  cbn [String.prefix]. destruct (ascii_dec "," c) as [<- |]; [| discriminate].
  intros _. unfold strip. cbn [lstrip_by].
  change (is_space ",") with false. cbv iota. cbn [rstrip_by].
  change (is_space ",") with false.
  destruct (rstrip_by is_space l'); eexists; reflexivity.
Qed.

Lemma comma_fields_two (l : string) :
  startswith l "," = true -> 2 <= Zlen (split_on "," (strip l)).
Proof.
  intros H. destruct (strip_keeps_comma l H) as (s & ->).
  cbn [split_on]. change (Ascii.eqb "," ",") with true. cbv iota.
  destruct (split_on_cons "," s) as (f & fs & ->).
  unfold Zlen. cbn [length]. lia.
Qed.

Lemma cell_header_three_columns (w : world) (p : Path) (r0 : reader) :
  open_text w p = Ok r0 ->
  fst (validate_cell_header w p) = true ->
  exists l0 rest, r_lines r0 = l0 :: rest
                  /\ 3 <= Zlen (split_on TAB (strip l0)).
Proof.
  intros Hopen. unfold validate_cell_header. rewrite Hopen. cbn [bind].
  unfold readline. destruct (r_lines r0) as [| l0 rest].
  - destruct (r_fail r0); cbn; discriminate.
  - cbn [bind]. intros H. exists l0, rest. split; [reflexivity |].
    destruct (negb (existsb _ _)); [discriminate |].
    destruct (negb (existsb _ _)); [discriminate |].
    destruct (Nat.ltb_spec (length (split_on TAB (strip l0))) 3);
      [discriminate |].
    unfold Zlen. lia.
Qed.

Lemma matrix_header_two_columns (w : world) (p : Path) (r0 : reader) :
  open_text w p = Ok r0 ->
  fst (validate_count_matrix_structure w p) = true ->
  exists l0 rest, r_lines r0 = l0 :: rest
                  /\ 2 <= Zlen (split_on TAB (strip l0)).
Proof.
  intros Hopen. unfold validate_count_matrix_structure. rewrite Hopen.
  cbn [bind]. unfold readlines, at_eof.
  destruct (r_fail r0); cbn [bind]; [discriminate |].
  unfold matrix_structure_checks.
  destruct (r_lines r0) as [| l0 rest]; [discriminate |].
  destruct (length (l0 :: rest) <? 2)%nat; [discriminate |].
  cbn [index nth_error bind]. intros H. exists l0, rest.
  split; [reflexivity |].
  destruct (Nat.ltb_spec (length (split_on TAB (strip l0))) 2);
    [discriminate |].
  unfold Zlen. lia.
Qed.

(** X10.  The body loops of [parse_cell] and [parse_count_matrix] never
    report "must have at least 3 columns" or "must have at least 2
    columns": a header with too few columns has already been turned down
    by the header check that precedes the loop. *)
Theorem body_never_reports_min_columns
    (v : validator) (w : world) (p : Path) (errs : list diag) :
  v <> VFastq ->
  diagnostics v w p = Some errs ->
  existsb is_min_columns errs = false.
Proof.
  intros Hv. unfold diagnostics.
  destruct (header_ok v w p) eqn:Hh; [| discriminate].
  destruct (body_errors v w p) as [errs' |] eqn:Hb; [| discriminate].
  intros [= <-]. destruct v; [contradiction | |]; cbn in Hh, Hb.
  - apply bind_Ok_inv in Hb. destruct Hb as (r0 & Hopen & Hb).
    apply bind_Ok_inv in Hb. destruct Hb as (st & Hbody & [= <-]).
    destruct (cell_header_three_columns w p r0 Hopen Hh)
      as (l0 & rest & Hl & H3).
    unfold table_body in Hbody. rewrite Hl in Hbody.
    apply bind_Ok_inv in Hbody. destruct Hbody as (st1 & H1 & H2).
    apply bind_Ok_inv in H2. destruct H2 as (u & _ & [= <-]).
    cbn [enumerate_lines] in H1.
    apply bind_Ok_inv in H1. destruct H1 as (st0 & H0 & H1).
    apply (enumerate_rows cell_line cell_line_body_effect) in H1; [| lia].
    destruct H1 as (_ & _ & _ & Hm). apply Hm.
    unfold cell_line in H0. cbn [Z.eqb t_col_count] in H0.
    destruct (Z.ltb_spec (Zlen (split_on TAB (strip l0))) 3); [lia |].
    now injection H0 as <-.
  - apply bind_Ok_inv in Hb. destruct Hb as (r0 & Hopen & Hb).
    apply bind_Ok_inv in Hb. destruct Hb as (st & Hbody & [= <-]).
    destruct (matrix_header_two_columns w p r0 Hopen Hh)
      as (l0 & rest & Hl & Hcols).
    unfold table_body in Hbody. rewrite Hl in Hbody.
    apply bind_Ok_inv in Hbody. destruct Hbody as (st1 & H1 & H2).
    apply bind_Ok_inv in H2. destruct H2 as (u & _ & [= <-]).
    cbn [enumerate_lines] in H1.
    apply bind_Ok_inv in H1. destruct H1 as (st0 & H0 & H1).
    apply (enumerate_rows matrix_line matrix_line_effect) in H1; [| lia].
    destruct H1 as (_ & _ & _ & Hm). apply Hm.
    unfold matrix_line in H0. cbn [Z.eqb t_col_count] in H0.
    assert (Hf : 2 <= Zlen (if startswith l0 ","
                            then split_on "," (strip l0)
                            else split_on TAB (strip l0))).
    { destruct (startswith l0 ",") eqn:Hc;
        [now apply comma_fields_two | exact Hcols]. }
    destruct (Z.ltb_spec (Zlen (if startswith l0 ","
                                then split_on "," (strip l0)
                                else split_on TAB (strip l0))) 2); [lia |].
    now injection H0 as <-.
Qed.

Lemma body_never_reports_min_columns_witness :
  let w := one_file sample_tsv (text_file (String.concat "" bad_cell_lines)) in
  exists errs, diagnostics VCell w sample_tsv = Some errs
               /\ length errs = 10%nat
               /\ existsb is_min_columns errs = false.
Proof.
  assert (H : exists errs,
             diagnostics VCell
               (one_file sample_tsv
                  (text_file (String.concat "" bad_cell_lines))) sample_tsv
             = Some errs /\ length errs = 10%nat)
    by (eexists; vm_compute; split; reflexivity).
  destruct H as (errs & H & Hl).
  exists errs. split; [exact H | split; [exact Hl |]].
  refine (body_never_reports_min_columns VCell _ sample_tsv errs _ H).
  discriminate.
Defined.

(** ** The cumulative report across runs *)

Section Reports.

Variable render_message : message -> string.

Lemma fresh_empty (results : list IngestResult) : fresh ∅ results = results.
Proof.
  unfold fresh. induction results as [| r rs IH]; [reflexivity |].
  cbn [List.filter]. rewrite bool_decide_eq_true_2 by apply not_elem_of_empty.
  now f_equal.
Qed.

Lemma load_not_a_report (d : disk) :
  not_a_report d -> load_report d = ([], ∅).
Proof.
  unfold not_a_report, load_report.
  destruct d as [[j | e] |]; try reflexivity.
  destruct j; try reflexivity. contradiction.
Qed.

Lemma seen_to_dict (results : list IngestResult) :
  seen (map (to_dict render_message) results) = names_of results.
Proof.
  unfold names_of. induction results as [| r rs IH]; [reflexivity |].
  cbn [map seen].
  destruct (to_dict_item render_message r) as [Hr Hn]. rewrite Hr, Hn, IH.
  reflexivity.
Qed.

Lemma generate_report_without_stored
    (now : string) (results : list IngestResult) (d : disk) :
  not_a_report d ->
  generate_report render_message now results d
  = report_data now (map (to_dict render_message) results).
Proof.
  intros H. unfold generate_report. rewrite (load_not_a_report d H).
  now rewrite add_new_fresh, fresh_empty.
Qed.

(** X11.  When the report file is missing, cannot be read or parsed, or
    does not hold a JSON object, [generate_report] writes a report made of
    the whole batch, in order: whatever the file held is replaced. *)
Theorem report_starts_afresh
    (now : string) (results : list IngestResult) (d : disk) :
  not_a_report d ->
  generate_report render_message now results d
  = report_data now (map (to_dict render_message) results).
Proof.
  exact (generate_report_without_stored now results d).
Qed.

(** X12.  When the report file holds a list of records that all load,
    [generate_report] keeps every stored record, unchanged and in order,
    and appends after them, in batch order, exactly the records of the
    batch whose sample name no stored record carries. *)
Theorem report_keeps_stored_records
    (now : string) (results : list IngestResult)
    (fields : list (string * json)) (items : list json) :
  dict_get fields "results" = Some (JArr items) ->
  clean items = true ->
  generate_report render_message now results (Some (Ok (JObj fields)))
  = report_data now
      (items ++ map (to_dict render_message) (fresh (seen items) results)).
Proof.
  intros Hg Hc. unfold generate_report, load_report, results_items.
  rewrite Hg, load_existing_kept, (left_id_L ∅ (∪)).
  cbn [app]. now rewrite add_new_fresh, (kept_clean items Hc).
Qed.

(** X13.  Across two runs that start without a report: every record of the
    first batch is in the second report, and a record of the second batch
    is added exactly when no record of the first batch has its sample
    name, whatever else the two records hold. *)
Theorem report_deduplicates_by_name
    (now1 now2 : string) (batch1 batch2 : list IngestResult) (d : disk) :
  not_a_report d ->
  generate_report render_message now2 batch2
    (after_report render_message now1 batch1 d)
  = report_data now2
      (map (to_dict render_message) batch1
         ++ map (to_dict render_message) (fresh (names_of batch1) batch2)).
Proof.
  intros H. unfold after_report.
  rewrite (generate_report_without_stored now1 batch1 d H).
  unfold generate_report at 1. rewrite load_report_after.
  rewrite (kept_clean _ (to_dict_clean render_message batch1)).
  now rewrite add_new_fresh, seen_to_dict.
Qed.

(** *** [generate_html_report] *)

Lemma filter_new_fresh (results : list IngestResult) (ex : gset string)
    (acc : list IngestResult) :
  HtmlReport.filter_new results ex acc = acc ++ fresh ex results.
Proof.
  revert acc. induction results as [| r rs IH]; intros acc.
  - cbn. now rewrite app_nil_r.
  - cbn [HtmlReport.filter_new fresh List.filter].
    destruct (bool_decide (sample_name r ∉ ex)).
    + rewrite IH, <- app_assoc. reflexivity.
    + apply IH.
Qed.

(** X14.  On the same report file and the same batch, the rows of the HTML
    report are the records that [generate_report] writes. *)
Theorem html_rows_are_the_json_results
    (now : string) (results : list IngestResult) (d : disk) :
  generate_report render_message now results d
  = report_data now (HtmlReport.display_results render_message results d).
Proof.
  unfold generate_report, HtmlReport.display_results.
  destruct (load_report d) as [all ex].
  now rewrite add_new_fresh, filter_new_fresh.
Qed.

Lemma count_status_to_dict (s : Status) (results : list IngestResult) :
  HtmlReport.count_status (status_str s)
    (map (to_dict render_message) results)
  = Ok (Main.count_results s results).
Proof.
  unfold Main.count_results, Zlen.
  induction results as [| r rs IH]; [reflexivity |].
  cbn [map HtmlReport.count_status List.filter].
  rewrite IH.
  change (HtmlReport.has_status (status_str s) (to_dict render_message r))
    with (Ok (String.eqb (status_str (validation_status r)) (status_str s))).
  cbn [bind]. f_equal.
  destruct (validation_status r), s; cbn; lia.
Qed.

Lemma count_results_sum (results : list IngestResult) :
  Main.count_results PASS results + Main.count_results WARN results
  + Main.count_results FAIL results = Zlen results.
Proof.
  unfold Main.count_results, Zlen.
  induction results as [| r rs IH]; [reflexivity |].
  cbn [List.filter]. destruct (validation_status r); cbn [Main.status_eqb length]; lia.
Qed.

(** X15.  When the HTML report starts without a stored report, its summary
    boxes count the batch: the total is the number of records, the PASS,
    WARN and FAIL boxes count the records of each status, and the three add
    up to the total. *)
Theorem html_totals_of_a_batch (results : list IngestResult) (d : disk) :
  not_a_report d ->
  HtmlReport.html_totals render_message results d
  = Ok (Zlen results, Main.count_results PASS results,
        Main.count_results WARN results, Main.count_results FAIL results)
  /\ Main.count_results PASS results + Main.count_results WARN results
     + Main.count_results FAIL results = Zlen results.
Proof.
  intros H. split; [| apply count_results_sum].
  unfold HtmlReport.html_totals, HtmlReport.display_results.
  rewrite (load_not_a_report d H), filter_new_fresh, fresh_empty.
  cbn [app].
  rewrite (count_status_to_dict PASS), (count_status_to_dict WARN),
          (count_status_to_dict FAIL).
  cbn [bind]. unfold Zlen. now rewrite length_map.
Qed.

Lemma count_status_raises (status : string) (display : list json) :
  existsb (fun x => negb (is_dict x)) display = true ->
  HtmlReport.count_status status display = Raise AttributeError.
Proof.
  induction display as [| x rest IH]; [discriminate |].
  cbn [existsb HtmlReport.count_status].
  destruct x; cbn; try reflexivity.
  intros H. now rewrite (IH H).
Qed.

(** X16.  A stored entry that is not a JSON object, met after entries
    that all load, makes the summary of the HTML report raise
    [AttributeError], outside of any [try].  [generate_report] accepts the
    same file: it keeps the entries up to that one and drops every stored
    entry after it. *)
Theorem html_totals_raise_on_non_object
    (now : string) (results : list IngestResult)
    (fields : list (string * json)) (pre post : list json) (x : json) :
  dict_get fields "results" = Some (JArr (pre ++ x :: post)) ->
  clean pre = true ->
  is_dict x = false ->
  HtmlReport.html_totals render_message results (Some (Ok (JObj fields)))
  = Raise AttributeError
  /\ generate_report render_message now results (Some (Ok (JObj fields)))
     = report_data now
         (pre ++ x :: map (to_dict render_message) (fresh (seen pre) results)).
Proof.
  intros Hg Hc Hx.
  assert (Hr : item_raises x = true) by (destruct x; try reflexivity; discriminate).
  destruct (kept_app_clean pre (x :: post) Hc) as [Hk Hs].
  cbn [kept seen] in Hk, Hs. rewrite Hr in Hk, Hs.
  rewrite (right_id_L ∅ (∪)) in Hs.
  split.
  - unfold HtmlReport.html_totals, HtmlReport.display_results,
           load_report, results_items.
    rewrite Hg, load_existing_kept, Hk. cbn [app].
    rewrite count_status_raises; [reflexivity |].
    rewrite !existsb_app. cbn [existsb]. rewrite Hx. cbn [negb orb].
    now rewrite orb_true_r.
  - unfold generate_report, load_report, results_items.
    rewrite Hg, load_existing_kept, Hk, Hs, (left_id_L ∅ (∪)). cbn [app].
    now rewrite add_new_fresh, <- app_assoc.
Qed.

End Reports.

Lemma report_starts_afresh_witness :
  not_a_report (Some (Raise JSONDecodeError))
  /\ generate_report render_plain "2024-05-01T10:00:00"
       [one_result; fail_result] (Some (Raise JSONDecodeError))
     = report_data "2024-05-01T10:00:00"
         [to_dict render_plain one_result; to_dict render_plain fail_result].
Proof.
  split; [exact I |].
  exact (report_starts_afresh render_plain "2024-05-01T10:00:00"
           [one_result; fail_result] (Some (Raise JSONDecodeError)) I).
Defined.

Lemma report_keeps_stored_records_witness :
  let stored := [to_dict render_plain one_result] in
  let fields := [("timestamp", JStr "2024-05-01T10:00:00");
                 ("total_files", JInt 1); ("results", JArr stored)] in
  dict_get fields "results" = Some (JArr stored)
  /\ clean stored = true
  /\ generate_report render_plain "2024-05-02T08:00:00"
       [renamed_result; fail_result] (Some (Ok (JObj fields)))
     = report_data "2024-05-02T08:00:00"
         (stored ++ [to_dict render_plain fail_result]).
Proof.
  split; [reflexivity | split; [reflexivity |]].
  rewrite (report_keeps_stored_records render_plain "2024-05-02T08:00:00"
             [renamed_result; fail_result]
             [("timestamp", JStr "2024-05-01T10:00:00");
              ("total_files", JInt 1);
              ("results", JArr [to_dict render_plain one_result])]
             [to_dict render_plain one_result] eq_refl eq_refl).
  vm_compute. reflexivity.
Defined.

Lemma report_deduplicates_by_name_witness :
  not_a_report None
  /\ generate_report render_plain "2024-05-02T08:00:00"
       [renamed_result; fail_result]
       (after_report render_plain "2024-05-01T10:00:00" [one_result] None)
     = report_data "2024-05-02T08:00:00"
         [to_dict render_plain one_result; to_dict render_plain fail_result].
Proof.
  split; [exact I |].
  rewrite (report_deduplicates_by_name render_plain "2024-05-01T10:00:00"
             "2024-05-02T08:00:00" [one_result]
             [renamed_result; fail_result] None I).
  vm_compute. reflexivity.
Defined.

Lemma html_totals_of_a_batch_witness :
  not_a_report None
  /\ HtmlReport.html_totals render_plain [one_result; fail_result] None
     = Ok (2, 1, 0, 1).
Proof.
  split; [exact I |].
  destruct (html_totals_of_a_batch render_plain [one_result; fail_result]
              None I) as [H _].
  rewrite H. reflexivity.
Defined.

Lemma html_totals_raise_on_non_object_witness :
  let stored := to_dict render_plain one_result in
  let fields := [("results", JArr [stored; JStr "note"; stored])] in
  dict_get fields "results" = Some (JArr ([stored] ++ JStr "note" :: [stored]))
  /\ clean [stored] = true
  /\ is_dict (JStr "note") = false
  /\ HtmlReport.html_totals render_plain [fail_result]
       (Some (Ok (JObj fields))) = Raise AttributeError
  /\ generate_report render_plain "2024-05-02T08:00:00" [fail_result]
       (Some (Ok (JObj fields)))
     = report_data "2024-05-02T08:00:00"
         [stored; JStr "note"; to_dict render_plain fail_result].
Proof.
  do 3 (split; [reflexivity |]).
  destruct (html_totals_raise_on_non_object render_plain
              "2024-05-02T08:00:00" [fail_result]
              [("results", JArr [to_dict render_plain one_result; JStr "note";
                                 to_dict render_plain one_result])]
              [to_dict render_plain one_result]
              [to_dict render_plain one_result] (JStr "note")
              eq_refl eq_refl eq_refl) as [H1 H2].
  split; [exact H1 |]. rewrite H2. vm_compute. reflexivity.
Defined.

(** ** The batch of [main] *)

Lemma process_samples_existing (w : world) (samples : list Path)
    (did : option string) :
  exists results,
    process_samples w samples did = Ok results
    /\ Zlen results = Zlen (List.filter (exists_ w) samples).
Proof.
  unfold Zlen. induction samples as [| p rest IH]; cbn [process_samples List.filter].
  - now exists [].
  - destruct IH as (rs & Hrs & Hlen).
    destruct (exists_ w p) eqn:He; cbn [negb].
    + unfold exists_ in He.
      destruct (fs w (path_str p)) as [f |] eqn:Hf; [| discriminate].
      destruct (ingest_returns w p did f Hf) as [r Hr].
      rewrite Hr, Hrs. cbn [bind]. exists (r :: rs).
      split; [reflexivity |]. cbn [length]. lia.
    + now exists rs.
Qed.

Lemma count_fail_zero (results : list IngestResult) :
  Main.count_results FAIL results = 0
  <-> Forall (fun r => validation_status r <> FAIL) results.
Proof.
  unfold Main.count_results, Zlen.
  induction results as [| r rs IH]; cbn [List.filter].
  - split; [constructor | reflexivity].
  - destruct (validation_status r) eqn:Hs; cbn [Main.status_eqb length].
    + rewrite IH. split; intros H.
      * constructor; [rewrite Hs; discriminate | exact H].
      * now inversion H.
    + rewrite IH. split; intros H.
      * constructor; [rewrite Hs; discriminate | exact H].
      * now inversion H.
    + split; [lia |]. intros H. inversion H. congruence.
Qed.

(** X17.  The batch loop of [main] returns one record for each path that
    exists, and none for the others.  Run with [--no-report], [main] exits
    with status 0 exactly when at least one path exists and no record is
    FAIL, and with status 1 otherwise; the PASS, WARN and FAIL counts of its
    summary add up to the number of records. *)
Theorem main_exit_status (w : world) (samples : list Path)
    (did : option string) :
  exists results,
    process_samples w samples did = Ok results
    /\ Zlen results = Zlen (List.filter (exists_ w) samples)
    /\ Main.count_results PASS results + Main.count_results WARN results
       + Main.count_results FAIL results = Zlen results
    /\ (Main.main_no_report w samples did = Ok 0
        \/ Main.main_no_report w samples did = Ok 1)
    /\ (Main.main_no_report w samples did = Ok 0
        <-> results <> []
            /\ Forall (fun r => validation_status r <> FAIL) results).
Proof.
  destruct (process_samples_existing w samples did) as (results & Hr & Hlen).
  exists results. split; [exact Hr |]. split; [exact Hlen |].
  split; [apply count_results_sum |].
  unfold Main.main_no_report. rewrite Hr. cbn [bind].
  destruct results as [| r rs].
  - split; [now right |]. split; [discriminate | intros [H _]; contradiction].
  - pose proof (count_fail_zero (r :: rs)) as Hz.
    assert (Hnn : 0 <= Main.count_results FAIL (r :: rs))
      by (unfold Main.count_results, Zlen; lia).
    destruct (Z.ltb_spec 0 (Main.count_results FAIL (r :: rs))).
    + split; [now right |]. split; [discriminate |].
      intros [_ H']. apply Hz in H'. lia.
    + split; [now left |]. split; [| reflexivity].
      intros _. split; [discriminate |]. apply Hz. lia.
Qed.

(** A batch with a file of unknown type, and a missing path, exits 1. *)
Example main_exits_1_on_unknown_file :
  let w := one_file sample_sam bam_good_magic in
  Main.main_no_report w [in_data "missing.bam"; sample_sam] None = Ok 1
  /\ Main.main_no_report w [in_data "missing.bam"] None = Ok 1.
Proof. vm_compute. split; reflexivity. Qed.

(** ** [HTMLTableParser] *)

Lemma feed_app (self : HtmlTable.parser) (e1 e2 : list HtmlTable.event) :
  HtmlTable.feed self (e1 ++ e2) = HtmlTable.feed (HtmlTable.feed self e1) e2.
Proof. unfold HtmlTable.feed. apply fold_left_app. Qed.

(** X18.  As long as no [tbody] start tag has been met, the handlers of
    [HTMLTableParser] change nothing: a document without one leaves the
    parser as [__init__] made it, with no sample. *)
Theorem table_parser_idle_outside_tbody (events : list HtmlTable.event) :
  forallb (fun e => match e with
                    | HtmlTable.StartTag tag => negb (String.eqb tag "tbody")
                    | _ => true
                    end) events = true ->
  HtmlTable.feed HtmlTable.init events = HtmlTable.init.
Proof.
  unfold HtmlTable.feed.
  induction events as [| e rest IH]; [reflexivity |].
  cbn [forallb fold_left]. intros H.
  apply andb_true_iff in H. destruct H as [He Hr].
  assert (Hstep : HtmlTable.handle HtmlTable.init e = HtmlTable.init).
  { destruct e as [tag | tag | data]; cbn.
    - unfold HtmlTable.handle_starttag.
      destruct (String.eqb tag "tbody"); [discriminate |].
      cbn. now rewrite andb_false_r.
    - unfold HtmlTable.handle_endtag.
      destruct (String.eqb tag "tbody"); [reflexivity |].
      cbn. now rewrite !andb_false_r.
    - reflexivity. }
  rewrite Hstep. now apply IH.
Qed.

Lemma table_parser_idle_outside_tbody_witness :
  let events := HtmlTable.row_events ["s1"; "FASTQ"] in
  HtmlTable.feed HtmlTable.init events = HtmlTable.init.
Proof.
  apply (table_parser_idle_outside_tbody (HtmlTable.row_events ["s1"; "FASTQ"])).
  reflexivity.
Defined.

(** One cell met inside [tbody] and outside any cell: its text, when it
    has one, is appended to [current_row]; the first cell of a row then
    moves the first text of [current_row] to [samples] and empties it. *)
Lemma table_parser_cell (S : gset string) (n : Z) (row : list string)
    (text : string) :
  HtmlTable.feed (HtmlTable.mkParser S true false n row)
                 (HtmlTable.cell_events text)
  = (if (n + 1) mod 6 =? 1 then
       HtmlTable.mkParser
         (match (if HtmlTable.has_text text then row ++ [strip text]
                 else row) with
          | first :: _ => {[ first ]} ∪ S
          | [] => S
          end) true false (n + 1) []
     else
       HtmlTable.mkParser S true false (n + 1)
         (if HtmlTable.has_text text then row ++ [strip text] else row)).
Proof.
  unfold HtmlTable.cell_events, HtmlTable.feed.
  destruct (HtmlTable.has_text text);
    cbn [app fold_left HtmlTable.handle];
    unfold HtmlTable.handle_starttag, HtmlTable.handle_endtag,
           HtmlTable.handle_data;
    cbn [String.eqb Ascii.eqb Bool.eqb andb HtmlTable.in_tbody
         HtmlTable.in_td HtmlTable.samples HtmlTable.cell_count
         HtmlTable.current_row];
    destruct ((n + 1) mod 6 =? 1); reflexivity.
Qed.

Lemma append_text_cons (a : string) (l : list string) (text : string) :
  exists rest,
    (if HtmlTable.has_text text then (a :: l) ++ [strip text] else a :: l)
    = a :: rest.
Proof. destruct (HtmlTable.has_text text); eexists; reflexivity. Qed.

(** One row of six cells, met inside [tbody]: its first cell adds to
    [samples] the first text [current_row] holds by then, and the texts of
    its other cells stay in [current_row]. *)
Lemma table_parser_row (S : gset string) (left_over : list string)
    (r : HtmlTable.report_row) :
  HtmlTable.has_text (HtmlTable.c_type r) = true ->
  left_over <> [] \/ HtmlTable.has_text (HtmlTable.c_sample r) = true ->
  exists rest,
    HtmlTable.feed (HtmlTable.mkParser S true false 0 left_over)
                   (HtmlTable.row_events (HtmlTable.row_cells r))
    = HtmlTable.mkParser
        ({[ hd (strip (HtmlTable.c_sample r)) left_over ]} ∪ S) true false 0
        (strip (HtmlTable.c_type r) :: rest).
Proof.
  intros Hty Hfirst.
  destruct (append_text_cons (strip (HtmlTable.c_type r)) []
              (HtmlTable.c_size r)) as (r3 & E3).
  destruct (append_text_cons (strip (HtmlTable.c_type r)) r3
              (HtmlTable.c_reads r)) as (r4 & E4).
  destruct (append_text_cons (strip (HtmlTable.c_type r)) r4
              (HtmlTable.c_status r)) as (r5 & E5).
  destruct (append_text_cons (strip (HtmlTable.c_type r)) r5
              (HtmlTable.c_message r)) as (r6 & E6).
  exists r6.
  unfold HtmlTable.row_events, HtmlTable.row_cells.
  cbn [flat_map].
  change (HtmlTable.feed ?p (HtmlTable.StartTag "tr" :: ?e))
    with (HtmlTable.feed p e).
  rewrite app_nil_r, <- !app_assoc.
  rewrite feed_app, table_parser_cell.
  change ((0 + 1) mod 6 =? 1) with true. cbv iota.
  rewrite feed_app, table_parser_cell.
  change ((0 + 1 + 1) mod 6 =? 1) with false. cbv iota.
  rewrite Hty. cbn [app]. rewrite feed_app, table_parser_cell.
  change ((0 + 1 + 1 + 1) mod 6 =? 1) with false. cbv iota. rewrite E3.
  rewrite feed_app, table_parser_cell.
  change ((0 + 1 + 1 + 1 + 1) mod 6 =? 1) with false. cbv iota. rewrite E4.
  rewrite feed_app, table_parser_cell.
  change ((0 + 1 + 1 + 1 + 1 + 1) mod 6 =? 1) with false. cbv iota.
  rewrite E5.
  rewrite feed_app, table_parser_cell.
  change ((0 + 1 + 1 + 1 + 1 + 1 + 1) mod 6 =? 1) with false. cbv iota.
  rewrite E6.
  change (HtmlTable.feed ?p [HtmlTable.EndTag "tr"])
    with (HtmlTable.handle_endtag p "tr").
  unfold HtmlTable.handle_endtag.
  cbn [String.eqb Ascii.eqb Bool.eqb andb HtmlTable.in_tbody
       HtmlTable.in_td HtmlTable.samples HtmlTable.cell_count
       HtmlTable.current_row].
  f_equal.
  destruct left_over as [| t l].
  - destruct Hfirst as [Hne | ->]; [now destruct Hne | reflexivity].
  - destruct (HtmlTable.has_text (HtmlTable.c_sample r)); reflexivity.
Qed.

Lemma last_cons {A : Type} (l : list A) (a d : A) :
  List.last (a :: l) d = List.last l a.
Proof.
  revert a d. induction l as [| b l IH]; intros a d; [reflexivity |].
  change (List.last (a :: b :: l) d) with (List.last (b :: l) d).
  now rewrite (IH b d), (IH b a).
Qed.

Lemma table_parser_rows (S : gset string) (prev : HtmlTable.report_row)
    (rest_prev : list string) (rows : list HtmlTable.report_row) :
  forallb (fun r => HtmlTable.has_text (HtmlTable.c_type r)) rows = true ->
  exists rest,
    HtmlTable.feed
      (HtmlTable.mkParser S true false 0
         (strip (HtmlTable.c_type prev) :: rest_prev))
      (flat_map HtmlTable.row_events (map HtmlTable.row_cells rows))
    = HtmlTable.mkParser
        (list_to_set (map (fun r => strip (HtmlTable.c_type r))
                          (removelast (prev :: rows))) ∪ S)
        true false 0
        (strip (HtmlTable.c_type (List.last rows prev)) :: rest).
Proof.
  revert S prev rest_prev.
  induction rows as [| r rs IH]; intros S prev rest_prev Hty.
  - exists rest_prev. cbn. now rewrite (left_id_L ∅ (∪)).
  - cbn [forallb] in Hty. apply andb_true_iff in Hty.
    destruct Hty as [Hr Hrs].
    destruct (table_parser_row S (strip (HtmlTable.c_type prev) :: rest_prev)
                r Hr) as (rest1 & E1); [now left |].
    destruct (IH ({[ strip (HtmlTable.c_type prev) ]} ∪ S) r rest1 Hrs)
      as (rest & E).
    exists rest. cbn [map flat_map]. rewrite feed_app, E1.
    cbn [hd]. rewrite E.
    change (removelast (prev :: r :: rs)) with (prev :: removelast (r :: rs)).
    rewrite (last_cons rs r prev). cbn [map list_to_set]. f_equal.
    rewrite (assoc_L (∪)), (comm_L (∪) _ {[ strip (HtmlTable.c_type prev) ]}).
    reflexivity.
Qed.

(** X19.  Fed the body of a report table, whose rows have six cells with a
    text in the first cell of the first row and in the second cell of
    every row, [HTMLTableParser] collects the sample name of the first row
    only: from the second row on, the cell it adds to [samples] is the
    input type of the row before, because [current_row] is emptied after
    the first cell of a row and the other cells stay in it. *)
Theorem table_parser_collects_previous_type
    (first : HtmlTable.report_row) (rows : list HtmlTable.report_row) :
  HtmlTable.has_text (HtmlTable.c_sample first) = true ->
  forallb (fun r => HtmlTable.has_text (HtmlTable.c_type r)) (first :: rows)
  = true ->
  HtmlTable.samples
    (HtmlTable.feed HtmlTable.init
       (HtmlTable.tbody_events (map HtmlTable.row_cells (first :: rows))))
  = {[ strip (HtmlTable.c_sample first) ]}
    ∪ list_to_set (map (fun r => strip (HtmlTable.c_type r))
                       (removelast (first :: rows))).
Proof.
  intros Hs Hty. cbn [forallb] in Hty. apply andb_true_iff in Hty.
  destruct Hty as [Hf Hrs].
  unfold HtmlTable.tbody_events.
  change (HtmlTable.feed HtmlTable.init (HtmlTable.StartTag "tbody" :: ?e))
    with (HtmlTable.feed (HtmlTable.mkParser ∅ true false 0 []) e).
  cbn [map flat_map].
  destruct (table_parser_row ∅ [] first Hf) as (rest1 & E1); [now right |].
  destruct (table_parser_rows ({[ strip (HtmlTable.c_sample first) ]} ∪ ∅)
              first rest1 rows Hrs) as (rest & E).
  rewrite <- app_assoc, feed_app, E1. cbn [hd].
  rewrite feed_app, E.
  cbn. rewrite (right_id_L ∅ (∪)). apply (comm_L (∪)).
Qed.

Lemma table_parser_collects_previous_type_witness :
  HtmlTable.samples
    (HtmlTable.feed HtmlTable.init
       (HtmlTable.tbody_events
          (map HtmlTable.row_cells
               [HtmlTable.mkRow "s1" "FASTQ" "1.00 MB" "1,001" "PASS" "";
                HtmlTable.mkRow "s2" "BAM" "2.00 MB" "N/A" "PASS" "ok"])))
  = {[ strip "s1" ]} ∪ list_to_set [strip "FASTQ"].
Proof.
  apply (table_parser_collects_previous_type
           (HtmlTable.mkRow "s1" "FASTQ" "1.00 MB" "1,001" "PASS" "")
           [HtmlTable.mkRow "s2" "BAM" "2.00 MB" "N/A" "PASS" "ok"]);
    reflexivity.
Defined.

(** ** What the body loops raise *)

Lemma fastq_loop_returns (ls : list string) (st : fastq_state) :
  (length (q_lines st) < 4)%nat ->
  exists st' b, fastq_loop ls st = Ok (st', b).
Proof.
  revert st. induction ls as [| line rest IH]; intros st Hk;
    cbn [fastq_loop]; [now eexists _, _ |].
  assert (Hlen : length (q_lines st ++ [rstrip_newline line])
                 = S (length (q_lines st)))
    by (rewrite length_app; simpl; lia).
  destruct (Nat.eqb_spec (length (q_lines st ++ [rstrip_newline line])) 4)
    as [H4 | H4].
  - destruct (unpack4_length _ H4) as (hd & sq & pl & ql & ->). cbn [bind].
    destruct (1000 <? q_read_count st + 1); [now eexists _, _ |].
    apply IH. cbn. lia.
  - apply IH. cbn [q_lines]. lia.
Qed.

Lemma count_field_raises (line_num : Z) (field : string) (st : table_state)
    (e : exn) :
  count_field line_num field st = Raise e ->
  e = OverflowError /\ exists s, py_float field = Some (S754_infinity s).
Proof.
  unfold count_field. destruct (py_float field) as [val |]; [| discriminate].
  destruct val as [s | s | | s m ex]; cbn [int_of_float is_ValueError];
    try discriminate.
  intros [= <-]. split; [reflexivity | now exists s].
Qed.

Lemma count_fields_raises (line_num : Z) (fields : list string)
    (st : table_state) (e : exn) :
  count_fields line_num fields st = Raise e ->
  e = OverflowError
  /\ exists field s, In field fields /\ py_float field = Some (S754_infinity s).
Proof.
  revert st. induction fields as [| fld rest IH]; intros st;
    cbn [count_fields]; [discriminate |].
  destruct (count_field line_num fld st) as [st1 | e1] eqn:E; cbn [bind].
  - intros H. destruct (IH _ H) as (He & f & s & Hin & Hf).
    split; [exact He |]. exists f, s. split; [now right | exact Hf].
  - intros [= <-]. destruct (count_field_raises _ _ _ _ E) as (He & s & Hf).
    split; [exact He |]. exists fld, s. split; [now left | exact Hf].
Qed.

Lemma matrix_line_raises (line_num : Z) (line : string) (st : table_state)
    (e : exn) :
  matrix_line line_num line st = Raise e -> e = OverflowError.
Proof.
  unfold matrix_line.
  set (fields := if startswith line "," then split_on "," (strip line)
                 else split_on TAB (strip line)).
  assert (Hf : exists f0 fs, fields = f0 :: fs).
  { unfold fields. destruct (startswith line ","); apply split_on_cons. }
  destruct Hf as (f0 & fs & ->).
  destruct (line_num =? 0); [discriminate |].
  cbn [index nth_error bind tail]. intros H.
  now destruct (count_fields_raises _ _ _ _ H).
Qed.

Lemma enumerate_matrix_raises (line_num : Z) (ls : list string)
    (st : table_state) (e : exn) :
  enumerate_lines matrix_line line_num ls st = Raise e -> e = OverflowError.
Proof.
  revert line_num st. induction ls as [| l ls IH]; intros line_num st;
    cbn [enumerate_lines]; [discriminate |].
  destruct (matrix_line line_num l st) as [st1 | e1] eqn:E; cbn [bind].
  - apply IH.
  - intros [= <-]. exact (matrix_line_raises _ _ _ _ E).
Qed.

Lemma enumerate_cell_returns (line_num : Z) (ls : list string)
    (st : table_state) :
  exists st', enumerate_lines cell_line line_num ls st = Ok st'.
Proof.
  revert line_num st. induction ls as [| l ls IH]; intros line_num st;
    cbn [enumerate_lines]; [now eexists |].
  destruct (cell_line_effect line_num l st) as (st1 & -> & _). cbn [bind].
  apply IH.
Qed.

(** X20.  The body loops raise almost nothing of their own.  The loops of
    [parse_fastq] and [parse_cell] are left by an exception only when
    reading the file raises it.  The loop of [parse_count_matrix] can also
    be left by the [OverflowError] of [int(val)] on an infinite value,
    which is met at any row and is not a [ValueError]. *)
Theorem body_loops_raise_only (r : reader) (e : exn) :
  (fastq_body r = Raise e -> r_fail r = Some e)
  /\ (table_body cell_line r = Raise e -> r_fail r = Some e)
  /\ (table_body matrix_line r = Raise e ->
      r_fail r = Some e \/ e = OverflowError).
Proof.
  split; [| split].
  - unfold fastq_body.
    destruct (fastq_loop_returns (r_lines r) (mkFastqState [] 0 [] []))
      as (st & b & ->); [cbn; lia |].
    cbn [bind]. unfold at_eof.
    destruct b; [discriminate |].
    destruct (r_fail r); cbn [bind]; [now intros [= <-] | discriminate].
  - unfold table_body.
    destruct (enumerate_cell_returns 0 (r_lines r) (mkTableState [] [] 0 0))
      as (st & ->).
    cbn [bind]. unfold at_eof.
    destruct (r_fail r); cbn [bind]; [now intros [= <-] | discriminate].
  - unfold table_body.
    destruct (enumerate_lines matrix_line 0 (r_lines r)
                (mkTableState [] [] 0 0)) as [st | e1] eqn:E; cbn [bind].
    + unfold at_eof.
      destruct (r_fail r); cbn [bind];
        [intros [= <-]; now left | discriminate].
    + intros [= <-]. right. exact (enumerate_matrix_raises _ _ _ _ E).
Qed.

Lemma body_loops_raise_only_witness :
  let r := reader_of (mkStream (unlines (matrix_header :: repeat matrix_row 6
                                           ++ [tsv ["g"; "inf"]])) None) in
  table_body matrix_line r = Raise OverflowError
  /\ (r_fail r = Some OverflowError \/ OverflowError = OverflowError).
Proof.
  assert (H : table_body matrix_line
                (reader_of (mkStream
                   (unlines (matrix_header :: repeat matrix_row 6
                               ++ [tsv ["g"; "inf"]])) None))
              = Raise OverflowError) by (vm_compute; reflexivity).
  split; [exact H |].
  destruct (body_loops_raise_only
              (reader_of (mkStream
                 (unlines (matrix_header :: repeat matrix_row 6
                             ++ [tsv ["g"; "inf"]])) None))
              OverflowError) as (_ & _ & Hm).
  exact (Hm H).
Defined.

(** An infinite count passes the structure check and the sniffer, and ends
    as a FAIL record with a parsing error, also past the fifth row. *)
Example infinite_count_is_a_parsing_error :
  let w := one_file sample_tsv matrix_with_inf in
  fst (validate_count_matrix_structure w sample_tsv) = true
  /\ fst (detect_input_type w sample_tsv) = MATRIX
  /\ exists r, ingest w sample_tsv None = Ok r
               /\ validation_status r = FAIL
               /\ validation_message r = ParsingError OverflowError.
Proof.
  split; [vm_compute; reflexivity | split; [vm_compute; reflexivity |]].
  eexists. vm_compute. repeat split; reflexivity.
Qed.
